(** * Resource manager of a configured core-op

    A shallow embedding of
    [hailort/libhailort/src/core_op/resource_manager/resource_manager.cpp]:
    the per-context resources ([ContextResources]) and the top-level
    [ResourcesManager] (control-header assembly, the configuration handshake,
    interrupt routing and the hardware-only inference helpers).

    Conventions.
    - Fixed-width unsigned integers are [Z] values; where the C++ arithmetic
      can wrap, the wrap-around is written out ([wrap8], [wrap32]).
    - [Expected<T>] is the type [Expected T]; a function returning
      [hailo_status] returns the status itself.
    - A loop whose [uint8_t] counter is compared with a [size_t] bound is
      modelled with fuel: it need not terminate when the bound exceeds 255.
      Such functions return an [outcome]: [Done] on normal return, [Crash]
      where the C++ behaviour is undefined or an exception escapes, and
      [Timeout] when the fuel did not suffice.
    - Collaborators that live in other files (driver, channel allocator,
      descriptor lists, firmware control layer, protocol constants) are the
      fields of the class [Platform]. *)

From Stdlib Require Import ZArith Lia.
From stdpp Require Import base tactics option list gmap strings.

Local Open Scope Z_scope.

(** ** Status codes *)

(** The values of [hailo_status] other than [HAILO_SUCCESS] that this file
    produces or tests. *)
Inductive hailo_error : Set :=
| HAILO_INVALID_ARGUMENT
| HAILO_INTERNAL_FAILURE
| HAILO_NOT_FOUND
| HAILO_INVALID_OPERATION
| HAILO_INVALID_CONTEXT_COUNT
| HAILO_OUT_OF_HOST_MEMORY
| HAILO_STREAM_ABORTED_BY_USER
| HAILO_STREAM_NOT_ACTIVATED.

Inductive hailo_status : Set :=
| HAILO_SUCCESS
| HAILO_ERROR (error : hailo_error).

Coercion HAILO_ERROR : hailo_error >-> hailo_status.

#[global] Instance hailo_error_eq_dec : EqDecision hailo_error.
Proof. solve_decision. Defined.

#[global] Instance hailo_status_eq_dec : EqDecision hailo_status.
Proof. solve_decision. Defined.

(** [Expected<T>]: a value, or a status other than [HAILO_SUCCESS] made
    unexpected. *)
Inductive Expected (A : Type) : Type :=
| Value (a : A)
| Unexpected (status : hailo_error).
Arguments Value {A} a.
Arguments Unexpected {A} status.

(** The result of running a model function. *)
Inductive outcome (A : Type) : Type :=
| Done (a : A)
| Crash
| Timeout.
Arguments Done {A} a.
Arguments Crash {A}.
Arguments Timeout {A}.

(** ** Fixed-width integers *)

Definition UINT8_MAX : Z := 255.
Definition UINT16_MAX : Z := 65535.

Definition wrap8 (n : Z) : Z := n mod 256.
Definition wrap32 (n : Z) : Z := n mod 4294967296.

Definition IS_FIT_IN_UINT16 (n : Z) : bool := (0 <=? n) && (n <=? UINT16_MAX).

(** [MIN(a, b)] *)
Definition MIN (a b : Z) : Z := if a <? b then a else b.

(** ** Identifiers and layer descriptors *)

(** [vdma::ChannelId] *)
Record ChannelId : Set := mkChannelId {
  engine_index : Z;
  channel_index : Z
}.

#[global] Instance ChannelId_eq_dec : EqDecision ChannelId.
Proof. solve_decision. Defined.

#[global] Instance ChannelId_countable : Countable ChannelId.
Proof.
  refine (inj_countable' (fun c => (engine_index c, channel_index c))
            (fun p => mkChannelId p.1 p.2) _).
  by intros [].
Defined.

(** [operator<] of [vdma::ChannelId]: engine first, then channel. *)
Definition ChannelId_ltb (a b : ChannelId) : bool :=
  (engine_index a <? engine_index b)
  || ((engine_index a =? engine_index b) && (channel_index a <? channel_index b)).

Inductive LayerType : Set := NOT_SET | BOUNDARY | INTER_CONTEXT | DDR | CFG.

#[global] Instance LayerType_eq_dec : EqDecision LayerType.
Proof. solve_decision. Defined.

Inductive hailo_stream_direction_t : Set := HAILO_H2D_STREAM | HAILO_D2H_STREAM.

#[global] Instance hailo_stream_direction_eq_dec : EqDecision hailo_stream_direction_t.
Proof. solve_decision. Defined.

(** [HailoRTDriver::DmaDirection] *)
Inductive DmaDirection : Set := H2D | D2H.

(** [HailoRTDriver::DmaType] *)
Inductive DmaType : Set := PCIE | DRAM.

#[global] Instance DmaType_eq_dec : EqDecision DmaType.
Proof. solve_decision. Defined.

Inductive hailo_format_order_t : Set :=
| HAILO_FORMAT_ORDER_HAILO_NMS
| HAILO_FORMAT_ORDER_OTHER (code : Z).

#[global] Instance hailo_format_order_eq_dec : EqDecision hailo_format_order_t.
Proof. solve_decision. Defined.

(** The fields of [LayerInfo] this file reads. *)
Record LayerInfo : Set := mkLayerInfo {
  type : LayerType;
  direction : hailo_stream_direction_t;
  name : string;
  network_name : string;
  stream_index : Z;
  dma_engine_index : Z;
  format_order : hailo_format_order_t;
  periph_bytes_per_buffer : Z;
  core_buffers_per_frame : Z
}.

(** [LayerIdentifier]: (layer kind, name, index). *)
Definition LayerIdentifier : Set := LayerType * string * Z.

(** [hailo_stream_info_t], as far as the hardware-only flow reads it. *)
Record StreamInfo : Set := mkStreamInfo {
  stream_format_order : hailo_format_order_t;
  nms_bbox_size : Z;
  hw_frame_size : Z
}.

(** [HailoRTDriver], as far as this file queries it. *)
Record Driver : Set := mkDriver {
  dma_type : DmaType;
  dma_engines_count : Z;
  desc_max_page_size : Z
}.

(** ** Buffers and channels owned by the manager *)

Record ConfigBuffer : Set := mkConfigBuffer {
  config_channel_id : ChannelId;
  config_buffer_info : list Z
}.

Record EdgeLayer : Set := mkEdgeLayer {
  layer_info : LayerInfo;
  channel_id : ChannelId;
  buffer_info : Z
}.

(** [vdma::InterruptsDomain] *)
Inductive InterruptsDomain : Set := NONE | DEVICE | HOST | BOTH.

#[global] Instance InterruptsDomain_eq_dec : EqDecision InterruptsDomain.
Proof. solve_decision. Defined.

(** One call of [DescriptorList::program_last_descriptor]. *)
Record ProgramCall : Set := mkProgramCall {
  transfer_size : Z;
  last_desc_interrupts_domain : InterruptsDomain;
  desc_offset : Z;
  is_circular : bool
}.

(** [vdma::DescriptorList]: its geometry and the programming done on it. *)
Record DescriptorList : Set := mkDescriptorList {
  desc_count : Z;
  desc_page_size : Z;
  programmed : list ProgramCall
}.

Record LatencyMeter : Set := mkLatencyMeter {
  d2h_channel_names : list string;
  timestamps_list_length : Z
}.

Inductive BoundaryChannelType : Set := BUFFERED | ASYNC.

(** [vdma::BoundaryChannel]: what [BoundaryChannel::create] was given. *)
Record BoundaryChannel : Set := mkBoundaryChannel {
  get_channel_id : ChannelId;
  channel_direction : DmaDirection;
  get_desc_list : DescriptorList;
  stream_name : string;
  latency_meter : option LatencyMeter;
  transfers_per_axi_intr : Z;
  channel_type : BoundaryChannelType
}.

(** [InterContextBuffer]: what [InterContextBuffer::create] was given. *)
Record InterContextBuffer : Set := mkInterContextBuffer {
  inter_transfer_size : Z;
  inter_batch_size : Z;
  inter_d2h_channel_id : ChannelId
}.

(** ** Control protocol *)

(** [CONTROL_PROTOCOL__application_header_t] *)
Record application_header_t : Set := mkApplicationHeader {
  dynamic_contexts_count : Z;
  preliminary_run_asap : bool;
  is_abbale_supported : bool;
  networks_count : Z;
  batch_size : list Z;
  csm_buffer_size : Z
}.

(** A serialized context-switch control ([..._single_control_t]). *)
Definition single_control_t : Set := list Z.

(** The two messages [configure] sends through [Control::]. *)
Inductive control_message : Set :=
| context_switch_set_network_group_header (header : application_header_t)
| context_switch_set_context_info (controls : list single_control_t).

(** ** Interrupt records *)

Record ChannelIrqData : Set := mkChannelIrqData {
  irq_channel_id : ChannelId;
  is_active : bool;
  desc_num_processed : Z;
  host_error : Z;
  device_error : Z
}.

(** [IrqData]: [channels_count] is a [uint8_t]. *)
Record IrqData : Set := mkIrqData {
  channels_count : Z;
  channels_irq_data : list ChannelIrqData
}.

(** What [process_interrupts] does to the outside world, in order. *)
Inductive irq_event : Set :=
| log_no_such_boundary_channel (id : ChannelId)
| log_channel_error (id : ChannelId) (host_err device_err : Z)
| log_aborted_by_external_source (id : ChannelId)
| trigger_channel_completion (id : ChannelId) (descs : Z)
| log_trigger_failed (id : ChannelId) (status : hailo_status).

(** ** Configuration parameters and metadata *)

Record hailo_network_parameters_t : Set := mkNetworkParameters {
  network_batch_size : Z
}.

Record hailo_stream_parameters_t : Set := mkStreamParameters {
  flags : Z
}.

(** [ConfigureNetworkParams]; [network_params_by_name] in iteration order. *)
Record ConfigureNetworkParams : Type := mkConfigureNetworkParams {
  config_batch_size : Z;
  latency : Z;
  network_params_by_name : list (string * hailo_network_parameters_t);
  stream_params_by_name : gmap string hailo_stream_parameters_t
}.

(** [CoreOpMetadata], as far as this file queries it. *)
Record CoreOpMetadata : Set := mkCoreOpMetadata {
  supported_preliminary_run_asap : bool;
  get_all_layer_infos : list LayerInfo;
  get_network_names : list string
}.

(** ** Collaborators defined in other files

    Protocol constants, the channel allocator, and the outcomes of calls
    into the driver, the descriptor lists, the channels and the firmware.
    A status oracle receives what was done before the call, so that a
    collaborator may answer the same request differently over time. *)
Class Platform : Type := {
  CONTROL_PROTOCOL__CONTEXT_SWITCH_CONTEXT_TYPE_COUNT : Z;
  CONTROL_PROTOCOL__CONTEXT_SWITCH_CONTEXT_TYPE_DYNAMIC : Z;
  CONTROL_PROTOCOL__MAX_NETWORKS_PER_NETWORK_GROUP : Z;
  HAILO_DEFAULT_BATCH_SIZE : Z;
  DEFAULT_ACTUAL_BATCH_SIZE : Z;
  MIN_ACTIVE_TRANSFERS_SCALE : Z;
  MAX_ACTIVE_TRANSFERS_SCALE : Z;
  MAX_DESCS_COUNT : Z;
  DEFAULT_DESC_PAGE_SIZE : Z;
  DEFAULT_ENGINE_INDEX : Z;
  HAILO_STREAM_FLAGS_ASYNC : Z;
  (** [nullptr != std::getenv("HAILO_CONFIGURE_FOR_HW_INFER")] *)
  HAILO_CONFIGURE_FOR_HW_INFER : bool;
  ChannelAllocator : Type;
  (** [ChannelAllocator::get_available_channel_id] *)
  allocate_channel_id :
    ChannelAllocator -> LayerIdentifier -> DmaDirection -> Z ->
    Expected ChannelId * ChannelAllocator;
  to_layer_identifier : LayerInfo -> LayerIdentifier;
  (** [ConfigBuffer::create] *)
  ConfigBuffer_create : Driver -> ChannelId -> list Z -> Expected ConfigBuffer;
  (** [vdma::DescriptorList::get_desc_buffer_sizes_for_single_transfer] *)
  get_desc_buffer_sizes_for_single_transfer :
    Driver -> Z -> Z -> Z -> Expected (Z * Z);
  (** whether [vdma::BoundaryChannel::create] succeeds on these arguments *)
  BoundaryChannel_create_status : BoundaryChannel -> hailo_status;
  (** whether [InterContextBuffer::create] succeeds on these arguments *)
  InterContextBuffer_create_status : InterContextBuffer -> hailo_status;
  (** [LayerInfoUtils::get_stream_info_from_layer_info] *)
  get_stream_info_from_layer_info : LayerInfo -> StreamInfo;
  (** [vdma::DescriptorList::max_transfers] *)
  max_transfers : DescriptorList -> Z -> Z;
  (** [vdma::DescriptorList::program_last_descriptor]: descriptors used *)
  program_last_descriptor : DescriptorList -> ProgramCall -> Expected Z;
  (** the firmware's answer to a control message, given those sent before *)
  Control_status : list control_message -> control_message -> hailo_status;
  (** the status of [BoundaryChannel::trigger_channel_completion] *)
  trigger_status : list irq_event -> BoundaryChannel -> Z -> hailo_status
}.

Section ResourceManager.
Context `{platform : Platform}.

(** ** ContextResources *)

Record ContextResources : Set := mkContextResources {
  m_context_type : Z;
  m_builder : list single_control_t;
  m_config_buffers : list ConfigBuffer;
  m_edge_layers : list EdgeLayer
}.

(** The loop of [ContextResources::create]; [config_stream_index] is a
    [uint8_t] compared with [config_buffer_infos.size()]. *)
Fixpoint create_config_buffers (fuel : nat) (driver : Driver)
    (config_channels_ids : list ChannelId) (config_buffer_infos : gmap Z (list Z))
    (config_stream_index : Z) (config_buffers : list ConfigBuffer)
    : outcome (Expected (list ConfigBuffer)) :=
  match fuel with
  | O => Timeout
  | S fuel' =>
    if bool_decide (config_stream_index < Z.of_nat (size config_buffer_infos)) then
      match config_channels_ids !! Z.to_nat config_stream_index,
            config_buffer_infos !! config_stream_index with
      | Some id, Some info =>
        match ConfigBuffer_create driver id info with
        | Unexpected status => Done (Unexpected status)
        | Value buffer_resource =>
          create_config_buffers fuel' driver config_channels_ids config_buffer_infos
            (wrap8 (config_stream_index + 1)) (config_buffers ++ [buffer_resource])
        end
      | _, _ => Crash
      end
    else Done (Value config_buffers)
  end.

(** [ContextResources::create] *)
Definition ContextResources_create (fuel : nat) (driver : Driver) (context_type : Z)
    (config_channels_ids : list ChannelId) (config_buffer_infos : gmap Z (list Z))
    : outcome (Expected ContextResources) :=
  if negb (bool_decide (context_type < CONTROL_PROTOCOL__CONTEXT_SWITCH_CONTEXT_TYPE_COUNT))
  then Done (Unexpected HAILO_INVALID_ARGUMENT)
  else if negb (bool_decide (size config_buffer_infos <= length config_channels_ids)%nat)
  then Done (Unexpected HAILO_INTERNAL_FAILURE)
  else
    match create_config_buffers fuel driver config_channels_ids config_buffer_infos 0 [] with
    | Done (Value config_buffers) =>
      Done (Value (mkContextResources context_type [] config_buffers []))
    | Done (Unexpected status) => Done (Unexpected status)
    | Crash => Crash
    | Timeout => Timeout
    end.

(** [ContextResources::get_controls] *)
Definition get_controls (context : ContextResources) : list single_control_t :=
  m_builder context.

(** [ContextResources::add_edge_layer] *)
Definition add_edge_layer (context : ContextResources) (layer : LayerInfo)
    (id : ChannelId) (buffer : Z) : ContextResources :=
  mkContextResources (m_context_type context) (m_builder context)
    (m_config_buffers context) (m_edge_layers context ++ [mkEdgeLayer layer id buffer]).

(** The loop of [ContextResources::validate_edge_layers]. *)
Fixpoint validate_edge_layers_from (used_channel_ids : gset ChannelId)
    (edge_layers : list EdgeLayer) : hailo_status :=
  match edge_layers with
  | [] => HAILO_SUCCESS
  | edge_layer :: rest =>
    if decide (channel_id edge_layer ∈ used_channel_ids) then HAILO_INTERNAL_FAILURE
    else validate_edge_layers_from ({[channel_id edge_layer]} ∪ used_channel_ids) rest
  end.

(** [ContextResources::validate_edge_layers] *)
Definition validate_edge_layers (context : ContextResources) : hailo_status :=
  validate_edge_layers_from ∅ (m_edge_layers context).

(** ** ResourcesManager *)

Record ResourcesManager : Type := mkResourcesManager {
  m_contexts_resources : list ContextResources;
  m_channel_allocator : ChannelAllocator;
  m_driver : Driver;
  m_config_params : ConfigureNetworkParams;
  m_inter_context_buffers : gmap (Z * Z) InterContextBuffer;
  m_core_op_metadata : CoreOpMetadata;
  m_core_op_index : Z;
  m_dynamic_context_count : Z;
  m_total_context_count : Z;
  m_network_index_map : list string;
  m_latency_meters : gmap string LatencyMeter;
  m_boundary_channels : list (ChannelId * BoundaryChannel);
  m_is_configured : bool;
  m_config_channels_ids : list ChannelId
}.

(** The constructor of [ResourcesManager]. *)
Definition ResourcesManager_new (driver : Driver) (channel_allocator : ChannelAllocator)
    (config_params : ConfigureNetworkParams) (core_op_metadata : CoreOpMetadata)
    (core_op_index : Z) (network_index_map : list string)
    (latency_meters : gmap string LatencyMeter) (config_channels_ids : list ChannelId)
    : ResourcesManager :=
  mkResourcesManager [] channel_allocator driver config_params ∅ core_op_metadata
    core_op_index 0 0 network_index_map latency_meters [] false config_channels_ids.

Definition with_is_configured (b : bool) (rm : ResourcesManager) : ResourcesManager :=
  mkResourcesManager (m_contexts_resources rm) (m_channel_allocator rm) (m_driver rm)
    (m_config_params rm) (m_inter_context_buffers rm) (m_core_op_metadata rm)
    (m_core_op_index rm) (m_dynamic_context_count rm) (m_total_context_count rm)
    (m_network_index_map rm) (m_latency_meters rm) (m_boundary_channels rm)
    b (m_config_channels_ids rm).

Definition with_channel_allocator (a : ChannelAllocator) (rm : ResourcesManager)
    : ResourcesManager :=
  mkResourcesManager (m_contexts_resources rm) a (m_driver rm)
    (m_config_params rm) (m_inter_context_buffers rm) (m_core_op_metadata rm)
    (m_core_op_index rm) (m_dynamic_context_count rm) (m_total_context_count rm)
    (m_network_index_map rm) (m_latency_meters rm) (m_boundary_channels rm)
    (m_is_configured rm) (m_config_channels_ids rm).

Definition with_boundary_channels (m : list (ChannelId * BoundaryChannel))
    (rm : ResourcesManager) : ResourcesManager :=
  mkResourcesManager (m_contexts_resources rm) (m_channel_allocator rm) (m_driver rm)
    (m_config_params rm) (m_inter_context_buffers rm) (m_core_op_metadata rm)
    (m_core_op_index rm) (m_dynamic_context_count rm) (m_total_context_count rm)
    (m_network_index_map rm) (m_latency_meters rm) m
    (m_is_configured rm) (m_config_channels_ids rm).

Definition with_inter_context_buffers (m : gmap (Z * Z) InterContextBuffer)
    (rm : ResourcesManager) : ResourcesManager :=
  mkResourcesManager (m_contexts_resources rm) (m_channel_allocator rm) (m_driver rm)
    (m_config_params rm) m (m_core_op_metadata rm)
    (m_core_op_index rm) (m_dynamic_context_count rm) (m_total_context_count rm)
    (m_network_index_map rm) (m_latency_meters rm) (m_boundary_channels rm)
    (m_is_configured rm) (m_config_channels_ids rm).

Definition with_new_context (context : ContextResources) (total dynamic : Z)
    (rm : ResourcesManager) : ResourcesManager :=
  mkResourcesManager (m_contexts_resources rm ++ [context]) (m_channel_allocator rm)
    (m_driver rm) (m_config_params rm) (m_inter_context_buffers rm)
    (m_core_op_metadata rm) (m_core_op_index rm) dynamic total
    (m_network_index_map rm) (m_latency_meters rm) (m_boundary_channels rm)
    (m_is_configured rm) (m_config_channels_ids rm).

(** [ResourcesManager::add_new_context]: the new context and the manager
    that now holds it as its last context. *)
Definition add_new_context (fuel : nat) (rm : ResourcesManager) (context_type : Z)
    (config_info : gmap Z (list Z))
    : outcome (Expected ContextResources * ResourcesManager) :=
  if negb (bool_decide (m_total_context_count rm < UINT8_MAX))
  then Done (Unexpected HAILO_INVALID_CONTEXT_COUNT, rm)
  else
    match ContextResources_create fuel (m_driver rm) context_type
            (m_config_channels_ids rm) config_info with
    | Done (Value context_resources) =>
      let total := wrap8 (m_total_context_count rm + 1) in
      let dynamic :=
        if decide (CONTROL_PROTOCOL__CONTEXT_SWITCH_CONTEXT_TYPE_DYNAMIC = context_type)
        then wrap8 (m_dynamic_context_count rm + 1)
        else m_dynamic_context_count rm in
      Done (Value context_resources, with_new_context context_resources total dynamic rm)
    | Done (Unexpected status) => Done (Unexpected status, rm)
    | Crash => Crash
    | Timeout => Timeout
    end.

(** [ResourcesManager::get_available_channel_id] *)
Definition get_available_channel_id (rm : ResourcesManager)
    (layer_identifier : LayerIdentifier) (dir : DmaDirection) (engine : Z)
    : Expected ChannelId * ResourcesManager :=
  let engine := if decide (dma_type (m_driver rm) = PCIE) then DEFAULT_ENGINE_INDEX
                else engine in
  let '(id, allocator) :=
    allocate_channel_id (m_channel_allocator rm) layer_identifier dir engine in
  (id, with_channel_allocator allocator rm).

(** The loop of [ResourcesManager::get_network_batch_size]. *)
Fixpoint get_network_batch_size_in
    (params : list (string * hailo_network_parameters_t)) (network : string)
    : Expected Z :=
  match params with
  | [] => Unexpected HAILO_NOT_FOUND
  | network_map :: rest =>
    if decide (network_map.1 = network) then
      let actual_batch_size := network_batch_size network_map.2 in
      Value (if decide (HAILO_DEFAULT_BATCH_SIZE = actual_batch_size)
             then DEFAULT_ACTUAL_BATCH_SIZE else actual_batch_size)
    else get_network_batch_size_in rest network
  end.

(** [ResourcesManager::get_network_batch_size] *)
Definition get_network_batch_size (rm : ResourcesManager) (network : string)
    : Expected Z :=
  get_network_batch_size_in (network_params_by_name (m_config_params rm)) network.

(** ** Control-header assembly *)

Definition with_batch_size (sizes : list Z) (h : application_header_t)
    : application_header_t :=
  mkApplicationHeader (dynamic_contexts_count h) (preliminary_run_asap h)
    (is_abbale_supported h) (networks_count h) sizes (csm_buffer_size h).

Definition with_networks_count (n : Z) (h : application_header_t)
    : application_header_t :=
  mkApplicationHeader (dynamic_contexts_count h) (preliminary_run_asap h)
    (is_abbale_supported h) n (batch_size h) (csm_buffer_size h).

(** [ResourcesManager::fill_infer_features] *)
Definition fill_infer_features (rm : ResourcesManager) (app_header : application_header_t)
    : hailo_status * application_header_t :=
  (HAILO_SUCCESS,
   mkApplicationHeader (dynamic_contexts_count app_header)
     (supported_preliminary_run_asap (m_core_op_metadata rm))
     (is_abbale_supported app_header) (networks_count app_header)
     (batch_size app_header) (csm_buffer_size app_header)).

(** [ResourcesManager::fill_validation_features] *)
Definition fill_validation_features (app_header : application_header_t)
    : hailo_status * application_header_t :=
  let ABBALE_NOT_SUPPORTED := false in
  (HAILO_SUCCESS,
   mkApplicationHeader (dynamic_contexts_count app_header)
     (preliminary_run_asap app_header) ABBALE_NOT_SUPPORTED
     (networks_count app_header) (batch_size app_header) (csm_buffer_size app_header)).

(** How the inner loop of [fill_network_batch_size] is left. *)
Inductive index_search : Set :=
| search_break (network_index : Z) (app_header : application_header_t)
| search_end (network_index : Z)
| search_return (status : hailo_status).

(** The inner loop of [fill_network_batch_size]: [network_index] is a
    [uint8_t] compared with [m_network_index_map.size()]; the write into the
    fixed-size array [app_header.batch_size] is defined only inside it. *)
Fixpoint find_network_index (fuel : nat) (rm : ResourcesManager)
    (network_name_from_params : string) (app_header : application_header_t)
    (network_index : Z) : outcome index_search :=
  match fuel with
  | O => Timeout
  | S fuel' =>
    if bool_decide (network_index < Z.of_nat (length (m_network_index_map rm))) then
      match m_network_index_map rm !! Z.to_nat network_index with
      | None => Crash
      | Some network_name_from_map =>
        if decide (network_name_from_map = network_name_from_params) then
          match get_network_batch_size rm network_name_from_params with
          | Unexpected status => Done (search_return status)
          | Value size =>
            if bool_decide (network_index < Z.of_nat (length (batch_size app_header)))
            then Done (search_break network_index
                         (with_batch_size
                            (<[Z.to_nat network_index := size]> (batch_size app_header))
                            app_header))
            else Crash
          end
        else find_network_index fuel' rm network_name_from_params app_header
               (wrap8 (network_index + 1))
      end
    else Done (search_end network_index)
  end.

(** The outer loop of [fill_network_batch_size]. *)
Fixpoint fill_network_batch_size_for (fuel : nat) (rm : ResourcesManager)
    (params : list (string * hailo_network_parameters_t))
    (app_header : application_header_t)
    : outcome (hailo_status * application_header_t) :=
  match params with
  | [] => Done (HAILO_SUCCESS, app_header)
  | network_pair :: rest =>
    match find_network_index fuel rm network_pair.1 app_header 0 with
    | Done (search_return status) => Done (status, app_header)
    | Done (search_break network_index app_header') =>
      if decide (Z.of_nat (length (m_network_index_map rm)) = network_index)
      then Done (HAILO_ERROR HAILO_NOT_FOUND, app_header')
      else fill_network_batch_size_for fuel rm rest app_header'
    | Done (search_end network_index) =>
      if decide (Z.of_nat (length (m_network_index_map rm)) = network_index)
      then Done (HAILO_ERROR HAILO_NOT_FOUND, app_header)
      else fill_network_batch_size_for fuel rm rest app_header
    | Crash => Crash
    | Timeout => Timeout
    end
  end.

(** [ResourcesManager::fill_network_batch_size] *)
Definition fill_network_batch_size (fuel : nat) (rm : ResourcesManager)
    (app_header : application_header_t)
    : outcome (hailo_status * application_header_t) :=
  let params := network_params_by_name (m_config_params rm) in
  fill_network_batch_size_for fuel rm params
    (with_networks_count (wrap8 (Z.of_nat (length params))) app_header).

(** [ResourcesManager::fill_csm_buffer_size] *)
Definition fill_csm_buffer_size (rm : ResourcesManager) (app_header : application_header_t)
    : hailo_status * application_header_t :=
  (HAILO_SUCCESS,
   mkApplicationHeader (dynamic_contexts_count app_header)
     (preliminary_run_asap app_header) (is_abbale_supported app_header)
     (networks_count app_header) (batch_size app_header)
     (Z.min (desc_max_page_size (m_driver rm)) DEFAULT_DESC_PAGE_SIZE)).

(** A value-initialised [CONTROL_PROTOCOL__application_header_t]. *)
Definition zero_application_header : application_header_t :=
  mkApplicationHeader 0 false false 0
    (replicate (Z.to_nat CONTROL_PROTOCOL__MAX_NETWORKS_PER_NETWORK_GROUP) 0) 0.

(** [ResourcesManager::get_control_core_op_header] *)
Definition get_control_core_op_header (fuel : nat) (rm : ResourcesManager)
    : outcome (Expected application_header_t) :=
  let app_header :=
    mkApplicationHeader (m_dynamic_context_count rm)
      (preliminary_run_asap zero_application_header)
      (is_abbale_supported zero_application_header)
      (networks_count zero_application_header)
      (batch_size zero_application_header)
      (csm_buffer_size zero_application_header) in
  match fill_infer_features rm app_header with
  | (HAILO_ERROR status, _) => Done (Unexpected status)
  | (HAILO_SUCCESS, app_header) =>
  match fill_validation_features app_header with
  | (HAILO_ERROR status, _) => Done (Unexpected status)
  | (HAILO_SUCCESS, app_header) =>
  match fill_network_batch_size fuel rm app_header with
  | Crash => Crash
  | Timeout => Timeout
  | Done (HAILO_ERROR status, _) => Done (Unexpected status)
  | Done (HAILO_SUCCESS, app_header) =>
  match fill_csm_buffer_size rm app_header with
  | (HAILO_ERROR status, _) => Done (Unexpected status)
  | (HAILO_SUCCESS, app_header) => Done (Value app_header)
  end end end end.

(** ** Configuration handshake *)

(** A [Control::] call: the firmware answers, the message is on the wire. *)
Definition Control_send (device : list control_message) (message : control_message)
    : hailo_status * list control_message :=
  (Control_status device message, device ++ [message]).

(** The loop of [configure] over [m_contexts_resources]. *)
Fixpoint set_contexts_info (contexts : list ContextResources)
    (device : list control_message) : hailo_status * list control_message :=
  match contexts with
  | [] => (HAILO_SUCCESS, device)
  | context :: rest =>
    let '(status, device) :=
      Control_send device (context_switch_set_context_info (get_controls context)) in
    if negb (bool_decide (status = HAILO_SUCCESS)) then (status, device)
    else set_contexts_info rest device
  end.

(** [ResourcesManager::configure]: the status, the manager afterwards and
    the messages the device has received. *)
Definition configure (fuel : nat) (rm : ResourcesManager) (device : list control_message)
    : outcome (hailo_status * ResourcesManager * list control_message) :=
  if m_is_configured rm then Done (HAILO_ERROR HAILO_INTERNAL_FAILURE, rm, device) else
  let rm := with_is_configured true rm in
  match get_control_core_op_header fuel rm with
  | Crash => Crash
  | Timeout => Timeout
  | Done (Unexpected status) => Done (HAILO_ERROR status, rm, device)
  | Done (Value core_op_header) =>
    let '(status, device) :=
      Control_send device (context_switch_set_network_group_header core_op_header) in
    if negb (bool_decide (status = HAILO_SUCCESS)) then Done (status, rm, device) else
    let '(status, device) := set_contexts_info (m_contexts_resources rm) device in
    Done (status, rm, device)
  end.


(** ** Interrupt completion routing *)

(** [m_boundary_channels.find(id)]; the map is kept in key order. *)
Fixpoint find_boundary_channel (channels : list (ChannelId * BoundaryChannel))
    (id : ChannelId) : option BoundaryChannel :=
  match channels with
  | [] => None
  | entry :: rest =>
    if decide (entry.1 = id) then Some entry.2 else find_boundary_channel rest id
  end.

(** [m_boundary_channels.emplace(id, channel)]: nothing is inserted when the
    key is already present. *)
Fixpoint emplace_boundary_channel (id : ChannelId) (channel : BoundaryChannel)
    (channels : list (ChannelId * BoundaryChannel))
    : list (ChannelId * BoundaryChannel) :=
  match channels with
  | [] => [(id, channel)]
  | entry :: rest =>
    if decide (entry.1 = id) then channels
    else if ChannelId_ltb id entry.1 then (id, channel) :: channels
    else entry :: emplace_boundary_channel id channel rest
  end.

(** The body of the loop of [process_interrupts], for one record. *)
Definition process_interrupt (rm : ResourcesManager) (events : list irq_event)
    (channel_irq_data : ChannelIrqData) : list irq_event :=
  let id := irq_channel_id channel_irq_data in
  match find_boundary_channel (m_boundary_channels rm) id with
  | None => events ++ [log_no_such_boundary_channel id]
  | Some boundary_channel =>
    if bool_decide (host_error channel_irq_data ≠ 0 ∨ device_error channel_irq_data ≠ 0)
    then events ++ [log_channel_error id (host_error channel_irq_data)
                      (device_error channel_irq_data)]
    else if negb (is_active channel_irq_data)
    then events ++ [log_aborted_by_external_source id]
    else
      let descs := desc_num_processed channel_irq_data in
      let status := trigger_status events boundary_channel descs in
      let events := events ++ [trigger_channel_completion id descs] in
      if bool_decide (status ≠ HAILO_SUCCESS)
         && bool_decide (status ≠ HAILO_STREAM_ABORTED_BY_USER)
         && bool_decide (status ≠ HAILO_STREAM_NOT_ACTIVATED)
      then events ++ [log_trigger_failed id status]
      else events
  end.

(** [ResourcesManager::process_interrupts]. The records visited are those at
    indices below [channels_count]; the counter and [channels_count] are both
    [uint8_t], so the counter does not wrap. The assertion bounds
    [channels_count] by the size of the array. *)
Definition process_interrupts (rm : ResourcesManager) (irq_data : IrqData)
    (events : list irq_event) : outcome (list irq_event) :=
  if bool_decide (channels_count irq_data <= Z.of_nat (length (channels_irq_data irq_data)))
  then Done (foldl (process_interrupt rm) events
               (take (Z.to_nat (channels_count irq_data)) (channels_irq_data irq_data)))
  else Crash.

(** ** Boundary channels and inter-context buffers *)

(** [vdma::BoundaryChannel::create] *)
Definition BoundaryChannel_create (id : ChannelId) (dir : DmaDirection)
    (descs_count page_size : Z) (stream : string) (meter : option LatencyMeter)
    (transfers_per_intr : Z) (ty : BoundaryChannelType) : Expected BoundaryChannel :=
  let channel :=
    mkBoundaryChannel id dir (mkDescriptorList descs_count page_size []) stream meter
      transfers_per_intr ty in
  match BoundaryChannel_create_status channel with
  | HAILO_SUCCESS => Value channel
  | HAILO_ERROR status => Unexpected status
  end.

(** [ResourcesManager::create_boundary_vdma_channel] *)
Definition create_boundary_vdma_channel (rm : ResourcesManager) (layer : LayerInfo)
    : outcome (hailo_status * ResourcesManager) :=
  let dir := if decide (direction layer = HAILO_H2D_STREAM) then H2D else D2H in
  let '(id, rm) :=
    get_available_channel_id rm (to_layer_identifier layer) dir (dma_engine_index layer) in
  match id with
  | Unexpected status => Done (HAILO_ERROR status, rm)
  | Value id =>
    match get_network_batch_size rm (network_name layer) with
    | Unexpected status => Done (HAILO_ERROR status, rm)
    | Value network_batch =>
      let min_active_trans := wrap32 (MIN_ACTIVE_TRANSFERS_SCALE * network_batch) in
      let max_active_trans := wrap32 (MAX_ACTIVE_TRANSFERS_SCALE * network_batch) in
      if negb (IS_FIT_IN_UINT16 min_active_trans)
      then Done (HAILO_ERROR HAILO_INVALID_ARGUMENT, rm) else
      if negb (IS_FIT_IN_UINT16 max_active_trans)
      then Done (HAILO_ERROR HAILO_INVALID_ARGUMENT, rm) else
      let meter := m_latency_meters rm !! network_name layer in
      let size := wrap32 (periph_bytes_per_buffer layer * core_buffers_per_frame layer) in
      match get_desc_buffer_sizes_for_single_transfer (m_driver rm)
              min_active_trans max_active_trans size with
      | Unexpected status => Done (HAILO_ERROR status, rm)
      | Value desc_sizes_pair =>
        let page_size := desc_sizes_pair.1 in
        let descs_count :=
          if HAILO_CONFIGURE_FOR_HW_INFER then MAX_DESCS_COUNT else desc_sizes_pair.2 in
        match stream_params_by_name (m_config_params rm) !! name layer with
        | None => Crash
        | Some stream_params =>
          let ty := if decide (0 = Z.land (flags stream_params) HAILO_STREAM_FLAGS_ASYNC)
                    then BUFFERED else ASYNC in
          match BoundaryChannel_create id dir descs_count page_size (name layer) meter
                  network_batch ty with
          | Unexpected status => Done (HAILO_ERROR status, rm)
          | Value channel =>
            Done (HAILO_SUCCESS,
                  with_boundary_channels
                    (emplace_boundary_channel id channel (m_boundary_channels rm)) rm)
          end
        end
      end
    end
  end.

(** The loop of [get_boundary_vdma_channel_by_stream_name]. *)
Fixpoint find_channel_by_stream_name (channels : list (ChannelId * BoundaryChannel))
    (stream : string) : Expected BoundaryChannel :=
  match channels with
  | [] => Unexpected HAILO_NOT_FOUND
  | boundary_channel :: rest =>
    if decide (stream_name boundary_channel.2 = stream) then Value boundary_channel.2
    else find_channel_by_stream_name rest stream
  end.

(** [ResourcesManager::get_boundary_vdma_channel_by_stream_name] *)
Definition get_boundary_vdma_channel_by_stream_name (rm : ResourcesManager)
    (stream : string) : Expected BoundaryChannel :=
  find_channel_by_stream_name (m_boundary_channels rm) stream.

(** [InterContextBuffer::create] *)
Definition InterContextBuffer_create (size batch : Z) (d2h_channel_id : ChannelId)
    : Expected InterContextBuffer :=
  let buffer := mkInterContextBuffer size batch d2h_channel_id in
  match InterContextBuffer_create_status buffer with
  | HAILO_SUCCESS => Value buffer
  | HAILO_ERROR status => Unexpected status
  end.

(** [ResourcesManager::create_inter_context_buffer]: the buffer found under
    the key afterwards (an existing entry is kept by [emplace]). *)
Definition create_inter_context_buffer (rm : ResourcesManager) (size : Z)
    (src_stream_index src_context_index : Z) (network : string)
    (d2h_channel_id : ChannelId) : Expected InterContextBuffer * ResourcesManager :=
  match get_network_batch_size rm network with
  | Unexpected status => (Unexpected status, rm)
  | Value network_batch =>
    match InterContextBuffer_create size network_batch d2h_channel_id with
    | Unexpected status => (Unexpected status, rm)
    | Value buffer =>
      let key := (src_context_index, src_stream_index) in
      match m_inter_context_buffers rm !! key with
      | Some existing => (Value existing, rm)
      | None =>
        (Value buffer,
         with_inter_context_buffers (<[key := buffer]> (m_inter_context_buffers rm)) rm)
      end
    end
  end.

(** [ResourcesManager::get_inter_context_buffer] *)
Definition get_inter_context_buffer (rm : ResourcesManager) (key : Z * Z)
    : Expected InterContextBuffer :=
  match m_inter_context_buffers rm !! key with
  | None => Unexpected HAILO_NOT_FOUND
  | Some buffer => Value buffer
  end.

(** ** Hardware-only inference *)

(** The inner loop of [program_desc_for_hw_only_flow]: [remaining] transfers
    of the current batch are still to be programmed. *)
Fixpoint program_transfers (remaining : nat) (transfer_index : Z)
    (desc_list : DescriptorList) (single_transfer_size dynamic_batch_size : Z)
    (acc_desc_offset : Z) : Expected Z * DescriptorList :=
  match remaining with
  | O => (Value acc_desc_offset, desc_list)
  | S remaining' =>
    let last_desc_interrupts_domain :=
      if decide (dynamic_batch_size - 1 = transfer_index) then DEVICE else NONE in
    let BUFFER_NOT_CIRCULAR := false in
    let call := mkProgramCall single_transfer_size last_desc_interrupts_domain
                  acc_desc_offset BUFFER_NOT_CIRCULAR in
    match program_last_descriptor desc_list call with
    | Unexpected status => (Unexpected status, desc_list)
    | Value desc_count_local =>
      program_transfers remaining' (transfer_index + 1)
        (mkDescriptorList (desc_count desc_list) (desc_page_size desc_list)
           (programmed desc_list ++ [call]))
        single_transfer_size dynamic_batch_size (acc_desc_offset + desc_count_local)
    end
  end.

(** The outer loop of [program_desc_for_hw_only_flow]. *)
Fixpoint program_batches (remaining : nat) (desc_list : DescriptorList)
    (single_transfer_size dynamic_batch_size : Z) (acc_desc_offset : Z)
    : Expected Z * DescriptorList :=
  match remaining with
  | O => (Value acc_desc_offset, desc_list)
  | S remaining' =>
    match program_transfers (Z.to_nat dynamic_batch_size) 0 desc_list
            single_transfer_size dynamic_batch_size acc_desc_offset with
    | (Unexpected status, desc_list) => (Unexpected status, desc_list)
    | (Value acc_desc_offset, desc_list) =>
      program_batches remaining' desc_list single_transfer_size dynamic_batch_size
        acc_desc_offset
    end
  end.

(** [ResourcesManager::program_desc_for_hw_only_flow]; [dynamic_batch_size]
    and [batch_count] are [uint16_t], like the two loop counters, and
    [acc_desc_offset] is a [size_t] that the sum of that many [uint16_t]
    counts cannot wrap. *)
Definition program_desc_for_hw_only_flow (desc_list : DescriptorList)
    (single_transfer_size dynamic_batch_size batch_count : Z)
    : Expected Z * DescriptorList :=
  match program_batches (Z.to_nat batch_count) desc_list single_transfer_size
          dynamic_batch_size 0 with
  | (Unexpected status, desc_list) => (Unexpected status, desc_list)
  | (Value acc_desc_offset, desc_list) =>
    if negb (IS_FIT_IN_UINT16 acc_desc_offset)
    then (Unexpected HAILO_INTERNAL_FAILURE, desc_list)
    else (Value acc_desc_offset, desc_list)
  end.

(** The per-layer capacity read by [calc_hw_infer_batch_count]: how many
    transfers of [dynamic_batch_size] frames the channel's descriptor list
    holds; the product is taken in 32 bits. *)
Definition max_batch_transfers_of (channel : BoundaryChannel) (layer : LayerInfo)
    (dynamic_batch_size : Z) : Z :=
  let stream_info := get_stream_info_from_layer_info layer in
  let single_transfer_size :=
    if decide (HAILO_FORMAT_ORDER_HAILO_NMS = stream_format_order stream_info)
    then nms_bbox_size stream_info else hw_frame_size stream_info in
  max_transfers (get_desc_list channel) (wrap32 (single_transfer_size * dynamic_batch_size)).

(** The loop of [calc_hw_infer_batch_count]. *)
Fixpoint calc_hw_infer_batch_count_for (rm : ResourcesManager) (dynamic_batch_size : Z)
    (layers : list LayerInfo) (batch_count : Z) : Expected Z :=
  match layers with
  | [] => Value batch_count
  | layer :: rest =>
    match get_boundary_vdma_channel_by_stream_name rm (name layer) with
    | Unexpected status => Unexpected status
    | Value boundary_channel =>
      let max_batch_transfers :=
        max_batch_transfers_of boundary_channel layer dynamic_batch_size in
      calc_hw_infer_batch_count_for rm dynamic_batch_size rest
        (MIN batch_count max_batch_transfers)
    end
  end.

(** [ResourcesManager::calc_hw_infer_batch_count] *)
Definition calc_hw_infer_batch_count (rm : ResourcesManager) (dynamic_batch_size : Z)
    : Expected Z :=
  calc_hw_infer_batch_count_for rm dynamic_batch_size
    (get_all_layer_infos (m_core_op_metadata rm)) UINT16_MAX.

(** ** Vocabulary of the properties *)

(** The batch size a network runs with: the configured one, or the actual
    default where the configuration holds the sentinel. *)
Definition actual_batch_size (p : hailo_network_parameters_t) : Z :=
  if decide (HAILO_DEFAULT_BATCH_SIZE = network_batch_size p)
  then DEFAULT_ACTUAL_BATCH_SIZE else network_batch_size p.

(** The index of a network in the network-name table: its first position. *)
Fixpoint index_of (network : string) (table : list string) : option nat :=
  match table with
  | [] => None
  | entry :: rest =>
    if decide (entry = network) then Some 0%nat else S <$> index_of network rest
  end.

(** What the inner loop of [fill_network_batch_size] comes to when it is
    started at position [k] of a table of at most 255 names. *)
Definition search_result (rm : ResourcesManager) (network : string)
    (app_header : application_header_t) (k : nat) : outcome index_search :=
  match index_of network (drop k (m_network_index_map rm)) with
  | None => Done (search_end (Z.of_nat (length (m_network_index_map rm))))
  | Some j =>
    match get_network_batch_size rm network with
    | Unexpected status => Done (search_return status)
    | Value size =>
      if bool_decide (Z.of_nat (k + j) < Z.of_nat (length (batch_size app_header)))
      then Done (search_break (Z.of_nat (k + j))
                   (with_batch_size (<[(k + j)%nat := size]> (batch_size app_header))
                      app_header))
      else Crash
    end
  end.

(** The batch-size array after the write for one configured network. *)
Definition write_batch_size (rm : ResourcesManager) (sizes : list Z) (network : string)
    : list Z :=
  match index_of network (m_network_index_map rm), get_network_batch_size rm network with
  | Some i, Value size => <[i := size]> sizes
  | _, _ => sizes
  end.

(** The message that carries the controls of a context. *)
Definition context_info_message (context : ContextResources) : control_message :=
  context_switch_set_context_info (get_controls context).

(** The messages of a complete configuration, in the order of sending. *)
Definition configuration_messages (rm : ResourcesManager) (header : application_header_t)
    : list control_message :=
  context_switch_set_network_group_header header
  :: (context_info_message <$> m_contexts_resources rm).

(** The firmware accepts each of [messages], sent one after the other to a
    device that has received [device]. *)
Fixpoint all_accepted (device : list control_message) (messages : list control_message)
    : Prop :=
  match messages with
  | [] => True
  | message :: rest =>
    Control_status device message = HAILO_SUCCESS /\ all_accepted (device ++ [message]) rest
  end.

(** A record reaches a completion trigger when its channel is a registered
    boundary channel, it reports neither a host nor a device error, and the
    channel is active. *)
Definition routed (rm : ResourcesManager) (r : ChannelIrqData) : bool :=
  bool_decide (is_Some (find_boundary_channel (m_boundary_channels rm) (irq_channel_id r)))
  && bool_decide (host_error r = 0) && bool_decide (device_error r = 0) && is_active r.

(** The completion triggers among the events: channel id and descriptors
    processed. *)
Definition completion_of (e : irq_event) : option (ChannelId * Z) :=
  match e with
  | trigger_channel_completion id descs => Some (id, descs)
  | _ => None
  end.

Definition completions (events : list irq_event) : list (ChannelId * Z) :=
  omap completion_of events.

(** The skips that were logged, by kind of record. *)
Definition skip_of (e : irq_event) : option ChannelId :=
  match e with
  | log_no_such_boundary_channel id => Some id
  | log_channel_error id _ _ => Some id
  | log_aborted_by_external_source id => Some id
  | _ => None
  end.

Definition skips (events : list irq_event) : list ChannelId := omap skip_of events.

(** The capacity of a layer: the number of [dynamic_batch_size]-frame
    transfers that the descriptor list of its boundary channel holds. *)
Definition layer_capacity (rm : ResourcesManager) (dynamic_batch_size : Z)
    (layer : LayerInfo) : option Z :=
  match get_boundary_vdma_channel_by_stream_name rm (name layer) with
  | Value channel => Some (max_batch_transfers_of channel layer dynamic_batch_size)
  | Unexpected _ => None
  end.

(** The interrupt domain chosen for the transfer at [transfer_index] of a
    group of [dynamic_batch_size] transfers. *)
Definition interrupts_domain_of (dynamic_batch_size transfer_index : Z) : InterruptsDomain :=
  if decide (dynamic_batch_size - 1 = transfer_index) then DEVICE else NONE.

(** The interrupt domains of the calls, in the order of programming. *)
Definition interrupt_domains (calls : list ProgramCall) : list InterruptsDomain :=
  last_desc_interrupts_domain <$> calls.

(** The number of programmed descriptors that raise a device interrupt. *)
Definition device_interrupts (calls : list ProgramCall) : nat :=
  length (filter (fun d => d = DEVICE) (interrupt_domains calls)).

End ResourceManager.

From stdpp Require Import sorting.
Local Open Scope Z_scope.

(** * Further functions of the resource manager

    The functions below complete the model of the file. Collaborators and
    constants that they alone need are the fields of [Environment]. *)

(** What [cancel_pending_async_transfers] does to the outside world. *)
Inductive cancel_event : Set :=
| cancel_pending_transfers (id : ChannelId)
| log_failed_cancellation (stream : string).

(** A call of [InterruptsDispatcher::start]: the channels bitmap, one word
    per engine, and whether timestamps are measured. *)
Record dispatcher_start : Set := mkDispatcherStart {
  channels_bitmap : list Z;
  enable_timestamp_measure : bool
}.

(** An entry of [core_op_metadata->config_channels_info()]. *)
Record ConfigChannelInfo : Set := mkConfigChannelInfo {
  config_engine_index : Z
}.

(** [DdrChannelsInfo]: the stream index that this file reads, and the rest
    of the description. A [DdrChannelsPair] keeps the description it was
    created from. *)
Record DdrChannelsInfo : Set := mkDdrChannelsInfo {
  d2h_stream_index : Z;
  ddr_description : Z
}.

Record DdrChannelsPair : Set := mkDdrChannelsPair {
  info : DdrChannelsInfo
}.

Class Environment `{platform : Platform} : Type := {
  MAX_IRQ_TIMESTAMPS_SIZE : Z;
  HAILO_LATENCY_MEASURE : Z;
  (** the number of words of a [ChannelsBitmap] *)
  MAX_VDMA_ENGINES_COUNT : Z;
  (** the constructor [ChannelAllocator(engines_count)] *)
  ChannelAllocator_new : Z -> ChannelAllocator;
  (** [CoreOpMetadata::get_all_layer_infos(network_name)] *)
  get_all_layer_infos_of : CoreOpMetadata -> string -> Expected (list LayerInfo);
  (** the status of [BoundaryChannel::cancel_pending_transfers] *)
  cancel_status : list cancel_event -> BoundaryChannel -> hailo_status;
  (** the status of [VdmaDevice::get_vdma_interrupts_dispatcher] *)
  get_vdma_interrupts_dispatcher : hailo_status;
  (** the status of [InterruptsDispatcher::start] *)
  dispatcher_start_status : dispatcher_start -> hailo_status;
  (** the status of [DdrChannelsPair::create] *)
  DdrChannelsPair_create_status : Driver -> DdrChannelsInfo -> hailo_status
}.

Section FurtherModel.
Context `{platform : Platform} `{environment : !Environment}.

(** ** Edge layers of a context *)

(** [ContextResources::get_edge_layers()] *)
Definition get_edge_layers (context : ContextResources) : list EdgeLayer :=
  m_edge_layers context.

(** The loop of [get_edge_layers(layer_type, direction)]. The direction
    [HAILO_STREAM_DIRECTION_MAX_ENUM], which no layer has, is [None]. *)
Fixpoint get_edge_layers_matching (edge_layers : list EdgeLayer) (layer_type : LayerType)
    (dir : option hailo_stream_direction_t) : list EdgeLayer :=
  match edge_layers with
  | [] => []
  | edge_layer :: rest =>
    let layer_type_ok :=
      bool_decide (layer_type = NOT_SET)
      || bool_decide (type (layer_info edge_layer) = layer_type) in
    let direction_ok :=
      match dir with
      | None => true
      | Some d => bool_decide (direction (layer_info edge_layer) = d)
      end in
    if layer_type_ok && direction_ok
    then edge_layer :: get_edge_layers_matching rest layer_type dir
    else get_edge_layers_matching rest layer_type dir
  end.

(** [ContextResources::get_edge_layers(layer_type, direction)] *)
Definition get_edge_layers_of (context : ContextResources) (layer_type : LayerType)
    (dir : option hailo_stream_direction_t) : list EdgeLayer :=
  get_edge_layers_matching (m_edge_layers context) layer_type dir.

(** [ContextResources::get_edge_layers(layer_type)] *)
Definition get_edge_layers_of_type (context : ContextResources) (layer_type : LayerType)
    : list EdgeLayer :=
  get_edge_layers_of context layer_type None.

(** [ContextResources::get_edge_layers(direction)] *)
Definition get_edge_layers_of_direction (context : ContextResources)
    (dir : option hailo_stream_direction_t) : list EdgeLayer :=
  get_edge_layers_of context NOT_SET dir.

(** The loop of [get_edge_layer_by_stream_index]. *)
Fixpoint find_edge_layer_by_stream_index (edge_layers : list EdgeLayer) (index : Z)
    : Expected EdgeLayer :=
  match edge_layers with
  | [] => Unexpected HAILO_INTERNAL_FAILURE
  | edge_layer :: rest =>
    if decide (stream_index (layer_info edge_layer) = index) then Value edge_layer
    else find_edge_layer_by_stream_index rest index
  end.

(** [ContextResources::get_edge_layer_by_stream_index] *)
Definition get_edge_layer_by_stream_index (context : ContextResources) (index : Z)
    : Expected EdgeLayer :=
  find_edge_layer_by_stream_index (m_edge_layers context) index.

(** [ContextResources::get_config_buffers] *)
Definition get_config_buffers (context : ContextResources) : list ConfigBuffer :=
  m_config_buffers context.

(** ** DDR channel pairs of a context

    The two functions work on the member [m_ddr_channels_pairs] of the
    context, which is their state here, and on its driver. *)

(** [DdrChannelsPair::create] *)
Definition DdrChannelsPair_create (driver : Driver) (ddr_info : DdrChannelsInfo)
    : Expected DdrChannelsPair :=
  match DdrChannelsPair_create_status driver ddr_info with
  | HAILO_SUCCESS => Value (mkDdrChannelsPair ddr_info)
  | HAILO_ERROR status => Unexpected status
  end.

(** [ContextResources::create_ddr_channels_pair]: the pair returned and the
    pairs of the context afterwards. *)
Definition create_ddr_channels_pair (driver : Driver)
    (ddr_channels_pairs : list DdrChannelsPair) (ddr_info : DdrChannelsInfo)
    : Expected DdrChannelsPair * list DdrChannelsPair :=
  match DdrChannelsPair_create driver ddr_info with
  | Unexpected status => (Unexpected status, ddr_channels_pairs)
  | Value buffer => (Value buffer, ddr_channels_pairs ++ [buffer])
  end.

(** [ContextResources::get_ddr_channels_pair] *)
Fixpoint get_ddr_channels_pair (ddr_channels_pairs : list DdrChannelsPair) (index : Z)
    : Expected DdrChannelsPair :=
  match ddr_channels_pairs with
  | [] => Unexpected HAILO_INTERNAL_FAILURE
  | ddr_channels_pair :: rest =>
    if decide (d2h_stream_index (info ddr_channels_pair) = index)
    then Value ddr_channels_pair
    else get_ddr_channels_pair rest index
  end.

(** ** Latency meters *)

(** [std::set<std::string>::insert], the set being the list of its elements
    in increasing order. *)
Fixpoint string_set_insert (s : string) (set : list string) : list string :=
  match set with
  | [] => [s]
  | x :: rest =>
    if decide (x = s) then set
    else if String.ltb s x then s :: set
    else x :: string_set_insert s rest
  end.

(** The loop of [create_hw_latency_meter] and what follows it. *)
Fixpoint create_hw_latency_meter_from (layers : list LayerInfo)
    (d2h_names : list string) (h2d_streams_count : Z) : Expected LatencyMeter :=
  match layers with
  | [] =>
    if bool_decide (1 < h2d_streams_count) then Unexpected HAILO_INVALID_OPERATION
    else Value (mkLatencyMeter d2h_names MAX_IRQ_TIMESTAMPS_SIZE)
  | layer :: rest =>
    if decide (direction layer = HAILO_D2H_STREAM) then
      if decide (HAILO_FORMAT_ORDER_HAILO_NMS = format_order layer)
      then Unexpected HAILO_INVALID_OPERATION
      else create_hw_latency_meter_from rest (string_set_insert (name layer) d2h_names)
             h2d_streams_count
    else create_hw_latency_meter_from rest d2h_names (h2d_streams_count + 1)
  end.

(** [create_hw_latency_meter] *)
Definition create_hw_latency_meter (layers : list LayerInfo) : Expected LatencyMeter :=
  create_hw_latency_meter_from layers [] 0.

(** The loop of [create_latency_meters_from_config_params]; [emplace] keeps
    the meter of a name that is already in the map. *)
Fixpoint create_latency_meters_for (metadata : CoreOpMetadata)
    (networks_names : list string) (latency_meters_map : gmap string LatencyMeter)
    : Expected (gmap string LatencyMeter) :=
  match networks_names with
  | [] => Value latency_meters_map
  | network :: rest =>
    match get_all_layer_infos_of metadata network with
    | Unexpected status => Unexpected status
    | Value layer_infos =>
      match create_hw_latency_meter layer_infos with
      | Value meter =>
        create_latency_meters_for metadata rest
          (match latency_meters_map !! network with
           | Some _ => latency_meters_map
           | None => <[network := meter]> latency_meters_map
           end)
      | Unexpected _ => create_latency_meters_for metadata rest latency_meters_map
      end
    end
  end.

(** [create_latency_meters_from_config_params] *)
Definition create_latency_meters_from_config_params (config_params : ConfigureNetworkParams)
    (metadata : CoreOpMetadata) : Expected (gmap string LatencyMeter) :=
  if decide (Z.land (latency config_params) HAILO_LATENCY_MEASURE = HAILO_LATENCY_MEASURE)
  then create_latency_meters_for metadata (get_network_names metadata) ∅
  else Value ∅.

(** ** Creation of the manager *)

(** The loop of [ResourcesManager::create] that allocates the config
    channels; [cfg_index] is a [uint8_t] compared with the [size_t] size of
    [config_channels_info]. The allocator is asked directly, with the engine
    index of the metadata. *)
Fixpoint allocate_config_channels (fuel : nat) (config_channels_info : list ConfigChannelInfo)
    (allocator : ChannelAllocator) (cfg_index : Z) (config_channels_ids : list ChannelId)
    : outcome (Expected (list ChannelId) * ChannelAllocator) :=
  match fuel with
  | O => Timeout
  | S fuel' =>
    if bool_decide (cfg_index < Z.of_nat (length config_channels_info)) then
      match config_channels_info !! Z.to_nat cfg_index with
      | None => Crash
      | Some info =>
        let layer_identifier := (CFG, "", cfg_index) in
        let '(id, allocator) :=
          allocate_channel_id allocator layer_identifier H2D (config_engine_index info) in
        match id with
        | Unexpected status => Done (Unexpected status, allocator)
        | Value id =>
          allocate_config_channels fuel' config_channels_info allocator
            (wrap8 (cfg_index + 1)) (config_channels_ids ++ [id])
        end
      end
    else Done (Value config_channels_ids, allocator)
  end.

(** [ResourcesManager::create]; [config_channels_info] is what
    [core_op_metadata->config_channels_info()] returns. *)
Definition ResourcesManager_create (fuel : nat) (driver : Driver)
    (config_params : ConfigureNetworkParams) (metadata : CoreOpMetadata)
    (config_channels_info : list ConfigChannelInfo) (core_op_index : Z)
    : outcome (Expected ResourcesManager) :=
  let allocator := ChannelAllocator_new (dma_engines_count driver) in
  match allocate_config_channels fuel config_channels_info allocator 0 [] with
  | Timeout => Timeout
  | Crash => Crash
  | Done (Unexpected status, _) => Done (Unexpected status)
  | Done (Value config_channels_ids, allocator) =>
    let network_index_map := get_network_names metadata in
    match create_latency_meters_from_config_params config_params metadata with
    | Unexpected status => Done (Unexpected status)
    | Value latency_meters =>
      Done (Value (ResourcesManager_new driver allocator config_params metadata
                     core_op_index network_index_map latency_meters config_channels_ids))
    end
  end.


(** ** Cancellation of pending transfers *)

(** The body of the loop of [cancel_pending_async_transfers], for one entry
    of [m_boundary_channels]. *)
Definition cancel_pending_async_transfer (events : list cancel_event)
    (boundary_channel : ChannelId * BoundaryChannel) : list cancel_event :=
  match channel_type boundary_channel.2 with
  | BUFFERED => events
  | ASYNC =>
    let status := cancel_status events boundary_channel.2 in
    let events := events ++ [cancel_pending_transfers boundary_channel.1] in
    if bool_decide (HAILO_SUCCESS <> status)
    then events ++ [log_failed_cancellation (stream_name boundary_channel.2)]
    else events
  end.

(** [ResourcesManager::cancel_pending_async_transfers] *)
Definition cancel_pending_async_transfers (rm : ResourcesManager)
    (events : list cancel_event) : hailo_status * list cancel_event :=
  (HAILO_SUCCESS, foldl cancel_pending_async_transfer events (m_boundary_channels rm)).

(** ** The interrupts dispatcher *)

(** [channels_bitmap[id.engine_index] |= (1 << id.channel_index)] on an
    array of 32-bit words: defined for an engine inside the array and a
    shift below the width of the word. *)
Definition set_channel_bit (bitmap : list Z) (id : ChannelId) : outcome (list Z) :=
  if bool_decide (0 <= channel_index id < 32) && bool_decide (0 <= engine_index id) then
    match bitmap !! Z.to_nat (engine_index id) with
    | None => Crash
    | Some word =>
      Done (<[Z.to_nat (engine_index id) := Z.lor word (Z.shiftl 1 (channel_index id))]>
              bitmap)
    end
  else Crash.

(** The loop of [start_vdma_interrupts_dispatcher]. *)
Fixpoint channels_bitmap_of (channels : list (ChannelId * BoundaryChannel))
    (bitmap : list Z) : outcome (list Z) :=
  match channels with
  | [] => Done bitmap
  | boundary_channel :: rest =>
    match set_channel_bit bitmap boundary_channel.1 with
    | Done bitmap => channels_bitmap_of rest bitmap
    | Crash => Crash
    | Timeout => Timeout
    end
  end.

(** [ResourcesManager::start_vdma_interrupts_dispatcher]: the status and
    the calls of [start] that the dispatcher has received. *)
Definition start_vdma_interrupts_dispatcher (rm : ResourcesManager)
    (started : list dispatcher_start) : outcome (hailo_status * list dispatcher_start) :=
  match get_vdma_interrupts_dispatcher with
  | HAILO_ERROR status => Done (HAILO_ERROR status, started)
  | HAILO_SUCCESS =>
    match channels_bitmap_of (m_boundary_channels rm)
            (replicate (Z.to_nat MAX_VDMA_ENGINES_COUNT) 0) with
    | Done bitmap =>
      let call := mkDispatcherStart bitmap (negb (bool_decide (m_latency_meters rm = ∅))) in
      Done (dispatcher_start_status call, started ++ [call])
    | Crash => Crash
    | Timeout => Timeout
    end
  end.

(** ** Vocabulary of the further properties *)

(** Whether an edge layer passes the two filters of [get_edge_layers]. *)
Definition edge_layer_matches (layer_type : LayerType)
    (dir : option hailo_stream_direction_t) (edge_layer : EdgeLayer) : Prop :=
  (layer_type = NOT_SET \/ type (layer_info edge_layer) = layer_type)
  /\ (dir = None \/ dir = Some (direction (layer_info edge_layer))).

#[global] Instance edge_layer_matches_dec layer_type dir edge_layer :
  Decision (edge_layer_matches layer_type dir edge_layer).
Proof. unfold edge_layer_matches. apply _. Defined.


(** The counters of the manager agree with its contexts: the total count is
    the number of contexts and fits a [uint8_t], and the dynamic count is the
    number of contexts of the dynamic type. *)
Definition counters_consistent (rm : ResourcesManager) : Prop :=
  m_total_context_count rm = Z.of_nat (length (m_contexts_resources rm))
  /\ m_total_context_count rm <= UINT8_MAX
  /\ m_dynamic_context_count rm
     = Z.of_nat (length (filter
                           (fun context =>
                              m_context_type context
                              = CONTROL_PROTOCOL__CONTEXT_SWITCH_CONTEXT_TYPE_DYNAMIC)
                           (m_contexts_resources rm))).


(** The boundary channels are in the order of their ids, as they are in the
    [std::map] that holds them. *)
Definition boundary_channels_sorted (channels : list (ChannelId * BoundaryChannel)) : Prop :=
  StronglySorted (fun a b => ChannelId_ltb a.1 b.1 = true) channels.


(** The sum of descriptor counts. *)
Definition total_descs (counts : list Z) : Z := foldr Z.add 0 counts.

(** Starting from the descriptor list [desc_list] and the offset [offset],
    the programming calls [calls] were made one after the other, each at the
    offset that the descriptors of the calls before it have reached, and
    used the numbers of descriptors [counts]. *)
Definition programs_from (desc_list : DescriptorList) (offset : Z)
    (calls : list ProgramCall) (counts : list Z) : Prop :=
  length counts = length calls
  /\ forall k call count,
       calls !! k = Some call -> counts !! k = Some count ->
       desc_offset call = offset + total_descs (take k counts)
       /\ program_last_descriptor
            (mkDescriptorList (desc_count desc_list) (desc_page_size desc_list)
               (programmed desc_list ++ take k calls))
            call
          = Value count.

(** An event of [process_interrupts] is in order: it is no report of a
    failed completion trigger for a status that is not reported. *)
Definition reported_trigger_status (e : irq_event) : Prop :=
  match e with
  | log_trigger_failed _ status =>
    status <> HAILO_SUCCESS
    /\ status <> HAILO_STREAM_ABORTED_BY_USER
    /\ status <> HAILO_STREAM_NOT_ACTIVATED
  | _ => True
  end.


(** The requests that [ResourcesManager::create] makes of the channel
    allocator for the config channels: the identifier of the [k]-th config
    channel, the direction and the engine index of the metadata. *)
Definition config_channel_requests (config_channels_info : list ConfigChannelInfo)
    : list (LayerIdentifier * DmaDirection * Z) :=
  imap (fun k info => ((CFG, "", Z.of_nat k), H2D, config_engine_index info))
    config_channels_info.

(** Channel ids allocated for [requests] one after the other, up to the
    first request that the allocator refuses. *)
Fixpoint allocate_in_order (allocator : ChannelAllocator)
    (requests : list (LayerIdentifier * DmaDirection * Z))
    : Expected (list ChannelId) * ChannelAllocator :=
  match requests with
  | [] => (Value [], allocator)
  | (layer_identifier, dir, engine) :: rest =>
    match allocate_channel_id allocator layer_identifier dir engine with
    | (Unexpected status, allocator) => (Unexpected status, allocator)
    | (Value id, allocator) =>
      match allocate_in_order allocator rest with
      | (Unexpected status, allocator) => (Unexpected status, allocator)
      | (Value ids, allocator) => (Value (id :: ids), allocator)
      end
    end
  end.

#[global] Instance BoundaryChannelType_eq_dec : EqDecision BoundaryChannelType.
Proof. solve_decision. Defined.

(** The channels whose pending transfers were cancelled, in the order of
    the calls. *)
Definition cancelled_of (e : cancel_event) : option ChannelId :=
  match e with
  | cancel_pending_transfers id => Some id
  | log_failed_cancellation _ => None
  end.

Definition cancelled (events : list cancel_event) : list ChannelId :=
  omap cancelled_of events.

(** A channel id that has a bit in a [ChannelsBitmap]. *)
Definition in_channels_bitmap (id : ChannelId) : Prop :=
  0 <= engine_index id < MAX_VDMA_ENGINES_COUNT /\ 0 <= channel_index id < 32.

End FurtherModel.

(** * A concrete platform and the inputs of the worked examples *)

(** A PCIe-like platform: the constants of the control protocol, an allocator
    that hands out channel indices in increasing order on the requested
    engine, descriptor lists of [desc_page_size]-byte descriptors that keep
    one descriptor free, and a firmware and completion triggers that answer
    as the two parameters say. *)
Definition example_platform
    (firmware : list control_message -> control_message -> hailo_status)
    (trigger : list irq_event -> BoundaryChannel -> Z -> hailo_status) : Platform := {|
  CONTROL_PROTOCOL__CONTEXT_SWITCH_CONTEXT_TYPE_COUNT := 4;
  CONTROL_PROTOCOL__CONTEXT_SWITCH_CONTEXT_TYPE_DYNAMIC := 3;
  CONTROL_PROTOCOL__MAX_NETWORKS_PER_NETWORK_GROUP := 8;
  HAILO_DEFAULT_BATCH_SIZE := 0;
  DEFAULT_ACTUAL_BATCH_SIZE := 1;
  MIN_ACTIVE_TRANSFERS_SCALE := 2;
  MAX_ACTIVE_TRANSFERS_SCALE := 4;
  MAX_DESCS_COUNT := 65536;
  DEFAULT_DESC_PAGE_SIZE := 512;
  DEFAULT_ENGINE_INDEX := 0;
  HAILO_STREAM_FLAGS_ASYNC := 1;
  HAILO_CONFIGURE_FOR_HW_INFER := false;
  ChannelAllocator := nat;
  allocate_channel_id next _ _ engine :=
    (Value (mkChannelId engine (Z.of_nat next)), S next);
  to_layer_identifier layer := (type layer, name layer, stream_index layer);
  ConfigBuffer_create _ id info := Value (mkConfigBuffer id info);
  get_desc_buffer_sizes_for_single_transfer _ _ max_active size :=
    Value (512, max_active * ((size + 511) / 512) + 1);
  BoundaryChannel_create_status _ := HAILO_SUCCESS;
  InterContextBuffer_create_status _ := HAILO_SUCCESS;
  get_stream_info_from_layer_info layer :=
    mkStreamInfo (format_order layer) 0
      (periph_bytes_per_buffer layer * core_buffers_per_frame layer);
  max_transfers list size :=
    (desc_count list - 1) / ((size + desc_page_size list - 1) / desc_page_size list);
  program_last_descriptor list call :=
    let descs := (transfer_size call + desc_page_size list - 1) / desc_page_size list in
    if desc_offset call + descs <=? desc_count list then Value descs
    else Unexpected HAILO_INVALID_ARGUMENT;
  Control_status := firmware;
  trigger_status := trigger
|}.

(** A firmware that accepts every message, and one that rejects every
    context. *)
Definition accepting_firmware (_ : list control_message) (_ : control_message)
    : hailo_status := HAILO_SUCCESS.

Definition context_rejecting_firmware (_ : list control_message)
    (message : control_message) : hailo_status :=
  match message with
  | context_switch_set_network_group_header _ => HAILO_SUCCESS
  | context_switch_set_context_info _ => HAILO_INTERNAL_FAILURE
  end.

(** Completion triggers that always succeed, and triggers that always fail. *)
Definition succeeding_trigger (_ : list irq_event) (_ : BoundaryChannel) (_ : Z)
    : hailo_status := HAILO_SUCCESS.

Definition failing_trigger (_ : list irq_event) (_ : BoundaryChannel) (_ : Z)
    : hailo_status := HAILO_INTERNAL_FAILURE.

Definition pcie_platform : Platform := example_platform accepting_firmware succeeding_trigger.

Definition example_driver : Driver := mkDriver PCIE 1 4096.

(** Three boundary layers of one frame of 512 bytes each. *)
Definition example_layer (stream : string) (dir : hailo_stream_direction_t) (index : Z)
    : LayerInfo :=
  mkLayerInfo BOUNDARY dir stream "a" index 0 (HAILO_FORMAT_ORDER_OTHER 0) 512 1.

Definition example_layers : list LayerInfo :=
  [example_layer "in0" HAILO_H2D_STREAM 0;
   example_layer "out0" HAILO_D2H_STREAM 1;
   example_layer "out1" HAILO_D2H_STREAM 2].

(** Two contexts with their serialized controls. *)
Definition example_contexts : list ContextResources :=
  [mkContextResources 2 [[1; 2]; [3]] [] [];
   mkContextResources 3 [[4]] [] []].

Definition example_channel (index descs : Z) (stream : string) (dir : DmaDirection)
    : ChannelId * BoundaryChannel :=
  (mkChannelId 0 index,
   mkBoundaryChannel (mkChannelId 0 index) dir (mkDescriptorList descs 512 []) stream None
     4 BUFFERED).

(** A manager for the network-name table [a; b; c] with the batch sizes
    [{a: 4; c: 2}], two contexts, one config channel and three boundary
    channels whose descriptor lists hold 10, 7 and 12 transfers of a frame. *)
Definition example_manager_with (platform : Platform) (allocator : ChannelAllocator)
    (sizes : list (string * hailo_network_parameters_t)) (table : list string)
    : ResourcesManager :=
  mkResourcesManager example_contexts allocator example_driver
    (mkConfigureNetworkParams 4 0 sizes ∅) ∅
    (mkCoreOpMetadata true example_layers table) 0 1 2 table ∅
    [example_channel 1 11 "in0" H2D; example_channel 2 8 "out0" D2H;
     example_channel 3 13 "out1" D2H]
    false [mkChannelId 0 0].

Definition example_sizes : list (string * hailo_network_parameters_t) :=
  [("a", mkNetworkParameters 4); ("c", mkNetworkParameters 2)].

Definition example_manager : @ResourcesManager pcie_platform :=
  example_manager_with pcie_platform 4%nat example_sizes ["a"; "b"; "c"].

(** The header assembled for [example_manager]. *)
Definition example_header : application_header_t :=
  mkApplicationHeader 1 true false 2 [4; 0; 2; 0; 0; 0; 0; 0] 512.

(** The manager of the examples on a platform whose completion triggers
    always fail. *)
Definition failing_trigger_platform : Platform :=
  example_platform accepting_firmware failing_trigger.

Definition example_irq_manager : @ResourcesManager failing_trigger_platform :=
  example_manager_with failing_trigger_platform 4%nat example_sizes ["a"; "b"; "c"].

(** Five records to process and a sixth one beyond [channels_count]: an
    unregistered channel, a valid record, a host error, an inactive channel
    and a second valid record. *)
Definition example_irq_data : IrqData :=
  mkIrqData 5
    [mkChannelIrqData (mkChannelId 0 9) true 1 0 0;
     mkChannelIrqData (mkChannelId 0 2) true 5 0 0;
     mkChannelIrqData (mkChannelId 0 1) true 2 1 0;
     mkChannelIrqData (mkChannelId 0 1) false 3 0 0;
     mkChannelIrqData (mkChannelId 0 3) true 6 0 0;
     mkChannelIrqData (mkChannelId 0 2) true 8 0 0].

(** Two config buffers requested of a manager with one config channel. *)
Definition example_config_info : gmap Z (list Z) := <[0 := [1]]> (<[1 := [2]]> ∅).

Definition example_call (domain : InterruptsDomain) (offset : Z) : ProgramCall :=
  mkProgramCall 512 domain offset false.

(** A manager configured with a network that is not in the table, and the
    manager of the examples on a firmware that rejects the contexts. *)
Definition example_unknown_network_manager : @ResourcesManager pcie_platform :=
  example_manager_with pcie_platform 4%nat
    [("a", mkNetworkParameters 4); ("d", mkNetworkParameters 1)] ["a"; "b"; "c"].

Definition rejecting_platform : Platform :=
  example_platform context_rejecting_firmware succeeding_trigger.

Definition example_rejected_manager : @ResourcesManager rejecting_platform :=
  example_manager_with rejecting_platform 4%nat example_sizes ["a"; "b"; "c"].

(** A manager whose first network is configured with the sentinel. *)
Definition example_default_batch_manager : @ResourcesManager pcie_platform :=
  example_manager_with pcie_platform 4%nat
    [("a", mkNetworkParameters 0); ("c", mkNetworkParameters 2)] ["a"; "b"; "c"].

(** An environment for [pcie_platform]: bitmaps of three engines, an
    allocator that starts at channel 0, the layers of a network read off the
    layers of the metadata, and cancellations and a dispatcher that
    succeed. *)
Definition pcie_environment : @Environment pcie_platform := {|
  MAX_IRQ_TIMESTAMPS_SIZE := 128;
  HAILO_LATENCY_MEASURE := 1;
  MAX_VDMA_ENGINES_COUNT := 3;
  ChannelAllocator_new _ := (0%nat : @ChannelAllocator pcie_platform);
  get_all_layer_infos_of metadata network :=
    Value (filter (fun layer => network_name layer = network)
             (get_all_layer_infos metadata));
  cancel_status _ _ := HAILO_SUCCESS;
  get_vdma_interrupts_dispatcher := HAILO_SUCCESS;
  dispatcher_start_status _ := HAILO_SUCCESS;
  DdrChannelsPair_create_status _ _ := HAILO_SUCCESS
|}.

(** A context with two edge layers on distinct channels. *)
Definition example_edge_context : ContextResources :=
  mkContextResources 3 [] []
    [mkEdgeLayer (example_layer "in0" HAILO_H2D_STREAM 0) (mkChannelId 0 1) 0;
     mkEdgeLayer (example_layer "out0" HAILO_D2H_STREAM 1) (mkChannelId 1 1) 0].

(** The manager of the examples, configured with an asynchronous stream
    [in1] for which no boundary channel exists yet, and the layer of that
    stream. *)
Definition example_stream_manager : @ResourcesManager pcie_platform :=
  @mkResourcesManager pcie_platform example_contexts 4%nat example_driver
    (mkConfigureNetworkParams 4 0 example_sizes {["in1" := mkStreamParameters 1]}) ∅
    (mkCoreOpMetadata true example_layers ["a"; "b"; "c"]) 0 1 2 ["a"; "b"; "c"] ∅
    [example_channel 1 11 "in0" H2D; example_channel 2 8 "out0" D2H;
     example_channel 3 13 "out1" D2H]
    false [mkChannelId 0 0].

Definition example_new_layer : LayerInfo := example_layer "in1" HAILO_H2D_STREAM 3.

(** The boundary channel created for [example_new_layer], and the manager
    that holds it. *)
Definition example_new_channel : BoundaryChannel :=
  mkBoundaryChannel (mkChannelId 0 4) H2D (mkDescriptorList 17 512 []) "in1" None 4 ASYNC.

Definition example_stream_manager' : @ResourcesManager pcie_platform :=
  with_boundary_channels
    (m_boundary_channels example_stream_manager ++ [(mkChannelId 0 4, example_new_channel)])
    (@with_channel_allocator pcie_platform 5%nat example_stream_manager).

(** The manager of the examples with an inter-context buffer for stream 1
    of context 0. *)
Definition example_buffer : InterContextBuffer :=
  mkInterContextBuffer 1024 4 (mkChannelId 0 5).

Definition example_buffer_manager : @ResourcesManager pcie_platform :=
  with_inter_context_buffers (<[(0, 1) := example_buffer]> ∅) example_manager.

(** The context that [add_new_context] builds from one config buffer. *)
Definition example_new_context : ContextResources :=
  mkContextResources 3 [] [mkConfigBuffer (mkChannelId 0 0) [1]] [].

(** The inputs of a creation: a configuration that asks for latency
    measurement, the metadata of the examples, and two config channels, on
    engines 0 and 1. *)
Definition example_create_params : ConfigureNetworkParams :=
  mkConfigureNetworkParams 4 1 example_sizes ∅.

Definition example_metadata : CoreOpMetadata :=
  mkCoreOpMetadata true example_layers ["a"; "b"; "c"].

Definition example_config_channels : list ConfigChannelInfo :=
  [mkConfigChannelInfo 0; mkConfigChannelInfo 1].

(** * Properties *)

Section Properties.
Context `{platform : Platform}.

(** ** Edge-layer validation *)

Lemma validate_edge_layers_from_success (used : gset ChannelId) (layers : list EdgeLayer) :
  validate_edge_layers_from used layers = HAILO_SUCCESS <->
  NoDup (channel_id <$> layers) /\ (forall id, id ∈ channel_id <$> layers -> id ∉ used).
Proof.
  revert used. induction layers as [|e layers IH]; intros used; simpl.
  - split; [intros _|done]. split; [constructor|]. intros id Hid. by apply elem_of_nil in Hid.
  - destruct (decide (channel_id e ∈ used)) as [Hin|Hnin].
    + split; [done|]. intros [_ Hfresh]. destruct (Hfresh (channel_id e)); [left|done].
    + rewrite IH, NoDup_cons. split.
      * intros [Hnd Hfresh]. repeat split; [|done|].
        -- intros Hdup. apply (Hfresh _ Hdup), elem_of_union_l, elem_of_singleton.
           reflexivity.
        -- intros id [->|Hid]%elem_of_cons; [done|].
           intros Hused. by apply (Hfresh _ Hid), elem_of_union_r.
      * intros [[Hnotin Hnd] Hfresh]. split; [done|].
        intros id Hid [->%elem_of_singleton|Hused]%elem_of_union; [done|].
        apply (Hfresh id); [by right|done].
Qed.

Lemma validate_edge_layers_from_status (used : gset ChannelId) (layers : list EdgeLayer) :
  validate_edge_layers_from used layers = HAILO_SUCCESS \/
  validate_edge_layers_from used layers = HAILO_INTERNAL_FAILURE.
Proof.
  revert used. induction layers as [|e layers IH]; intros used; simpl; [by left|].
  destruct (decide (channel_id e ∈ used)); [by right|apply IH].
Qed.

(** A failure is caused by a layer whose channel id was seen before: either
    in the initial set, or at an earlier position of the list. *)
Lemma validate_edge_layers_from_failure (used : gset ChannelId) (layers : list EdgeLayer) :
  validate_edge_layers_from used layers = HAILO_INTERNAL_FAILURE ->
  (exists (j : nat) (b : EdgeLayer), layers !! j = Some b /\ channel_id b ∈ used)
  \/ (exists (i j : nat) (a b : EdgeLayer),
        (i < j)%nat /\ layers !! i = Some a /\ layers !! j = Some b
        /\ channel_id a = channel_id b).
Proof.
  revert used. induction layers as [|e layers IH]; intros used; simpl; [done|].
  destruct (decide (channel_id e ∈ used)) as [Hin|Hnin].
  - intros _. left. by exists 0%nat, e.
  - intros Hfail. destruct (IH _ Hfail) as [(j & b & Hj & Hb)|(i & j & a & b & Hij & Hi & Hj & Hab)].
    + apply elem_of_union in Hb as [Hb%elem_of_singleton|Hb].
      * right. exists 0%nat, (S j), e, b. split; [lia|]. by rewrite Hb.
      * left. by exists (S j), b.
    + right. exists (S i), (S j), a, b. split; [lia|done].
Qed.

(** C3: [validate_edge_layers] fails, with [HAILO_INTERNAL_FAILURE], exactly
    when two edge layers of the context (at different positions) carry the
    same channel id; when the channel ids are pairwise distinct it returns
    [HAILO_SUCCESS]. *)
Theorem validate_edge_layers_iff_shared_channel_id (context : ContextResources) :
  (validate_edge_layers context = HAILO_INTERNAL_FAILURE <->
   exists (i j : nat) (a b : EdgeLayer),
     i <> j /\ m_edge_layers context !! i = Some a /\ m_edge_layers context !! j = Some b
     /\ channel_id a = channel_id b)
  /\ (validate_edge_layers context = HAILO_SUCCESS <->
      NoDup (channel_id <$> m_edge_layers context)).
Proof.
  unfold validate_edge_layers.
  assert (Hok : validate_edge_layers_from ∅ (m_edge_layers context) = HAILO_SUCCESS <->
                NoDup (channel_id <$> m_edge_layers context)).
  { rewrite validate_edge_layers_from_success. split; [by intros [? _]|].
    intros Hnd. split; [done|]. intros id _. apply not_elem_of_empty. }
  split; [|exact Hok].
  split.
  - intros Hfail.
    destruct (validate_edge_layers_from_failure _ _ Hfail)
      as [(j & b & _ & Hb)|(i & j & a & b & Hij & Hi & Hj & Hab)].
    + by apply not_elem_of_empty in Hb.
    + exists i, j, a, b. split; [lia|done].
  - intros (i & j & a & b & Hij & Hi & Hj & Hab).
    destruct (validate_edge_layers_from_status ∅ (m_edge_layers context)) as [Hs|Hf]; [|done].
    apply Hok in Hs. rewrite NoDup_alt in Hs.
    destruct Hij. apply (Hs i j (channel_id a)).
    + by rewrite list_lookup_fmap, Hi.
    + by rewrite list_lookup_fmap, Hj, Hab.
Qed.


(** ** Context construction *)

Lemma ContextResources_create_excess (fuel : nat) (driver : Driver) (context_type : Z)
    (ids : list ChannelId) (infos : gmap Z (list Z)) :
  (length ids < size infos)%nat ->
  ContextResources_create fuel driver context_type ids infos =
  Done (Unexpected
          (if bool_decide (context_type < CONTROL_PROTOCOL__CONTEXT_SWITCH_CONTEXT_TYPE_COUNT)
           then HAILO_INTERNAL_FAILURE else HAILO_INVALID_ARGUMENT)).
Proof.
  intros Hlt. unfold ContextResources_create.
  case_bool_decide; simpl; [|done].
  rewrite bool_decide_eq_false_2 by lia. done.
Qed.

(** C6 (as the code has it): when more config buffers are requested than
    config-channel ids were allocated, building the context fails and the
    manager is unchanged; the status is [HAILO_INTERNAL_FAILURE], unless an
    earlier check already failed ([HAILO_INVALID_CONTEXT_COUNT] when the
    context counter is at its maximum, [HAILO_INVALID_ARGUMENT] when the
    context type is out of range). *)
Theorem add_new_context_excess_config_buffers (fuel : nat) (rm : ResourcesManager)
    (context_type : Z) (config_info : gmap Z (list Z)) :
  (length (m_config_channels_ids rm) < size config_info)%nat ->
  add_new_context fuel rm context_type config_info =
  Done (Unexpected
          (if bool_decide (m_total_context_count rm < UINT8_MAX) then
             if bool_decide (context_type < CONTROL_PROTOCOL__CONTEXT_SWITCH_CONTEXT_TYPE_COUNT)
             then HAILO_INTERNAL_FAILURE else HAILO_INVALID_ARGUMENT
           else HAILO_INVALID_CONTEXT_COUNT),
        rm).
Proof.
  intros Hlt. unfold add_new_context.
  case_bool_decide; simpl; [|done].
  by rewrite ContextResources_create_excess.
Qed.

(** ** Channel-id requests *)

(** C8: on a PCIe driver, the DMA flavor with a single engine, the engine
    index of the request is replaced by [DEFAULT_ENGINE_INDEX] before the
    allocator is asked, so any two requested engine indices give the same
    channel id and the same manager. *)
Theorem get_available_channel_id_single_engine (rm : ResourcesManager)
    (layer_identifier : LayerIdentifier) (dir : DmaDirection) (engine engine' : Z) :
  dma_type (m_driver rm) = PCIE ->
  get_available_channel_id rm layer_identifier dir engine =
    ((allocate_channel_id (m_channel_allocator rm) layer_identifier dir
        DEFAULT_ENGINE_INDEX).1,
     with_channel_allocator
       (allocate_channel_id (m_channel_allocator rm) layer_identifier dir
          DEFAULT_ENGINE_INDEX).2 rm)
  /\ get_available_channel_id rm layer_identifier dir engine =
     get_available_channel_id rm layer_identifier dir engine'.
Proof.
  intros Hpcie. unfold get_available_channel_id.
  destruct (decide (dma_type (m_driver rm) = PCIE)); [|done].
  by destruct (allocate_channel_id _ _ _ _).
Qed.

(** On any other driver the requested engine index reaches the allocator. *)
Lemma get_available_channel_id_multi_engine (rm : ResourcesManager)
    (layer_identifier : LayerIdentifier) (dir : DmaDirection) (engine : Z) :
  dma_type (m_driver rm) <> PCIE ->
  get_available_channel_id rm layer_identifier dir engine =
    ((allocate_channel_id (m_channel_allocator rm) layer_identifier dir engine).1,
     with_channel_allocator
       (allocate_channel_id (m_channel_allocator rm) layer_identifier dir engine).2 rm).
Proof.
  intros Hother. unfold get_available_channel_id.
  destruct (decide (dma_type (m_driver rm) = PCIE)); [done|].
  by destruct (allocate_channel_id _ _ _ _).
Qed.

(** ** Network batch sizes *)

Lemma actual_batch_size_not_sentinel (p : hailo_network_parameters_t) :
  DEFAULT_ACTUAL_BATCH_SIZE <> HAILO_DEFAULT_BATCH_SIZE ->
  actual_batch_size p <> HAILO_DEFAULT_BATCH_SIZE.
Proof. intros Hne. unfold actual_batch_size. by case_decide. Qed.

Lemma get_network_batch_size_in_found
    (params : list (string * hailo_network_parameters_t)) (network : string) :
  network ∈ params.*1 ->
  exists p, (network, p) ∈ params
            /\ get_network_batch_size_in params network = Value (actual_batch_size p).
Proof.
  induction params as [|[n p] params IH]; simpl; [by intros ?%elem_of_nil|].
  intros Hin. destruct (decide (n = network)) as [->|Hne].
  - exists p. split; [left|done].
  - apply elem_of_cons in Hin as [Heq|Hin]; [by destruct Hne|].
    destruct (IH Hin) as (q & Hq & Hget). exists q. split; [by right|done].
Qed.

Lemma get_network_batch_size_in_missing
    (params : list (string * hailo_network_parameters_t)) (network : string) :
  network ∉ params.*1 ->
  get_network_batch_size_in params network = Unexpected HAILO_NOT_FOUND.
Proof.
  induction params as [|[n p] params IH]; simpl; [done|].
  intros Hnin. apply not_elem_of_cons in Hnin as [Hne Hnin].
  destruct (decide (n = network)); [by destruct Hne|by apply IH].
Qed.

Lemma get_network_batch_size_value (rm : ResourcesManager) (network : string) (size : Z) :
  get_network_batch_size rm network = Value size ->
  exists p, (network, p) ∈ network_params_by_name (m_config_params rm)
            /\ size = actual_batch_size p.
Proof.
  unfold get_network_batch_size.
  destruct (decide (network ∈ (network_params_by_name (m_config_params rm)).*1)) as [Hin|Hnin].
  - destruct (get_network_batch_size_in_found _ _ Hin) as (p & Hp & ->).
    intros [= <-]. by exists p.
  - by rewrite get_network_batch_size_in_missing.
Qed.


(** ** Header assembly: per-network batch sizes *)

Lemma index_of_lookup (network : string) (table : list string) (i : nat) :
  index_of network table = Some i -> table !! i = Some network.
Proof.
  revert i. induction table as [|entry rest IH]; intros i; simpl; [done|].
  destruct (decide (entry = network)) as [->|Hne].
  - by intros [= <-].
  - destruct (index_of network rest) as [j|]; simpl; [|done].
    intros [= <-]. by apply IH.
Qed.

Lemma index_of_lt (network : string) (table : list string) (i : nat) :
  index_of network table = Some i -> (i < length table)%nat.
Proof. intros Hi. apply index_of_lookup in Hi. by eapply lookup_lt_Some. Qed.

Lemma index_of_elem (network : string) (table : list string) :
  network ∈ table -> is_Some (index_of network table).
Proof.
  induction table as [|entry rest IH]; simpl; [by intros ?%elem_of_nil|].
  intros Hin. destruct (decide (entry = network)) as [->|Hne]; [by eexists|].
  apply elem_of_cons in Hin as [Heq|Hin]; [by destruct Hne|].
  destruct (IH Hin) as [j ->]. by eexists.
Qed.

Lemma index_of_not_elem (network : string) (table : list string) :
  network ∉ table -> index_of network table = None.
Proof.
  intros Hnin. destruct (index_of network table) as [i|] eqn:Hi; [|done].
  destruct Hnin. apply index_of_lookup in Hi. by eapply list_elem_of_lookup_2.
Qed.

Lemma find_network_index_from (rm : ResourcesManager) (network : string)
    (app_header : application_header_t) (n k fuel : nat) :
  (length (m_network_index_map rm) <= 255)%nat ->
  (k + n = length (m_network_index_map rm))%nat ->
  (n < fuel)%nat ->
  find_network_index fuel rm network app_header (Z.of_nat k)
  = search_result rm network app_header k.
Proof.
  intros Hsmall. revert k fuel.
  induction n as [|n IH]; intros k fuel Hk Hfuel;
    (destruct fuel as [|fuel]; [lia|]); simpl; unfold search_result.
  - rewrite bool_decide_eq_false_2 by lia.
    rewrite drop_ge by lia. simpl. do 3 f_equal. lia.
  - rewrite bool_decide_eq_true_2 by lia.
    rewrite Nat2Z.id.
    destruct (lookup_lt_is_Some_2 (m_network_index_map rm) k) as [entry Hentry]; [lia|].
    rewrite Hentry, (drop_S _ _ _ Hentry). simpl.
    destruct (decide (entry = network)) as [->|Hne].
    + by rewrite Nat.add_0_r.
    + replace (wrap8 (Z.of_nat k + 1)) with (Z.of_nat (S k)).
      2:{ unfold wrap8. rewrite Z.mod_small; lia. }
      rewrite (IH (S k) fuel) by lia. unfold search_result.
      destruct (index_of network (drop (S k) (m_network_index_map rm))) as [j|]; simpl;
        [|done].
      by replace (k + S j)%nat with (S k + j)%nat by lia.
Qed.

Lemma with_batch_size_same (h : application_header_t) :
  with_batch_size (batch_size h) h = h.
Proof. by destruct h. Qed.

Lemma write_batch_size_length (rm : ResourcesManager) (sizes : list Z) (network : string) :
  length (write_batch_size rm sizes network) = length sizes.
Proof.
  unfold write_batch_size.
  destruct (index_of network _), (get_network_batch_size rm network);
    by rewrite ?length_insert.
Qed.

Lemma write_batch_sizes_length (rm : ResourcesManager) (names : list string)
    (sizes : list Z) :
  length (foldl (write_batch_size rm) sizes names) = length sizes.
Proof.
  revert sizes. induction names as [|n names IH]; intros sizes; simpl; [done|].
  by rewrite IH, write_batch_size_length.
Qed.

Lemma fill_network_batch_size_for_success (fuel : nat) (rm : ResourcesManager)
    (params : list (string * hailo_network_parameters_t))
    (app_header : application_header_t) :
  (length (m_network_index_map rm) <= 255)%nat ->
  (length (m_network_index_map rm) <= length (batch_size app_header))%nat ->
  (length (m_network_index_map rm) < fuel)%nat ->
  Forall (fun n => n ∈ m_network_index_map rm) params.*1 ->
  Forall (fun n => n ∈ (network_params_by_name (m_config_params rm)).*1) params.*1 ->
  fill_network_batch_size_for fuel rm params app_header =
  Done (HAILO_SUCCESS,
        with_batch_size (foldl (write_batch_size rm) (batch_size app_header) params.*1)
          app_header).
Proof.
  intros Hsmall. revert app_header.
  induction params as [|[n p] params IH]; intros app_header Hfit Hfuel Htable Hconf.
  - simpl. by rewrite with_batch_size_same.
  - rewrite fmap_cons in Htable, Hconf |- *.
    apply Forall_cons in Htable as [Hn Htable]. apply Forall_cons in Hconf as [Hc Hconf].
    cbn [fst] in Hn, Hc.
    cbn [fill_network_batch_size_for foldl fst].
    rewrite (find_network_index_from rm n app_header (length (m_network_index_map rm)) 0)
      by lia.
    unfold search_result, write_batch_size. rewrite drop_0.
    destruct (index_of_elem _ _ Hn) as [i Hi]. rewrite Hi.
    destruct (get_network_batch_size_in_found _ _ Hc) as (q & _ & Hget).
    unfold get_network_batch_size. rewrite Hget.
    pose proof (index_of_lt _ _ _ Hi) as Hlt.
    rewrite Nat.add_0_l, bool_decide_eq_true_2 by lia.
    destruct (decide (Z.of_nat (length (m_network_index_map rm)) = Z.of_nat i)); [lia|].
    rewrite IH; [done| |done|done|done].
    cbn [batch_size with_batch_size]. by rewrite length_insert.
Qed.

Lemma fill_network_batch_size_for_not_found (fuel : nat) (rm : ResourcesManager)
    (params : list (string * hailo_network_parameters_t))
    (app_header : application_header_t) :
  (length (m_network_index_map rm) <= 255)%nat ->
  (length (m_network_index_map rm) <= length (batch_size app_header))%nat ->
  (length (m_network_index_map rm) < fuel)%nat ->
  Exists (fun n => n ∉ m_network_index_map rm) params.*1 ->
  Forall (fun n => n ∈ (network_params_by_name (m_config_params rm)).*1) params.*1 ->
  exists app_header',
    fill_network_batch_size_for fuel rm params app_header
    = Done (HAILO_ERROR HAILO_NOT_FOUND, app_header').
Proof.
  intros Hsmall. revert app_header.
  induction params as [|[n p] params IH]; intros app_header Hfit Hfuel Hmiss Hconf.
  - by apply Exists_nil in Hmiss.
  - rewrite fmap_cons in Hmiss, Hconf.
    apply Forall_cons in Hconf as [Hc Hconf]. cbn [fst] in Hc, Hmiss.
    cbn [fill_network_batch_size_for fst].
    rewrite (find_network_index_from rm n app_header (length (m_network_index_map rm)) 0)
      by lia.
    unfold search_result. rewrite drop_0.
    destruct (decide (n ∈ m_network_index_map rm)) as [Hn|Hn].
    + destruct (index_of_elem _ _ Hn) as [i Hi]. rewrite Hi.
      destruct (get_network_batch_size_in_found _ _ Hc) as (q & _ & Hget).
      unfold get_network_batch_size. rewrite Hget.
      pose proof (index_of_lt _ _ _ Hi) as Hlt.
      rewrite Nat.add_0_l, bool_decide_eq_true_2 by lia.
      destruct (decide (Z.of_nat (length (m_network_index_map rm)) = Z.of_nat i)); [lia|].
      apply Exists_cons in Hmiss as [Hmiss|Hmiss]; [done|].
      apply IH; [|done|done|done].
      cbn [batch_size with_batch_size]. by rewrite length_insert.
    + rewrite (index_of_not_elem _ _ Hn).
      destruct (decide (_ = _)); [|done]. by eexists.
Qed.


(** Within those bounds the loop always returns. *)
Lemma fill_network_batch_size_for_done (fuel : nat) (rm : ResourcesManager)
    (params : list (string * hailo_network_parameters_t))
    (app_header : application_header_t) :
  (length (m_network_index_map rm) <= 255)%nat ->
  (length (m_network_index_map rm) <= length (batch_size app_header))%nat ->
  (length (m_network_index_map rm) < fuel)%nat ->
  Forall (fun n => n ∈ (network_params_by_name (m_config_params rm)).*1) params.*1 ->
  exists result, fill_network_batch_size_for fuel rm params app_header = Done result.
Proof.
  intros Hsmall. revert app_header.
  induction params as [|[n p] params IH]; intros app_header Hfit Hfuel Hconf.
  - by eexists.
  - rewrite fmap_cons in Hconf.
    apply Forall_cons in Hconf as [Hc Hconf]. cbn [fst] in Hc.
    cbn [fill_network_batch_size_for fst].
    rewrite (find_network_index_from rm n app_header (length (m_network_index_map rm)) 0)
      by lia.
    unfold search_result. rewrite drop_0.
    destruct (index_of n (m_network_index_map rm)) as [i|] eqn:Hi.
    + destruct (get_network_batch_size_in_found _ _ Hc) as (q & _ & Hget).
      unfold get_network_batch_size. rewrite Hget.
      pose proof (index_of_lt _ _ _ Hi) as Hlt.
      rewrite Nat.add_0_l, bool_decide_eq_true_2 by lia.
      destruct (decide (Z.of_nat (length (m_network_index_map rm)) = Z.of_nat i)); [lia|].
      apply IH; [|done|done].
      cbn [batch_size with_batch_size]. by rewrite length_insert.
    + destruct (decide (_ = _)); [|done]. by eexists.
Qed.

Lemma write_batch_sizes_unwritten (rm : ResourcesManager) (names : list string)
    (sizes : list Z) (i : nat) :
  (forall network, network ∈ names -> index_of network (m_network_index_map rm) <> Some i) ->
  foldl (write_batch_size rm) sizes names !! i = sizes !! i.
Proof.
  revert sizes. induction names as [|n names IH]; intros sizes Hother; [done|].
  cbn [foldl]. rewrite IH by (intros m Hm; apply Hother; by right).
  unfold write_batch_size.
  destruct (index_of n (m_network_index_map rm)) as [j|] eqn:Hj; [|done].
  destruct (get_network_batch_size rm n); [|done].
  apply list_lookup_insert_ne. intros ->. by apply (Hother n); [left|].
Qed.

Lemma write_batch_sizes_written (rm : ResourcesManager) (names : list string)
    (sizes : list Z) (network : string) (i : nat) (size : Z) :
  network ∈ names ->
  index_of network (m_network_index_map rm) = Some i ->
  get_network_batch_size rm network = Value size ->
  (length (m_network_index_map rm) <= length sizes)%nat ->
  foldl (write_batch_size rm) sizes names !! i = Some size.
Proof.
  intros Hin Hi Hget Hfit. pose proof (index_of_lt _ _ _ Hi) as Hlt.
  induction names as [|n names IH] using rev_ind; [by apply elem_of_nil in Hin|].
  rewrite foldl_app. cbn [foldl]. unfold write_batch_size at 1.
  destruct (decide (n = network)) as [->|Hne].
  - rewrite Hi, Hget. apply list_lookup_insert_eq.
    rewrite write_batch_sizes_length. lia.
  - assert (Hin' : network ∈ names).
    { apply elem_of_app in Hin as [?|Hin]; [done|].
      apply list_elem_of_singleton in Hin. by destruct Hne. }
    destruct (index_of n (m_network_index_map rm)) as [j|] eqn:Hj; [|by apply IH].
    destruct (get_network_batch_size rm n); [|by apply IH].
    rewrite list_lookup_insert_ne; [by apply IH|].
    intros ->. apply index_of_lookup in Hi, Hj. congruence.
Qed.

(** C2: provided the network-name table fits the header's batch-size array
    (and a [uint8_t] index), [fill_network_batch_size]
    - succeeds when every configured network name is in the table, and then
      holds, at the table index of each configured network, that network's
      batch size, while every other entry of the array is left as it was;
    - returns [HAILO_NOT_FOUND] when a configured network name is missing
      from the table. *)
Theorem fill_network_batch_size_by_table_index (fuel : nat) (rm : ResourcesManager)
    (app_header : application_header_t) :
  (length (m_network_index_map rm) <= 255)%nat ->
  (length (m_network_index_map rm) <= length (batch_size app_header))%nat ->
  (length (m_network_index_map rm) < fuel)%nat ->
  (Forall (fun network => network ∈ m_network_index_map rm)
     (network_params_by_name (m_config_params rm)).*1 ->
   exists app_header',
     fill_network_batch_size fuel rm app_header = Done (HAILO_SUCCESS, app_header')
     /\ networks_count app_header'
        = wrap8 (Z.of_nat (length (network_params_by_name (m_config_params rm))))
     /\ length (batch_size app_header') = length (batch_size app_header)
     /\ (forall network i,
           network ∈ (network_params_by_name (m_config_params rm)).*1 ->
           index_of network (m_network_index_map rm) = Some i ->
           exists size, get_network_batch_size rm network = Value size
                        /\ batch_size app_header' !! i = Some size)
     /\ (forall i,
           (forall network,
              network ∈ (network_params_by_name (m_config_params rm)).*1 ->
              index_of network (m_network_index_map rm) <> Some i) ->
           batch_size app_header' !! i = batch_size app_header !! i))
  /\ (Exists (fun network => network ∉ m_network_index_map rm)
        (network_params_by_name (m_config_params rm)).*1 ->
      exists app_header',
        fill_network_batch_size fuel rm app_header
        = Done (HAILO_ERROR HAILO_NOT_FOUND, app_header')).
Proof.
  intros Hsmall Hfit Hfuel. unfold fill_network_batch_size.
  set (params := network_params_by_name (m_config_params rm)).
  set (h := with_networks_count (wrap8 (Z.of_nat (length params))) app_header).
  assert (Hconf : Forall (fun n => n ∈ params.*1) params.*1) by by apply Forall_forall.
  split.
  - intros Htable. eexists. split.
    { by apply fill_network_batch_size_for_success. }
    cbn [networks_count batch_size with_batch_size h with_networks_count].
    split; [done|]. split; [apply write_batch_sizes_length|]. split.
    + intros network i Hin Hi.
      destruct (get_network_batch_size_in_found _ _ Hin) as (p & _ & Hget).
      exists (actual_batch_size p). split; [done|].
      by apply (write_batch_sizes_written rm _ _ network).
    + intros i Hother. by apply write_batch_sizes_unwritten.
  - intros Hmiss. by apply fill_network_batch_size_for_not_found.
Qed.


(** ** Where the network batch size goes *)

Lemma get_network_batch_size_with_channel_allocator (a : ChannelAllocator)
    (rm : ResourcesManager) (network : string) :
  get_network_batch_size (with_channel_allocator a rm) network
  = get_network_batch_size rm network.
Proof. done. Qed.

(** What a successful [create_boundary_vdma_channel] has done. *)
Lemma create_boundary_vdma_channel_success (rm rm' : ResourcesManager) (layer : LayerInfo) :
  create_boundary_vdma_channel rm layer = Done (HAILO_SUCCESS, rm') ->
  exists (size : Z) (id : ChannelId) (channel : BoundaryChannel) (desc_sizes : Z * Z),
    get_network_batch_size rm (network_name layer) = Value size
    /\ get_desc_buffer_sizes_for_single_transfer (m_driver rm)
         (wrap32 (MIN_ACTIVE_TRANSFERS_SCALE * size))
         (wrap32 (MAX_ACTIVE_TRANSFERS_SCALE * size))
         (wrap32 (periph_bytes_per_buffer layer * core_buffers_per_frame layer))
       = Value desc_sizes
    /\ desc_page_size (get_desc_list channel) = desc_sizes.1
    /\ transfers_per_axi_intr channel = size
    /\ get_channel_id channel = id
    /\ m_boundary_channels rm'
       = emplace_boundary_channel id channel (m_boundary_channels rm).
Proof.
  unfold create_boundary_vdma_channel, get_available_channel_id.
  destruct (allocate_channel_id _ _ _ _) as [[id|status] allocator]; [|by intros [= ?]].
  rewrite get_network_batch_size_with_channel_allocator.
  destruct (get_network_batch_size rm (network_name layer)) as [size|status];
    [|by intros [= ?]].
  destruct (IS_FIT_IN_UINT16 (wrap32 (MIN_ACTIVE_TRANSFERS_SCALE * size)));
    [|by intros [= ?]].
  destruct (IS_FIT_IN_UINT16 (wrap32 (MAX_ACTIVE_TRANSFERS_SCALE * size)));
    [|by intros [= ?]].
  cbn [negb m_driver with_channel_allocator m_config_params m_latency_meters
       m_boundary_channels].
  destruct (get_desc_buffer_sizes_for_single_transfer _ _ _ _) as [desc_sizes|status] eqn:Hsizes;
    [|by intros [= ?]].
  destruct (stream_params_by_name (m_config_params rm) !! name layer) as [stream_params|];
    [|done].
  unfold BoundaryChannel_create.
  match goal with |- context [BoundaryChannel_create_status ?c] =>
    set (channel := c); destruct (BoundaryChannel_create_status channel) end;
    intros [= <-].
  by exists size, id, channel, desc_sizes.
Qed.

(** What a [create_inter_context_buffer] that inserts a buffer has done. *)
Lemma create_inter_context_buffer_inserted (rm rm' : ResourcesManager) (size : Z)
    (src_stream_index src_context_index : Z) (network : string)
    (d2h_channel_id : ChannelId) (buffer : InterContextBuffer) :
  m_inter_context_buffers rm !! (src_context_index, src_stream_index) = None ->
  create_inter_context_buffer rm size src_stream_index src_context_index network
    d2h_channel_id = (Value buffer, rm') ->
  exists batch,
    get_network_batch_size rm network = Value batch
    /\ buffer = mkInterContextBuffer size batch d2h_channel_id
    /\ m_inter_context_buffers rm' !! (src_context_index, src_stream_index) = Some buffer.
Proof.
  intros Hfree. unfold create_inter_context_buffer, InterContextBuffer_create.
  destruct (get_network_batch_size rm network) as [batch|status]; [|by intros [= ?]].
  rewrite Hfree.
  destruct (InterContextBuffer_create_status _); intros [= <- <-].
  exists batch. split; [done|]. split; [done|].
  cbn [m_inter_context_buffers with_inter_context_buffers]. apply lookup_insert_eq.
Qed.

(** C10: for a network of the configuration, [get_network_batch_size]
    returns the configured batch size, with [DEFAULT_ACTUAL_BATCH_SIZE] in
    place of the sentinel [HAILO_DEFAULT_BATCH_SIZE], so never the sentinel;
    for any other name it fails with [HAILO_NOT_FOUND]. The header array,
    the boundary channels and the inter-context buffers are built from that
    value: a header entry written for a network, the batch size and the
    active-transfer bounds of a created boundary channel, and the batch size
    of an inserted inter-context buffer. *)
Theorem get_network_batch_size_substitutes_default (rm : ResourcesManager) :
  DEFAULT_ACTUAL_BATCH_SIZE <> HAILO_DEFAULT_BATCH_SIZE ->
  (forall network,
     network ∈ (network_params_by_name (m_config_params rm)).*1 ->
     exists p size,
       (network, p) ∈ network_params_by_name (m_config_params rm)
       /\ get_network_batch_size rm network = Value size
       /\ size = (if decide (network_batch_size p = HAILO_DEFAULT_BATCH_SIZE)
                  then DEFAULT_ACTUAL_BATCH_SIZE else network_batch_size p)
       /\ size <> HAILO_DEFAULT_BATCH_SIZE)
  /\ (forall network,
        network ∉ (network_params_by_name (m_config_params rm)).*1 ->
        get_network_batch_size rm network = Unexpected HAILO_NOT_FOUND)
  /\ (forall fuel app_header,
        (length (m_network_index_map rm) <= 255)%nat ->
        (length (m_network_index_map rm) <= length (batch_size app_header))%nat ->
        (length (m_network_index_map rm) < fuel)%nat ->
        Forall (fun network => network ∈ m_network_index_map rm)
          (network_params_by_name (m_config_params rm)).*1 ->
        exists app_header',
          fill_network_batch_size fuel rm app_header = Done (HAILO_SUCCESS, app_header')
          /\ forall network i,
               network ∈ (network_params_by_name (m_config_params rm)).*1 ->
               index_of network (m_network_index_map rm) = Some i ->
               exists size,
                 get_network_batch_size rm network = Value size
                 /\ batch_size app_header' !! i = Some size
                 /\ size <> HAILO_DEFAULT_BATCH_SIZE)
  /\ (forall layer rm',
        create_boundary_vdma_channel rm layer = Done (HAILO_SUCCESS, rm') ->
        exists size id channel desc_sizes,
          get_network_batch_size rm (network_name layer) = Value size
          /\ size <> HAILO_DEFAULT_BATCH_SIZE
          /\ get_desc_buffer_sizes_for_single_transfer (m_driver rm)
               (wrap32 (MIN_ACTIVE_TRANSFERS_SCALE * size))
               (wrap32 (MAX_ACTIVE_TRANSFERS_SCALE * size))
               (wrap32 (periph_bytes_per_buffer layer * core_buffers_per_frame layer))
             = Value desc_sizes
          /\ transfers_per_axi_intr channel = size
          /\ m_boundary_channels rm'
             = emplace_boundary_channel id channel (m_boundary_channels rm))
  /\ (forall size src_stream_index src_context_index network d2h_channel_id buffer rm',
        m_inter_context_buffers rm !! (src_context_index, src_stream_index) = None ->
        create_inter_context_buffer rm size src_stream_index src_context_index network
          d2h_channel_id = (Value buffer, rm') ->
        exists batch,
          get_network_batch_size rm network = Value batch
          /\ batch <> HAILO_DEFAULT_BATCH_SIZE
          /\ inter_batch_size buffer = batch).
Proof.
  intros Hne.
  assert (Hvalue : forall network size,
            get_network_batch_size rm network = Value size ->
            size <> HAILO_DEFAULT_BATCH_SIZE).
  { intros network size (p & _ & ->)%get_network_batch_size_value.
    by apply actual_batch_size_not_sentinel. }
  repeat apply conj.
  - intros network Hin.
    destruct (get_network_batch_size_in_found _ _ Hin) as (p & Hp & Hget).
    exists p, (actual_batch_size p). split; [done|]. split; [done|]. split.
    + unfold actual_batch_size. by repeat case_decide.
    + by apply actual_batch_size_not_sentinel.
  - intros network Hnin. by apply get_network_batch_size_in_missing.
  - intros fuel app_header Hsmall Hfit Hfuel Htable.
    unfold fill_network_batch_size.
    rewrite fill_network_batch_size_for_success; [|done|done|done|done|by apply Forall_forall].
    eexists. split; [done|]. intros network i Hin Hi.
    destruct (get_network_batch_size_in_found _ _ Hin) as (p & _ & Hget).
    exists (actual_batch_size p). split; [done|]. split.
    + by apply (write_batch_sizes_written rm _ _ network).
    + by apply actual_batch_size_not_sentinel.
  - intros layer rm' Hcreate.
    destruct (create_boundary_vdma_channel_success _ _ _ Hcreate)
      as (size & id & channel & desc_sizes & Hget & Hsizes & _ & Htr & _ & Hmap).
    exists size, id, channel, desc_sizes. eauto 10.
  - intros size s c network d2h buffer rm' Hfree Hcreate.
    destruct (create_inter_context_buffer_inserted _ _ _ _ _ _ _ _ Hfree Hcreate)
      as (batch & Hget & -> & _).
    exists batch. eauto.
Qed.


(** ** Configuration handshake *)

Lemma set_contexts_info_accepted (contexts : list ContextResources)
    (device : list control_message) :
  all_accepted device (context_info_message <$> contexts) ->
  set_contexts_info contexts device
  = (HAILO_SUCCESS, device ++ (context_info_message <$> contexts)).
Proof.
  revert device. induction contexts as [|context contexts IH]; intros device.
  - intros _. simpl. by rewrite app_nil_r.
  - rewrite fmap_cons. intros [Hfirst Hrest].
    cbn [set_contexts_info]. unfold Control_send.
    fold (context_info_message context). rewrite Hfirst.
    rewrite bool_decide_eq_true_2 by done. cbn [negb].
    rewrite IH by done. by rewrite <- app_assoc.
Qed.

Lemma configure_again (fuel : nat) (rm : ResourcesManager) (device : list control_message) :
  m_is_configured rm = true ->
  configure fuel rm device = Done (HAILO_ERROR HAILO_INTERNAL_FAILURE, rm, device).
Proof. intros Hlatched. unfold configure. by rewrite Hlatched. Qed.

Lemma configure_latches (fuel : nat) (rm rm' : ResourcesManager)
    (device device' : list control_message) (status : hailo_status) :
  m_is_configured rm = false ->
  configure fuel rm device = Done (status, rm', device') ->
  rm' = with_is_configured true rm.
Proof.
  intros Hfresh. unfold configure. rewrite Hfresh.
  destruct (get_control_core_op_header fuel _) as [[header|error]| |]; [| |done|done].
  - destruct (Control_send device _) as [s d]. destruct (negb _); [by intros [= _ <- _]|].
    destruct (set_contexts_info _ d). by intros [= _ <- _].
  - by intros [= _ <- _].
Qed.

(** C1: on a manager that was not configured yet, [configure] latches the
    manager and, the header being assembled and the firmware accepting what
    it is sent, transmits the application header and then the controls of
    every context, in the order of the contexts, and succeeds; calling
    [configure] again on the resulting manager fails with
    [HAILO_INTERNAL_FAILURE], sends nothing and leaves the manager as it
    was. *)
Theorem configure_once (fuel : nat) (rm : ResourcesManager)
    (device : list control_message) (header : application_header_t) :
  m_is_configured rm = false ->
  get_control_core_op_header fuel (with_is_configured true rm) = Done (Value header) ->
  all_accepted device (configuration_messages rm header) ->
  let rm' := with_is_configured true rm in
  let device' := device ++ configuration_messages rm header in
  configure fuel rm device = Done (HAILO_SUCCESS, rm', device')
  /\ forall fuel', configure fuel' rm' device'
                   = Done (HAILO_ERROR HAILO_INTERNAL_FAILURE, rm', device').
Proof.
  intros Hfresh Hheader [Hfirst Hrest] rm' device'. subst rm' device'. split.
  - unfold configure. rewrite Hfresh, Hheader.
    unfold Control_send. rewrite Hfirst.
    rewrite bool_decide_eq_true_2 by done. cbn [negb].
    change (m_contexts_resources (with_is_configured true rm))
      with (m_contexts_resources rm).
    rewrite set_contexts_info_accepted by done.
    unfold configuration_messages. by rewrite <- app_assoc.
  - intros fuel'. by apply configure_again.
Qed.

Lemma get_control_core_op_header_done (fuel : nat) (rm : ResourcesManager) :
  (length (m_network_index_map rm) <= 255)%nat ->
  Z.of_nat (length (m_network_index_map rm))
  <= CONTROL_PROTOCOL__MAX_NETWORKS_PER_NETWORK_GROUP ->
  (length (m_network_index_map rm) < fuel)%nat ->
  exists header, get_control_core_op_header fuel rm = Done header.
Proof.
  intros Hsmall Hfit Hfuel.
  unfold get_control_core_op_header, fill_network_batch_size.
  cbn [fill_infer_features fill_validation_features].
  match goal with |- context [fill_network_batch_size_for fuel rm ?ps ?h] =>
    destruct (fill_network_batch_size_for_done fuel rm ps h) as [[status h'] ->] end;
    [done| |done|by apply Forall_forall|].
  - cbn [batch_size with_networks_count zero_application_header].
    rewrite length_replicate. lia.
  - destruct status; by eexists.
Qed.

Lemma configure_done (fuel : nat) (rm : ResourcesManager) (device : list control_message) :
  (length (m_network_index_map rm) <= 255)%nat ->
  Z.of_nat (length (m_network_index_map rm))
  <= CONTROL_PROTOCOL__MAX_NETWORKS_PER_NETWORK_GROUP ->
  (length (m_network_index_map rm) < fuel)%nat ->
  exists result, configure fuel rm device = Done result.
Proof.
  intros Hsmall Hfit Hfuel. unfold configure.
  destruct (m_is_configured rm); [by eexists|].
  destruct (get_control_core_op_header_done fuel (with_is_configured true rm))
    as [[header|error] ->]; [done|done|done| |by eexists].
  destruct (Control_send device _) as [s d]. destruct (negb _); [by eexists|].
  destruct (set_contexts_info _ d). by eexists.
Qed.

(** C9: a first [configure] returns whenever the network-name table fits the
    header, and whatever it returns, success or the error of a failed header
    assembly or of a rejected transmission, the manager it leaves behind
    differs from the original one in the latch alone, which is set; every
    later [configure] on it fails with [HAILO_INTERNAL_FAILURE] and changes
    nothing. *)
Theorem configure_latches_before_anything_else (fuel : nat) (rm : ResourcesManager)
    (device : list control_message) :
  m_is_configured rm = false ->
  (forall status rm' device',
     configure fuel rm device = Done (status, rm', device') ->
     rm' = with_is_configured true rm
     /\ m_is_configured rm' = true
     /\ forall fuel'' device'',
          configure fuel'' rm' device''
          = Done (HAILO_ERROR HAILO_INTERNAL_FAILURE, rm', device''))
  /\ ((length (m_network_index_map rm) <= 255)%nat ->
      Z.of_nat (length (m_network_index_map rm))
      <= CONTROL_PROTOCOL__MAX_NETWORKS_PER_NETWORK_GROUP ->
      (length (m_network_index_map rm) < fuel)%nat ->
      exists status device',
        configure fuel rm device = Done (status, with_is_configured true rm, device')).
Proof.
  intros Hfresh. split.
  - intros status rm' device' Hfirst.
    pose proof (configure_latches _ _ _ _ _ _ Hfresh Hfirst) as ->.
    split; [done|]. split; [done|].
    intros fuel'' device''. by apply configure_again.
  - intros Hsmall Hfit Hfuel.
    destruct (configure_done fuel rm device Hsmall Hfit Hfuel) as [[[status rm'] device'] Hrun].
    pose proof (configure_latches _ _ _ _ _ _ Hfresh Hrun) as ->.
    by exists status, device'.
Qed.


(** ** Interrupt completion routing *)

(** The case analysis of [process_interrupt] on a record [r]: channel
    missing, host error, device error, channel inactive, or routed. *)
Ltac process_interrupt_cases r :=
  unfold process_interrupt, routed;
  destruct (find_boundary_channel _ _) as [channel|];
  [ rewrite (bool_decide_eq_true_2 (is_Some (Some channel))) by (by eexists);
    destruct (decide (host_error r = 0)) as [Hh|Hh];
    [ destruct (decide (device_error r = 0)) as [Hd|Hd];
      [ rewrite bool_decide_eq_false_2 by (by intros [?|?]);
        rewrite (bool_decide_eq_true_2 _ Hh), (bool_decide_eq_true_2 _ Hd);
        destruct (is_active r); cbn [negb andb];
        [ destruct (_ && _) | ]
      | rewrite bool_decide_eq_true_2 by (by right);
        rewrite (bool_decide_eq_false_2 _ Hd), andb_false_r ]
    | rewrite bool_decide_eq_true_2 by (by left);
      rewrite (bool_decide_eq_false_2 _ Hh) ]
  | rewrite bool_decide_eq_false_2 by (by intros [? ?]) ].

Lemma process_interrupt_completions (rm : ResourcesManager) (events : list irq_event)
    (r : ChannelIrqData) :
  completions (process_interrupt rm events r)
  = completions events
    ++ (if routed rm r then [(irq_channel_id r, desc_num_processed r)] else []).
Proof.
  unfold completions. process_interrupt_cases r;
    rewrite !omap_app; cbn; by rewrite ?app_nil_r.
Qed.

Lemma process_interrupt_skips (rm : ResourcesManager) (events : list irq_event)
    (r : ChannelIrqData) :
  skips (process_interrupt rm events r)
  = skips events ++ (if routed rm r then [] else [irq_channel_id r]).
Proof.
  unfold skips. process_interrupt_cases r;
    rewrite !omap_app; cbn; by rewrite ?app_nil_r.
Qed.

Lemma process_interrupts_fold (rm : ResourcesManager) (records : list ChannelIrqData)
    (events : list irq_event) :
  completions (foldl (process_interrupt rm) events records)
  = completions events
    ++ ((fun r => (irq_channel_id r, desc_num_processed r)) <$> filter (routed rm) records)
  /\ skips (foldl (process_interrupt rm) events records)
     = skips events
       ++ (irq_channel_id <$> filter (fun r => negb (routed rm r)) records).
Proof.
  revert events. induction records as [|r records IH]; intros events.
  - simpl. by rewrite !app_nil_r.
  - cbn [foldl]. destruct (IH (process_interrupt rm events r)) as [-> ->].
    rewrite process_interrupt_completions, process_interrupt_skips, !filter_cons.
    destruct (routed rm r); cbn [negb].
    + rewrite decide_True by done. rewrite decide_False by (by intros ?).
      by rewrite app_nil_r, fmap_cons, <- app_assoc.
    + rewrite decide_False by (by intros ?). rewrite decide_True by done.
      by rewrite app_nil_r, fmap_cons, <- app_assoc.
Qed.

(** C5: [process_interrupts] visits every record of the batch, whatever the
    completion triggers answer. The triggers it fires are, in order and once
    each, those of the records whose channel is registered, that report no
    host or device error and whose channel is active, each with the record's
    processed-descriptor count; every other record is skipped with a log,
    and the records after it are still processed. *)
Theorem process_interrupts_routes_each_record (rm : ResourcesManager) (irq_data : IrqData)
    (events : list irq_event) :
  channels_count irq_data <= Z.of_nat (length (channels_irq_data irq_data)) ->
  let records :=
    take (Z.to_nat (channels_count irq_data)) (channels_irq_data irq_data) in
  exists events',
    process_interrupts rm irq_data events = Done events'
    /\ completions events'
       = completions events
         ++ ((fun r => (irq_channel_id r, desc_num_processed r))
             <$> filter (routed rm) records)
    /\ skips events'
       = skips events ++ (irq_channel_id <$> filter (fun r => negb (routed rm r)) records).
Proof.
  intros Hbound records. unfold process_interrupts.
  rewrite bool_decide_eq_true_2 by done.
  eexists. split; [done|]. apply process_interrupts_fold.
Qed.


(** ** Hardware-only inference: the batch count *)

Lemma MIN_min (a b : Z) : MIN a b = Z.min a b.
Proof. unfold MIN. destruct (Z.ltb_spec a b); lia. Qed.

Lemma foldl_MIN_bounds (capacities : list Z) (start : Z) :
  foldl MIN start capacities <= start
  /\ Forall (fun c => foldl MIN start capacities <= c) capacities
  /\ (foldl MIN start capacities = start \/ foldl MIN start capacities ∈ capacities).
Proof.
  revert start. induction capacities as [|c capacities IH]; intros start; cbn [foldl].
  - split; [lia|]. split; [constructor|by left].
  - destruct (IH (MIN start c)) as (Hle & Hall & Hmem). rewrite MIN_min in *.
    split; [lia|]. split.
    + constructor; [lia|done].
    + destruct Hmem as [Heq|Hin]; [|right; by right].
      rewrite Heq. destruct (Z.min_spec start c) as [[_ ->]|[_ ->]]; [by left|right; by left].
Qed.

Lemma calc_hw_infer_batch_count_for_value (rm : ResourcesManager) (dynamic_batch_size : Z)
    (layers : list LayerInfo) (capacities : list Z) (start : Z) :
  Forall2 (fun layer c => layer_capacity rm dynamic_batch_size layer = Some c)
    layers capacities ->
  calc_hw_infer_batch_count_for rm dynamic_batch_size layers start
  = Value (foldl MIN start capacities).
Proof.
  intros Hcaps. revert start.
  induction Hcaps as [|layer c layers capacities Hc _ IH]; intros start; [done|].
  cbn [calc_hw_infer_batch_count_for foldl]. unfold layer_capacity in Hc.
  destruct (get_boundary_vdma_channel_by_stream_name rm (name layer)); [|done].
  injection Hc as ->. apply IH.
Qed.

Lemma find_channel_by_stream_name_error (channels : list (ChannelId * BoundaryChannel))
    (stream : string) (status : hailo_error) :
  find_channel_by_stream_name channels stream = Unexpected status ->
  status = HAILO_NOT_FOUND.
Proof.
  induction channels as [|entry rest IH]; simpl; [by intros [= <-]|].
  by destruct (decide (stream_name entry.2 = stream)).
Qed.

(** A layer without a boundary channel makes the computation fail. *)
Lemma calc_hw_infer_batch_count_for_missing (rm : ResourcesManager)
    (dynamic_batch_size : Z) (layers : list LayerInfo) (start : Z) :
  Exists (fun layer => layer_capacity rm dynamic_batch_size layer = None) layers ->
  calc_hw_infer_batch_count_for rm dynamic_batch_size layers start
  = Unexpected HAILO_NOT_FOUND.
Proof.
  revert start. induction layers as [|layer layers IH]; intros start Hmiss.
  - by apply Exists_nil in Hmiss.
  - cbn [calc_hw_infer_batch_count_for]. unfold layer_capacity in Hmiss.
    destruct (get_boundary_vdma_channel_by_stream_name rm (name layer))
      as [channel|status] eqn:Hfind.
    + apply Exists_cons in Hmiss as [Hmiss|Hmiss]; [|by apply IH].
      by rewrite Hfind in Hmiss.
    + by apply find_channel_by_stream_name_error in Hfind as ->.
Qed.

(** The batch count in general: the minimum, capped by [UINT16_MAX]. *)
Lemma calc_hw_infer_batch_count_capped (rm : ResourcesManager) (dynamic_batch_size : Z)
    (capacities : list Z) :
  Forall2 (fun layer c => layer_capacity rm dynamic_batch_size layer = Some c)
    (get_all_layer_infos (m_core_op_metadata rm)) capacities ->
  calc_hw_infer_batch_count rm dynamic_batch_size
  = Value (foldl Z.min UINT16_MAX capacities).
Proof.
  intros Hcaps. unfold calc_hw_infer_batch_count.
  rewrite (calc_hw_infer_batch_count_for_value _ _ _ _ _ Hcaps). f_equal.
  generalize UINT16_MAX. clear Hcaps.
  induction capacities as [|c capacities IH]; intros start; [done|].
  cbn [foldl]. by rewrite IH, MIN_min.
Qed.

(** C4: when every layer has a boundary channel, and the capacity of at
    least one of them is within [UINT16_MAX] (the computation starts from
    that value), [calc_hw_infer_batch_count] returns the minimum of the
    capacities of the layers: a capacity of one of the layers that is at
    most the capacity of every layer. *)
Theorem calc_hw_infer_batch_count_minimum (rm : ResourcesManager) (dynamic_batch_size : Z)
    (capacities : list Z) :
  Forall2 (fun layer c => layer_capacity rm dynamic_batch_size layer = Some c)
    (get_all_layer_infos (m_core_op_metadata rm)) capacities ->
  Exists (fun c => c <= UINT16_MAX) capacities ->
  exists batch_count,
    calc_hw_infer_batch_count rm dynamic_batch_size = Value batch_count
    /\ batch_count ∈ capacities
    /\ Forall (fun c => batch_count <= c) capacities.
Proof.
  intros Hcaps Hsmall. unfold calc_hw_infer_batch_count.
  rewrite (calc_hw_infer_batch_count_for_value _ _ _ _ _ Hcaps).
  eexists. split; [done|].
  destruct (foldl_MIN_bounds capacities UINT16_MAX) as (Hle & Hall & [Heq|Hin]);
    [|by split].
  split; [|done].
  apply Exists_exists in Hsmall as (c & Hc & Hcle).
  rewrite Forall_forall in Hall. specialize (Hall c Hc).
  replace (foldl MIN UINT16_MAX capacities) with c by lia. done.
Qed.


(** ** Hardware-only inference: descriptor programming *)

Lemma program_transfers_calls (remaining : nat) (transfer_index : Z)
    (desc_list desc_list' : DescriptorList) (single_transfer_size dynamic_batch_size : Z)
    (acc acc' : Z) :
  program_transfers remaining transfer_index desc_list single_transfer_size
    dynamic_batch_size acc = (Value acc', desc_list') ->
  exists calls,
    programmed desc_list' = programmed desc_list ++ calls
    /\ interrupt_domains calls
       = interrupts_domain_of dynamic_batch_size
         <$> seqZ transfer_index (Z.of_nat remaining)
    /\ Forall (fun call => transfer_size call = single_transfer_size) calls.
Proof.
  revert transfer_index desc_list acc.
  induction remaining as [|remaining IH]; intros transfer_index desc_list acc.
  - intros [= _ <-]. exists []. by rewrite app_nil_r.
  - cbn [program_transfers].
    destruct (program_last_descriptor desc_list _) as [desc_count_local|status]; [|done].
    intros Hrest. apply IH in Hrest as (calls & Hprog & Hdom & Hsize).
    cbn [programmed] in Hprog. rewrite <- app_assoc in Hprog.
    eexists. split; [exact Hprog|]. split.
    + rewrite seqZ_cons by lia. unfold interrupt_domains in *.
      replace (Z.pred (Z.of_nat (S remaining))) with (Z.of_nat remaining) by lia.
      replace (Z.succ transfer_index) with (transfer_index + 1) by lia.
      by rewrite fmap_app, fmap_cons, Hdom.
    + apply Forall_app. split; [|done]. by repeat constructor.
Qed.

Lemma join_replicate_S {A : Type} (n : nat) (group : list A) :
  mjoin (replicate (S n) group) = group ++ mjoin (replicate n group).
Proof. done. Qed.

Lemma program_batches_calls (remaining : nat) (desc_list desc_list' : DescriptorList)
    (single_transfer_size dynamic_batch_size : Z) (acc acc' : Z) :
  program_batches remaining desc_list single_transfer_size dynamic_batch_size acc
  = (Value acc', desc_list') ->
  exists calls,
    programmed desc_list' = programmed desc_list ++ calls
    /\ interrupt_domains calls
       = mjoin (replicate remaining
                  (interrupts_domain_of dynamic_batch_size <$> seqZ 0 dynamic_batch_size))
    /\ Forall (fun call => transfer_size call = single_transfer_size) calls.
Proof.
  revert desc_list acc.
  induction remaining as [|remaining IH]; intros desc_list acc.
  - intros [= _ <-]. exists []. by rewrite app_nil_r.
  - cbn [program_batches].
    destruct (program_transfers _ _ _ _ _ _) as [[acc1|status] desc_list1] eqn:Hbatch;
      [|done].
    apply program_transfers_calls in Hbatch as (calls1 & Hprog1 & Hdom1 & Hsize1).
    intros Hrest. apply IH in Hrest as (calls & Hprog & Hdom & Hsize).
    exists (calls1 ++ calls). split; [by rewrite Hprog, Hprog1, app_assoc|]. split.
    + unfold interrupt_domains in *. rewrite fmap_app, Hdom, Hdom1.
      rewrite join_replicate_S. f_equal.
      unfold seqZ. by rewrite Nat2Z.id.
    + by apply Forall_app.
Qed.

Lemma group_device_interrupts (dynamic_batch_size : Z) :
  0 < dynamic_batch_size ->
  length (filter (fun d => d = DEVICE)
            (interrupts_domain_of dynamic_batch_size <$> seqZ 0 dynamic_batch_size))
  = 1%nat.
Proof.
  intros Hpos.
  replace dynamic_batch_size with ((dynamic_batch_size - 1) + 1) at 2 by lia.
  rewrite seqZ_app by lia. rewrite fmap_app, filter_app, length_app.
  replace (filter _ (_ <$> seqZ 0 (dynamic_batch_size - 1))) with (@nil InterruptsDomain).
  - rewrite (seqZ_cons _ 1), seqZ_nil by lia. cbn [fmap list_fmap].
    unfold interrupts_domain_of. rewrite decide_True by lia.
    by rewrite filter_cons_True.
  - symmetry. pose proof (Forall_seqZ (fun t => t < dynamic_batch_size - 1) 0
                            (dynamic_batch_size - 1)) as [_ Hall].
    specialize (Hall ltac:(lia)).
    induction Hall as [|t ts Ht _ IH]; [done|].
    rewrite fmap_cons, filter_cons_False; [done|].
    unfold interrupts_domain_of. by rewrite decide_False by lia.
Qed.

Lemma join_replicate_device_interrupts (n : nat) (group : list InterruptsDomain) :
  length (filter (fun d => d = DEVICE) (mjoin (replicate n group)))
  = (n * length (filter (fun d => d = DEVICE) group))%nat.
Proof.
  induction n as [|n IH]; [done|].
  rewrite join_replicate_S, filter_app, length_app, IH. lia.
Qed.

(** C7: when [program_desc_for_hw_only_flow] returns its descriptor count,
    it has programmed, for every batch index below [batch_count] and every
    transfer index below [dynamic_batch_size], one descriptor group of
    [single_transfer_size] bytes, batch after batch; the group raises a
    device interrupt exactly when its transfer is the last one of the batch
    (index [dynamic_batch_size - 1]) and raises none otherwise. With batches
    of at least one transfer, exactly [batch_count] device interrupts are
    programmed. *)
Theorem program_desc_for_hw_only_flow_interrupts (desc_list desc_list' : DescriptorList)
    (single_transfer_size dynamic_batch_size batch_count descs : Z) :
  program_desc_for_hw_only_flow desc_list single_transfer_size dynamic_batch_size
    batch_count = (Value descs, desc_list') ->
  exists calls,
    programmed desc_list' = programmed desc_list ++ calls
    /\ length calls = (Z.to_nat batch_count * Z.to_nat dynamic_batch_size)%nat
    /\ (forall batch_index transfer_index,
          0 <= batch_index < batch_count ->
          0 <= transfer_index < dynamic_batch_size ->
          exists call,
            calls !! Z.to_nat (batch_index * dynamic_batch_size + transfer_index)
            = Some call
            /\ transfer_size call = single_transfer_size
            /\ (last_desc_interrupts_domain call = DEVICE
                <-> transfer_index = dynamic_batch_size - 1)
            /\ (last_desc_interrupts_domain call = NONE
                <-> transfer_index <> dynamic_batch_size - 1))
    /\ (0 < dynamic_batch_size -> device_interrupts calls = Z.to_nat batch_count).
Proof.
  unfold program_desc_for_hw_only_flow.
  destruct (program_batches _ _ _ _ _) as [[acc|status] desc_list1] eqn:Hrun; [|done].
  destruct (negb _); [done|]. intros [= _ <-].
  apply program_batches_calls in Hrun as (calls & Hprog & Hdom & Hsize).
  set (group := interrupts_domain_of dynamic_batch_size <$> seqZ 0 dynamic_batch_size) in *.
  assert (Hgroup : length group = Z.to_nat dynamic_batch_size).
  { unfold group. by rewrite length_fmap, length_seqZ. }
  exists calls. split; [done|]. split; [|split].
  - rewrite <- (length_fmap last_desc_interrupts_domain calls).
    fold (interrupt_domains calls). rewrite Hdom, length_join.
    rewrite (sum_list_fmap_same (Z.to_nat dynamic_batch_size)).
    + by rewrite length_replicate.
    + apply Forall_replicate. exact Hgroup.
  - intros b t Hb Ht.
    assert (Hlookup : interrupt_domains calls
                        !! (Z.to_nat b * Z.to_nat dynamic_batch_size + Z.to_nat t)%nat
                      = Some (interrupts_domain_of dynamic_batch_size t)).
    { rewrite Hdom. apply join_lookup_Some_same_length'.
      - apply Forall_replicate. exact Hgroup.
      - lia.
      - exists group. split; [apply lookup_replicate_2; lia|].
        unfold group. rewrite list_lookup_fmap, lookup_seqZ_lt by lia.
        cbn. do 2 f_equal. lia. }
    replace (Z.to_nat b * Z.to_nat dynamic_batch_size + Z.to_nat t)%nat
      with (Z.to_nat (b * dynamic_batch_size + t)) in Hlookup by nia.
    unfold interrupt_domains in Hlookup. rewrite list_lookup_fmap in Hlookup.
    apply fmap_Some in Hlookup as (call & Hcall & Hdomain).
    exists call. split; [done|]. split.
    + rewrite Forall_forall in Hsize. apply Hsize. by eapply list_elem_of_lookup_2.
    + rewrite <- Hdomain. unfold interrupts_domain_of.
      case_decide; split; split; (done || lia).
  - intros Hpos. unfold device_interrupts. rewrite Hdom.
    rewrite join_replicate_device_interrupts.
    fold group. unfold group. rewrite group_device_interrupts by done. lia.
Qed.

End Properties.

(** * Properties of the further functions *)

Section FurtherProperties.
Context `{platform : Platform} `{environment : !Environment}.

(** ** Edge layers of a context *)

Lemma get_edge_layers_matching_filter (edge_layers : list EdgeLayer)
    (layer_type : LayerType) (dir : option hailo_stream_direction_t) :
  get_edge_layers_matching edge_layers layer_type dir
  = filter (edge_layer_matches layer_type dir) edge_layers.
Proof.
  induction edge_layers as [|e rest IH]; [done|].
  cbn [get_edge_layers_matching]. rewrite IH, filter_cons.
  destruct (decide (edge_layer_matches layer_type dir e)) as [Hm|Hm];
    unfold edge_layer_matches in Hm; destruct dir;
    repeat case_bool_decide; cbn [orb andb]; try done; exfalso; intuition congruence.
Qed.

(** X1: [get_edge_layers(layer_type, direction)] returns the edge layers of
    the context that have the given type and the given direction, in their
    order in the context and as often as they occur there; [NOT_SET] stands
    for any type, also for layers whose own type is set, and
    [HAILO_STREAM_DIRECTION_MAX_ENUM] for any direction, so the call with
    both returns all the edge layers. *)
Theorem get_edge_layers_of_filters (context : ContextResources) (layer_type : LayerType)
    (dir : option hailo_stream_direction_t) :
  get_edge_layers_of context layer_type dir
  = filter (edge_layer_matches layer_type dir) (m_edge_layers context)
  /\ (forall edge_layer,
        edge_layer ∈ get_edge_layers_of context layer_type dir <->
        edge_layer ∈ m_edge_layers context
        /\ (layer_type = NOT_SET \/ type (layer_info edge_layer) = layer_type)
        /\ (dir = None \/ dir = Some (direction (layer_info edge_layer))))
  /\ get_edge_layers_of context NOT_SET None = get_edge_layers context.
Proof.
  unfold get_edge_layers_of, get_edge_layers.
  rewrite !get_edge_layers_matching_filter. split; [done|]. split.
  - intros e. rewrite list_elem_of_filter. unfold edge_layer_matches. tauto.
  - induction (m_edge_layers context) as [|e rest IH]; [done|].
    rewrite filter_cons_True, IH; [done|]. split; by left.
Qed.

(** X2: for every layer type, the host-to-device and the device-to-host
    edge layers of that type are together the edge layers of that type:
    each layer is returned for exactly one of the two directions. *)
Theorem get_edge_layers_of_directions_partition (context : ContextResources)
    (layer_type : LayerType) :
  get_edge_layers_of context layer_type (Some HAILO_H2D_STREAM)
  ++ get_edge_layers_of context layer_type (Some HAILO_D2H_STREAM)
  ≡ₚ get_edge_layers_of_type context layer_type.
Proof.
  unfold get_edge_layers_of_type, get_edge_layers_of.
  induction (m_edge_layers context) as [|e rest IH]; [done|].
  cbn [get_edge_layers_matching].
  destruct (_ || _); cbn [andb]; [|exact IH].
  destruct (direction (layer_info e)).
  - rewrite bool_decide_eq_true_2 by done. rewrite bool_decide_eq_false_2 by done.
    cbn. by rewrite IH.
  - rewrite bool_decide_eq_false_2 by done. rewrite bool_decide_eq_true_2 by done.
    rewrite <- Permutation_middle. by rewrite IH.
Qed.

Lemma find_edge_layer_by_stream_index_app (edge_layers more : list EdgeLayer) (index : Z) :
  find_edge_layer_by_stream_index (edge_layers ++ more) index
  = match find_edge_layer_by_stream_index edge_layers index with
    | Value edge_layer => Value edge_layer
    | Unexpected _ => find_edge_layer_by_stream_index more index
    end.
Proof.
  induction edge_layers as [|e rest IH]; [done|]. cbn.
  by destruct (decide (stream_index (layer_info e) = index)).
Qed.

(** X3: [get_edge_layer_by_stream_index] returns an edge layer of the
    context with the given stream index, and fails, with
    [HAILO_INTERNAL_FAILURE], exactly when the context has none. After
    [add_edge_layer] the added layer is found under its stream index unless
    an earlier layer has the same index, which is then still the one found;
    the lookups of the other indices are unchanged. *)
Theorem get_edge_layer_by_stream_index_after_add (context : ContextResources)
    (index : Z) (layer : LayerInfo) (id : ChannelId) (buffer : Z) :
  (forall edge_layer,
     get_edge_layer_by_stream_index context index = Value edge_layer ->
     edge_layer ∈ m_edge_layers context /\ stream_index (layer_info edge_layer) = index)
  /\ (forall status,
        get_edge_layer_by_stream_index context index = Unexpected status <->
        status = HAILO_INTERNAL_FAILURE
        /\ forall edge_layer, edge_layer ∈ m_edge_layers context ->
                              stream_index (layer_info edge_layer) <> index)
  /\ get_edge_layer_by_stream_index (add_edge_layer context layer id buffer) index
     = match get_edge_layer_by_stream_index context index with
       | Value edge_layer => Value edge_layer
       | Unexpected _ =>
         if decide (stream_index layer = index) then Value (mkEdgeLayer layer id buffer)
         else Unexpected HAILO_INTERNAL_FAILURE
       end.
Proof.
  unfold get_edge_layer_by_stream_index, add_edge_layer. cbn [m_edge_layers].
  split; [|split].
  - induction (m_edge_layers context) as [|e rest IH]; intros found; cbn; [done|].
    destruct (decide (stream_index (layer_info e) = index)) as [He|He].
    + intros [= <-]. split; [left|done].
    + intros Hfound. destruct (IH _ Hfound). split; [by right|done].
  - intros status. induction (m_edge_layers context) as [|e rest IH]; cbn.
    + split; [intros [= <-]|intros [-> _]; done].
      split; [done|]. intros e He. by apply elem_of_nil in He.
    + destruct (decide (stream_index (layer_info e) = index)) as [He|He].
      * split; [done|]. intros [_ Hnone]. destruct (Hnone e); [left|done].
      * rewrite IH. split; intros [-> Hnone]; (split; [done|]).
        -- intros e' [->|Hin]%elem_of_cons; [done|by apply Hnone].
        -- intros e' Hin. apply Hnone. by right.
  - rewrite find_edge_layer_by_stream_index_app. cbn [find_edge_layer_by_stream_index].
    cbn [layer_info]. done.
Qed.

(** X4: [add_edge_layer] itself checks nothing; the context with the added
    layer passes [validate_edge_layers] exactly when the context passed
    before and the channel id of the added layer was not yet in use. *)
Theorem validate_edge_layers_after_add (context : ContextResources) (layer : LayerInfo)
    (id : ChannelId) (buffer : Z) :
  validate_edge_layers (add_edge_layer context layer id buffer) = HAILO_SUCCESS <->
  validate_edge_layers context = HAILO_SUCCESS
  /\ id ∉ channel_id <$> m_edge_layers context.
Proof.
  unfold validate_edge_layers, add_edge_layer. cbn [m_edge_layers].
  rewrite !validate_edge_layers_from_success, fmap_app, NoDup_app. cbn.
  split.
  - intros [(Hnd & Hfresh & _) _]. split; [split; [done|]|].
    + intros x _. apply not_elem_of_empty.
    + intros Hin. apply (Hfresh _ Hin). by left.
  - intros [[Hnd _] Hnew]. split; [|intros x _; apply not_elem_of_empty].
    split; [done|]. split; [|apply NoDup_singleton].
    intros x Hx ->%list_elem_of_singleton. done.
Qed.

(** X5: in a context that passes [validate_edge_layers], the edge layers
    returned for any type and direction have pairwise distinct channel ids. *)
Theorem validated_edge_layers_have_distinct_channels (context : ContextResources)
    (layer_type : LayerType) (dir : option hailo_stream_direction_t) :
  validate_edge_layers context = HAILO_SUCCESS ->
  NoDup (channel_id <$> get_edge_layers_of context layer_type dir).
Proof.
  unfold validate_edge_layers, get_edge_layers_of.
  rewrite validate_edge_layers_from_success, get_edge_layers_matching_filter.
  intros [Hnd _]. eapply sublist_NoDup; [exact Hnd|].
  apply fmap_sublist, sublist_filter.
Qed.


(** ** Construction of contexts *)

(** With 256 config buffers or more, the [uint8_t] index stays below the
    size and the loop returns no list of buffers. *)
Lemma create_config_buffers_too_many (fuel : nat) (driver : Driver) (ids : list ChannelId)
    (infos : gmap Z (list Z)) (k : Z) (acc buffers : list ConfigBuffer) :
  (256 <= size infos)%nat ->
  0 <= k < 256 ->
  create_config_buffers fuel driver ids infos k acc <> Done (Value buffers).
Proof.
  intros Hbig. revert k acc. induction fuel as [|fuel IH]; intros k acc Hk; [done|].
  cbn [create_config_buffers]. rewrite bool_decide_eq_true_2 by lia.
  destruct (ids !! Z.to_nat k); [|done]. destruct (infos !! k); [|done].
  destruct (ConfigBuffer_create driver c l); [|done].
  apply IH. unfold wrap8. apply Z.mod_pos_bound. lia.
Qed.

Lemma create_config_buffers_value (fuel : nat) (driver : Driver) (ids : list ChannelId)
    (infos : gmap Z (list Z)) (k : nat) (acc buffers : list ConfigBuffer) :
  (size infos <= 255)%nat ->
  (k <= size infos)%nat ->
  create_config_buffers fuel driver ids infos (Z.of_nat k) acc = Done (Value buffers) ->
  exists created,
    buffers = acc ++ created
    /\ (k + length created = size infos)%nat
    /\ forall j buffer,
         created !! j = Some buffer ->
         exists id info,
           ids !! (k + j)%nat = Some id
           /\ infos !! Z.of_nat (k + j) = Some info
           /\ ConfigBuffer_create driver id info = Value buffer.
Proof.
  intros Hsmall. revert k acc. induction fuel as [|fuel IH]; intros k acc Hk; [done|].
  cbn [create_config_buffers]. case_bool_decide as Hlt.
  - rewrite Nat2Z.id.
    destruct (ids !! k) as [id|] eqn:Hid; [|done].
    destruct (infos !! Z.of_nat k) as [info|] eqn:Hinfo; [|done].
    destruct (ConfigBuffer_create driver id info) as [buffer|] eqn:Hcreate; [|done].
    replace (wrap8 (Z.of_nat k + 1)) with (Z.of_nat (S k)).
    2:{ unfold wrap8. rewrite Z.mod_small; lia. }
    intros Hrest. apply IH in Hrest as (created & -> & Hlen & Hall); [|lia].
    exists (buffer :: created). split; [by rewrite <- app_assoc|].
    split; [cbn; lia|]. intros [|j] b.
    + intros [= <-]. exists id, info. by rewrite Nat.add_0_r.
    + intros Hj. destruct (Hall j b Hj) as (id' & info' & ? & ? & ?).
      exists id', info'. by replace (k + S j)%nat with (S k + j)%nat by lia.
  - intros [= <-]. exists []. rewrite app_nil_r. split; [done|].
    split; [cbn; lia|]. intros j b Hj. by rewrite lookup_nil in Hj.
Qed.

(** What a successful [add_new_context] has checked and built. *)
Lemma add_new_context_value (fuel : nat) (rm rm' : ResourcesManager) (context_type : Z)
    (config_info : gmap Z (list Z)) (context : ContextResources) :
  add_new_context fuel rm context_type config_info = Done (Value context, rm') ->
  m_total_context_count rm < UINT8_MAX
  /\ context_type < CONTROL_PROTOCOL__CONTEXT_SWITCH_CONTEXT_TYPE_COUNT
  /\ (size config_info <= length (m_config_channels_ids rm))%nat
  /\ (exists buffers,
        create_config_buffers fuel (m_driver rm) (m_config_channels_ids rm) config_info 0 []
        = Done (Value buffers)
        /\ context = mkContextResources context_type [] buffers [])
  /\ rm' = with_new_context context (wrap8 (m_total_context_count rm + 1))
             (if decide (CONTROL_PROTOCOL__CONTEXT_SWITCH_CONTEXT_TYPE_DYNAMIC = context_type)
              then wrap8 (m_dynamic_context_count rm + 1)
              else m_dynamic_context_count rm) rm.
Proof.
  unfold add_new_context, ContextResources_create.
  case_bool_decide as Htotal; cbn [negb]; [|done].
  case_bool_decide as Htype; cbn [negb]; [|done].
  case_bool_decide as Hsize; cbn [negb]; [|done].
  destruct (create_config_buffers _ _ _ _ _ _) as [[buffers|status]| |]; try done.
  intros [= <- <-]. repeat split; try done. by exists buffers.
Qed.



(** X7: the config buffers of a context built by [add_new_context] are as
    many as the config-buffer descriptions, and the buffer of config stream
    [i] was created on the [i]-th config channel id of the manager from the
    description of stream [i]; the config channel ids of the manager are
    left as they were, so every context is built on the same ones. *)
Theorem add_new_context_config_buffers (fuel : nat) (rm rm' : ResourcesManager)
    (context_type : Z) (config_info : gmap Z (list Z)) (context : ContextResources) :
  add_new_context fuel rm context_type config_info = Done (Value context, rm') ->
  length (get_config_buffers context) = size config_info
  /\ (forall i buffer,
        get_config_buffers context !! i = Some buffer ->
        exists id info,
          m_config_channels_ids rm !! i = Some id
          /\ config_info !! Z.of_nat i = Some info
          /\ ConfigBuffer_create (m_driver rm) id info = Value buffer)
  /\ m_config_channels_ids rm' = m_config_channels_ids rm
  /\ m_driver rm' = m_driver rm.
Proof.
  intros Hrun. apply add_new_context_value in Hrun
    as (_ & _ & _ & (buffers & Hloop & ->) & ->).
  unfold get_config_buffers. cbn [m_config_buffers].
  destruct (decide (size config_info <= 255)%nat) as [Hsmall|Hbig].
  - apply (create_config_buffers_value _ _ _ _ 0) in Hloop
      as (created & -> & Hlen & Hall); [|done|lia].
    cbn [app] in *. split; [lia|]. split; [|done].
    intros i buffer Hi. exact (Hall i buffer Hi).
  - by apply create_config_buffers_too_many in Hloop; [|lia|].
Qed.


(** ** Inter-context buffers *)

(** X8: a buffer returned by [create_inter_context_buffer] is afterwards
    the one that [get_inter_context_buffer] finds under the key (source
    context, source stream), and the buffers under the other keys are the
    ones found before. *)
Theorem create_inter_context_buffer_then_get (rm rm' : ResourcesManager) (size : Z)
    (src_stream_index src_context_index : Z) (network : string)
    (d2h_channel_id : ChannelId) (buffer : InterContextBuffer) :
  create_inter_context_buffer rm size src_stream_index src_context_index network
    d2h_channel_id = (Value buffer, rm') ->
  get_inter_context_buffer rm' (src_context_index, src_stream_index) = Value buffer
  /\ forall key, key <> (src_context_index, src_stream_index) ->
                 get_inter_context_buffer rm' key = get_inter_context_buffer rm key.
Proof.
  unfold create_inter_context_buffer, get_inter_context_buffer.
  destruct (get_network_batch_size rm network) as [batch|status]; [|done].
  destruct (InterContextBuffer_create _ _ _) as [created|status]; [|done].
  destruct (m_inter_context_buffers rm !! _) as [existing|] eqn:Hkey.
  - intros [= <- <-]. by rewrite Hkey.
  - intros [= <- <-]. cbn [m_inter_context_buffers with_inter_context_buffers].
    rewrite lookup_insert_eq. split; [done|].
    intros key Hkey'. by rewrite lookup_insert_ne.
Qed.

(** X9: [create_inter_context_buffer] never replaces a buffer: when the key
    is taken, a call that succeeds returns the buffer that is already there,
    whatever transfer size was asked for, and leaves the manager unchanged.
    A call that fails leaves the manager unchanged too, and a network that
    is not configured makes it fail with [HAILO_NOT_FOUND]. *)
Theorem create_inter_context_buffer_keeps_existing (rm rm' : ResourcesManager) (size : Z)
    (src_stream_index src_context_index : Z) (network : string)
    (d2h_channel_id : ChannelId) (result : Expected InterContextBuffer) :
  create_inter_context_buffer rm size src_stream_index src_context_index network
    d2h_channel_id = (result, rm') ->
  (forall existing,
     m_inter_context_buffers rm !! (src_context_index, src_stream_index) = Some existing ->
     rm' = rm /\ forall buffer, result = Value buffer -> buffer = existing)
  /\ (forall status, result = Unexpected status -> rm' = rm)
  /\ (network ∉ (network_params_by_name (m_config_params rm)).*1 ->
      result = Unexpected HAILO_NOT_FOUND).
Proof.
  unfold create_inter_context_buffer, get_network_batch_size.
  destruct (decide (network ∈ (network_params_by_name (m_config_params rm)).*1))
    as [Hin|Hnin].
  - destruct (get_network_batch_size_in_found _ _ Hin) as (p & _ & ->).
    destruct (InterContextBuffer_create _ _ _) as [created|status].
    + destruct (m_inter_context_buffers rm !! _) as [existing|] eqn:Hkey;
        intros [= <- <-]; (split; [|split; [done|intros Hn; destruct (Hn Hin)]]).
      * intros ? [= <-]. split; [done|]. by intros ? [= <-].
      * done.
    + intros [= <- <-]. split; [|split; [done|intros Hn; destruct (Hn Hin)]].
      by intros existing _.
  - rewrite get_network_batch_size_in_missing by done.
    intros [= <- <-]. split; [|split; done]. by intros existing _.
Qed.

(** ** Boundary channels *)

Lemma ChannelId_ltb_trans (a b c : ChannelId) :
  ChannelId_ltb a b = true -> ChannelId_ltb b c = true -> ChannelId_ltb a c = true.
Proof.
  unfold ChannelId_ltb. intros Hab Hbc.
  apply orb_true_iff in Hab, Hbc. apply orb_true_iff.
  rewrite !andb_true_iff, !Z.ltb_lt, !Z.eqb_eq in *. lia.
Qed.

Lemma ChannelId_ltb_asym (a b : ChannelId) :
  ChannelId_ltb a b = true -> ChannelId_ltb b a = false.
Proof.
  unfold ChannelId_ltb. intros Hab. apply orb_true_iff in Hab.
  apply orb_false_iff. rewrite !andb_true_iff, !Z.ltb_lt, !Z.eqb_eq in Hab.
  rewrite andb_false_iff, !Z.ltb_ge, Z.eqb_neq. lia.
Qed.

Lemma ChannelId_ltb_total (a b : ChannelId) :
  ChannelId_ltb a b = false -> a <> b -> ChannelId_ltb b a = true.
Proof.
  unfold ChannelId_ltb. destruct a as [ea ca], b as [eb cb]. cbn. intros Hab Hne.
  apply orb_false_iff in Hab. apply orb_true_iff.
  rewrite !andb_true_iff, !Z.ltb_lt, !Z.eqb_eq.
  rewrite andb_false_iff, !Z.ltb_ge, Z.eqb_neq in Hab.
  destruct (decide (ea = eb)) as [->|]; [|lia].
  destruct (decide (ca = cb)) as [->|]; [done|lia].
Qed.

Lemma find_boundary_channel_None (channels : list (ChannelId * BoundaryChannel))
    (id : ChannelId) :
  find_boundary_channel channels id = None <-> Forall (fun entry => entry.1 <> id) channels.
Proof.
  induction channels as [|[k c] rest IH]; cbn [find_boundary_channel fst snd].
  - split; [constructor|done].
  - rewrite Forall_cons. cbn [fst]. destruct (decide (k = id)); [|rewrite IH]; intuition congruence.
Qed.

Lemma find_emplace_boundary_channel_fresh (channels : list (ChannelId * BoundaryChannel))
    (id : ChannelId) (channel : BoundaryChannel) :
  find_boundary_channel channels id = None ->
  find_boundary_channel (emplace_boundary_channel id channel channels) id = Some channel.
Proof.
  induction channels as [|[k c] rest IH];
    cbn [emplace_boundary_channel find_boundary_channel fst snd].
  - by destruct (decide (id = id)).
  - destruct (decide (k = id)) as [->|Hne]; [done|]. intros Hrest.
    destruct (ChannelId_ltb id k); cbn [find_boundary_channel fst snd].
    + by destruct (decide (id = id)).
    + destruct (decide (k = id)); [done|by apply IH].
Qed.

Lemma find_emplace_boundary_channel_is_Some (channels : list (ChannelId * BoundaryChannel))
    (id : ChannelId) (channel : BoundaryChannel) :
  is_Some (find_boundary_channel (emplace_boundary_channel id channel channels) id).
Proof.
  induction channels as [|[k c] rest IH];
    cbn [emplace_boundary_channel find_boundary_channel fst snd].
  - by destruct (decide (id = id)).
  - destruct (decide (k = id)) as [->|Hne].
    + cbn [find_boundary_channel fst snd]. by destruct (decide (id = id)).
    + destruct (ChannelId_ltb id k); cbn [find_boundary_channel fst snd].
      * by destruct (decide (id = id)).
      * by destruct (decide (k = id)).
Qed.

Lemma emplace_boundary_channel_existing (channels : list (ChannelId * BoundaryChannel))
    (id : ChannelId) (channel : BoundaryChannel) :
  boundary_channels_sorted channels ->
  is_Some (find_boundary_channel channels id) ->
  emplace_boundary_channel id channel channels = channels.
Proof.
  induction 1 as [|[k c] rest Hsorted IH Hall];
    cbn [emplace_boundary_channel find_boundary_channel fst snd]; [by intros [? ?]|].
  destruct (decide (k = id)) as [->|Hne]; [done|]. intros Hfound.
  destruct (ChannelId_ltb id k) eqn:Hlt; [|by rewrite IH].
  destruct Hfound as [found Hfound]. exfalso.
  assert (Hnone : find_boundary_channel rest id = None); [|congruence].
  apply find_boundary_channel_None. eapply Forall_impl; [exact Hall|].
  intros [k' c'] Hk' Heq. cbn [fst] in *. subst k'.
  pose proof (ChannelId_ltb_trans _ _ _ Hlt Hk') as Hrefl.
  apply ChannelId_ltb_asym in Hrefl as Hno. congruence.
Qed.

Lemma emplace_boundary_channel_sorted (channels : list (ChannelId * BoundaryChannel))
    (id : ChannelId) (channel : BoundaryChannel) :
  boundary_channels_sorted channels ->
  boundary_channels_sorted (emplace_boundary_channel id channel channels)
  /\ forall k, Forall (fun entry => ChannelId_ltb k entry.1 = true) channels ->
               ChannelId_ltb k id = true ->
               Forall (fun entry => ChannelId_ltb k entry.1 = true)
                 (emplace_boundary_channel id channel channels).
Proof.
  induction 1 as [|[k c] rest Hsorted [IH IHall] Hall];
    cbn [emplace_boundary_channel fst snd].
  - split; [by repeat constructor|]. intros k _ Hk. by repeat constructor.
  - destruct (decide (k = id)) as [->|Hne].
    + split; [by constructor|]. by intros k Hk _.
    + destruct (ChannelId_ltb id k) eqn:Hlt.
      * split.
        -- constructor; [by constructor|]. constructor; [done|].
           eapply Forall_impl; [exact Hall|]. intros [k' c'] Hk'. cbn [fst] in *.
           by eapply ChannelId_ltb_trans.
        -- intros k0 Hk0 Hid. by constructor.
      * split.
        -- constructor; [done|]. apply IHall; [done|].
           by apply ChannelId_ltb_total.
        -- intros k0 Hk0 Hid. apply Forall_cons in Hk0 as [Hk0 Hrest].
           constructor; [done|]. by apply IHall.
Qed.

Lemma find_emplace_boundary_channel_ne (channels : list (ChannelId * BoundaryChannel))
    (id id' : ChannelId) (channel : BoundaryChannel) :
  id' <> id ->
  find_boundary_channel (emplace_boundary_channel id channel channels) id'
  = find_boundary_channel channels id'.
Proof.
  intros Hne. induction channels as [|[k c] rest IH];
    cbn [emplace_boundary_channel find_boundary_channel fst snd].
  - destruct (decide (id = id')); [by subst|done].
  - destruct (decide (k = id)) as [->|Hk]; [done|].
    destruct (ChannelId_ltb id k); cbn [find_boundary_channel fst snd].
    + destruct (decide (id = id')); [by subst|done].
    + by rewrite IH.
Qed.

Lemma elem_of_emplace_boundary_channel (channels : list (ChannelId * BoundaryChannel))
    (id : ChannelId) (channel : BoundaryChannel) :
  find_boundary_channel channels id = None ->
  (id, channel) ∈ emplace_boundary_channel id channel channels.
Proof.
  induction channels as [|[k c] rest IH]; cbn; [intros _; left|].
  destruct (decide (k = id)); [done|]. intros Hrest.
  destruct (ChannelId_ltb id k); [left|right; by apply IH].
Qed.

Lemma find_channel_by_stream_name_elem (channels : list (ChannelId * BoundaryChannel))
    (id : ChannelId) (channel : BoundaryChannel) :
  (id, channel) ∈ channels ->
  exists found,
    find_channel_by_stream_name channels (stream_name channel) = Value found
    /\ stream_name found = stream_name channel.
Proof.
  induction channels as [|[k c] rest IH]; [by intros ?%elem_of_nil|].
  intros Hin. cbn.
  destruct (decide (stream_name c = stream_name channel)) as [Hc|Hc]; [by exists c|].
  apply elem_of_cons in Hin as [[= -> ->]|Hin]; [done|by apply IH].
Qed.

(** What a [create_boundary_vdma_channel] that returns has done: the
    manager differs in the allocator and, on success, in the boundary
    channels. *)
Lemma create_boundary_vdma_channel_done (rm rm' : ResourcesManager) (layer : LayerInfo)
    (status : hailo_status) :
  create_boundary_vdma_channel rm layer = Done (status, rm') ->
  let dir := if decide (direction layer = HAILO_H2D_STREAM) then H2D else D2H in
  let allocation :=
    allocate_channel_id (m_channel_allocator rm) (to_layer_identifier layer) dir
      (if decide (dma_type (m_driver rm) = PCIE) then DEFAULT_ENGINE_INDEX
       else dma_engine_index layer) in
  (status <> HAILO_SUCCESS /\ rm' = with_channel_allocator allocation.2 rm)
  \/ (status = HAILO_SUCCESS
      /\ exists id descs_count page_size batch stream_flags,
           allocation.1 = Value id
           /\ get_network_batch_size rm (network_name layer) = Value batch
           /\ stream_params_by_name (m_config_params rm) !! name layer
              = Some (mkStreamParameters stream_flags)
           /\ rm' = with_boundary_channels
                      (emplace_boundary_channel id
                         (mkBoundaryChannel id dir
                            (mkDescriptorList descs_count page_size []) (name layer)
                            (m_latency_meters rm !! network_name layer) batch
                            (if decide (0 = Z.land stream_flags HAILO_STREAM_FLAGS_ASYNC)
                             then BUFFERED else ASYNC))
                         (m_boundary_channels rm))
                      (with_channel_allocator allocation.2 rm)).
Proof.
  unfold create_boundary_vdma_channel, get_available_channel_id. cbn zeta.
  destruct (allocate_channel_id _ _ _ _) as [[id|error] allocator]; cbn [fst snd];
    [|intros [= <- <-]; by left].
  rewrite get_network_batch_size_with_channel_allocator.
  destruct (get_network_batch_size rm (network_name layer)) as [batch|error];
    [|intros [= <- <-]; by left].
  destruct (IS_FIT_IN_UINT16 (wrap32 (MIN_ACTIVE_TRANSFERS_SCALE * batch)));
    cbn [negb]; [|intros [= <- <-]; by left].
  destruct (IS_FIT_IN_UINT16 (wrap32 (MAX_ACTIVE_TRANSFERS_SCALE * batch)));
    cbn [negb]; [|intros [= <- <-]; by left].
  cbn [m_driver with_channel_allocator m_config_params m_latency_meters
       m_boundary_channels].
  destruct (get_desc_buffer_sizes_for_single_transfer _ _ _ _) as [desc_sizes|error];
    [|intros [= <- <-]; by left].
  destruct (stream_params_by_name (m_config_params rm) !! name layer) as [[stream_flags]|];
    [|done].
  unfold BoundaryChannel_create. cbn [flags].
  match goal with |- context [BoundaryChannel_create_status ?c] =>
    destruct (BoundaryChannel_create_status c) end;
    intros [= <- <-]; [right|by left].
  split; [done|]. by eexists id, _, _, batch, stream_flags.
Qed.


(** X10: after a successful [create_boundary_vdma_channel] that was given a
    channel id not yet registered, the boundary channel of that id is the
    new one, made for the stream of the layer with the batch size of the
    layer's network; the channel is found by the stream name of the layer;
    and the channels of the other ids are the ones registered before. *)
Theorem create_boundary_vdma_channel_then_find (rm rm' : ResourcesManager)
    (layer : LayerInfo) (id : ChannelId) :
  create_boundary_vdma_channel rm layer = Done (HAILO_SUCCESS, rm') ->
  (get_available_channel_id rm (to_layer_identifier layer)
     (if decide (direction layer = HAILO_H2D_STREAM) then H2D else D2H)
     (dma_engine_index layer)).1 = Value id ->
  find_boundary_channel (m_boundary_channels rm) id = None ->
  (exists channel,
     find_boundary_channel (m_boundary_channels rm') id = Some channel
     /\ get_channel_id channel = id
     /\ stream_name channel = name layer
     /\ get_network_batch_size rm (network_name layer)
        = Value (transfers_per_axi_intr channel)
     /\ programmed (get_desc_list channel) = [])
  /\ (exists found,
        get_boundary_vdma_channel_by_stream_name rm' (name layer) = Value found
        /\ stream_name found = name layer)
  /\ forall id', id' <> id ->
                 find_boundary_channel (m_boundary_channels rm') id'
                 = find_boundary_channel (m_boundary_channels rm) id'.
Proof.
  intros Hrun Hid Hfresh.
  apply create_boundary_vdma_channel_done in Hrun
    as [[Hno _]|(_ & id0 & descs & page & batch & flags & Halloc & Hget & _ & ->)];
    [done|].
  unfold get_available_channel_id in Hid.
  destruct (allocate_channel_id _ _ _ _) as [allocated allocator] eqn:Hallocation.
  cbn [fst snd] in *. rewrite Halloc in Hid. injection Hid as ->.
  cbn [m_boundary_channels with_boundary_channels].
  split; [|split].
  - eexists. split; [by apply find_emplace_boundary_channel_fresh|]. done.
  - unfold get_boundary_vdma_channel_by_stream_name.
    cbn [m_boundary_channels with_boundary_channels].
    match goal with |- context [emplace_boundary_channel id ?c _] =>
      apply (find_channel_by_stream_name_elem _ id c) end.
    by apply elem_of_emplace_boundary_channel.
  - intros id' Hne. by apply find_emplace_boundary_channel_ne.
Qed.

(** X11: whatever [create_boundary_vdma_channel] returns, it has taken a
    channel id from the allocator and has touched nothing of the manager
    but the allocator and the boundary channels; when it fails after the
    allocation, the boundary channels are as before and the allocator keeps
    the id as allocated. *)
Theorem create_boundary_vdma_channel_changes (rm rm' : ResourcesManager)
    (layer : LayerInfo) (status : hailo_status) :
  create_boundary_vdma_channel rm layer = Done (status, rm') ->
  m_channel_allocator rm'
  = m_channel_allocator
      (get_available_channel_id rm (to_layer_identifier layer)
         (if decide (direction layer = HAILO_H2D_STREAM) then H2D else D2H)
         (dma_engine_index layer)).2
  /\ (status <> HAILO_SUCCESS -> m_boundary_channels rm' = m_boundary_channels rm)
  /\ with_boundary_channels (m_boundary_channels rm)
       (with_channel_allocator (m_channel_allocator rm) rm')
     = rm.
Proof.
  intros Hrun. apply create_boundary_vdma_channel_done in Hrun
    as [[Hno ->]|(-> & id0 & descs & page & batch & flags & _ & _ & _ & ->)];
    unfold get_available_channel_id;
    destruct (allocate_channel_id _ _ _ _) as [allocated allocator];
    cbn [fst snd m_channel_allocator with_channel_allocator with_boundary_channels
         m_boundary_channels]; (split; [done|]); (split; [done|]); by destruct rm.
Qed.

(** X12: [create_boundary_vdma_channel] keeps the boundary channels in the
    order of their ids, and a channel that is registered is never replaced:
    when the allocator hands out an id that is registered already, the call
    still succeeds but the channels are exactly the ones from before. *)
Theorem create_boundary_vdma_channel_keeps_order (rm rm' : ResourcesManager)
    (layer : LayerInfo) (status : hailo_status) :
  boundary_channels_sorted (m_boundary_channels rm) ->
  create_boundary_vdma_channel rm layer = Done (status, rm') ->
  boundary_channels_sorted (m_boundary_channels rm')
  /\ (forall id channel,
        find_boundary_channel (m_boundary_channels rm) id = Some channel ->
        find_boundary_channel (m_boundary_channels rm') id = Some channel)
  /\ (forall id,
        (get_available_channel_id rm (to_layer_identifier layer)
           (if decide (direction layer = HAILO_H2D_STREAM) then H2D else D2H)
           (dma_engine_index layer)).1 = Value id ->
        is_Some (find_boundary_channel (m_boundary_channels rm) id) ->
        m_boundary_channels rm' = m_boundary_channels rm).
Proof.
  intros Hsorted Hrun. apply create_boundary_vdma_channel_done in Hrun
    as [[Hno ->]|(-> & id0 & descs & page & batch & flags & Halloc & _ & _ & ->)].
  - cbn [m_boundary_channels with_channel_allocator]. by split; [|split].
  - cbn [m_boundary_channels with_boundary_channels with_channel_allocator].
    split; [by apply emplace_boundary_channel_sorted|]. split.
    + intros id channel Hfound. destruct (decide (id = id0)) as [->|Hne].
      * rewrite emplace_boundary_channel_existing; [done|done|by eexists].
      * by rewrite find_emplace_boundary_channel_ne.
    + intros id Hid Hfound. unfold get_available_channel_id in Hid.
      destruct (allocate_channel_id _ _ _ _) as [allocated allocator].
      cbn [fst snd] in *. rewrite Halloc in Hid. injection Hid as ->.
      by apply emplace_boundary_channel_existing.
Qed.

(** X13: the interrupts of a channel created by
    [create_boundary_vdma_channel] are routed: an interrupt record for the
    id that the allocator handed out, without error bits and with the
    channel active, reaches the completion trigger of that channel, once,
    with the record's count of processed descriptors. *)
Theorem created_boundary_channel_is_routed (rm rm' : ResourcesManager) (layer : LayerInfo)
    (r : ChannelIrqData) (events : list irq_event) :
  create_boundary_vdma_channel rm layer = Done (HAILO_SUCCESS, rm') ->
  (get_available_channel_id rm (to_layer_identifier layer)
     (if decide (direction layer = HAILO_H2D_STREAM) then H2D else D2H)
     (dma_engine_index layer)).1 = Value (irq_channel_id r) ->
  host_error r = 0 -> device_error r = 0 -> is_active r = true ->
  exists events',
    process_interrupts rm' (mkIrqData 1 [r]) events = Done events'
    /\ completions events'
       = completions events ++ [(irq_channel_id r, desc_num_processed r)].
Proof.
  intros Hrun Hid Hhost Hdevice Hactive.
  apply create_boundary_vdma_channel_done in Hrun
    as [[Hno _]|(_ & id0 & descs & page & batch & flags & Halloc & _ & _ & ->)];
    [done|].
  unfold get_available_channel_id in Hid.
  destruct (allocate_channel_id _ _ _ _) as [allocated allocator].
  cbn [fst snd] in *. rewrite Halloc in Hid. injection Hid as ->.
  unfold process_interrupts. cbn [channels_count channels_irq_data length].
  rewrite bool_decide_eq_true_2 by lia. eexists. split; [done|].
  change (take (Z.to_nat 1) [r]) with [r]. cbn [foldl].
  rewrite process_interrupt_completions. f_equal.
  unfold routed. cbn [m_boundary_channels with_boundary_channels].
  rewrite bool_decide_eq_true_2 by apply find_emplace_boundary_channel_is_Some.
  rewrite !bool_decide_eq_true_2 by done. by rewrite Hactive.
Qed.


(** ** Hardware-only inference: the layout of the descriptors *)

Lemma total_descs_app (a b : list Z) : total_descs (a ++ b) = total_descs a + total_descs b.
Proof.
  unfold total_descs. induction a as [|x a IH]; cbn [app foldr]; [done|].
  rewrite IH. lia.
Qed.

Lemma programs_from_nil (desc_list : DescriptorList) (offset : Z) :
  programs_from desc_list offset [] [].
Proof. split; [done|]. intros k call count Hk. by rewrite lookup_nil in Hk. Qed.

Lemma programs_from_app (desc_list : DescriptorList) (offset : Z)
    (calls1 calls2 : list ProgramCall) (counts1 counts2 : list Z) :
  programs_from desc_list offset calls1 counts1 ->
  programs_from
    (mkDescriptorList (desc_count desc_list) (desc_page_size desc_list)
       (programmed desc_list ++ calls1))
    (offset + total_descs counts1) calls2 counts2 ->
  programs_from desc_list offset (calls1 ++ calls2) (counts1 ++ counts2).
Proof.
  intros [Hlen1 Hall1] [Hlen2 Hall2]. split; [rewrite !length_app; lia|].
  intros k call count Hcall Hcount.
  destruct (decide (k < length calls1)%nat) as [Hk|Hk].
  - rewrite lookup_app_l in Hcall by lia. rewrite lookup_app_l in Hcount by lia.
    rewrite !take_app_le by lia. by apply Hall1.
  - rewrite lookup_app_r in Hcall by lia. rewrite lookup_app_r in Hcount by lia.
    rewrite Hlen1 in Hcount.
    destruct (Hall2 _ _ _ Hcall Hcount) as [Hoffset Horacle].
    cbn [desc_count desc_page_size programmed] in Horacle.
    rewrite !take_app_ge by lia. rewrite total_descs_app, Hlen1.
    split; [lia|]. by rewrite <- app_assoc in Horacle.
Qed.

Lemma program_transfers_layout (remaining : nat) (transfer_index : Z)
    (desc_list desc_list' : DescriptorList) (single_transfer_size dynamic_batch_size : Z)
    (acc acc' : Z) :
  program_transfers remaining transfer_index desc_list single_transfer_size
    dynamic_batch_size acc = (Value acc', desc_list') ->
  exists calls counts,
    desc_list' = mkDescriptorList (desc_count desc_list) (desc_page_size desc_list)
                   (programmed desc_list ++ calls)
    /\ programs_from desc_list acc calls counts
    /\ acc' = acc + total_descs counts.
Proof.
  revert transfer_index desc_list acc.
  induction remaining as [|remaining IH]; intros transfer_index desc_list acc.
  - intros [= <- <-]. exists [], []. rewrite app_nil_r.
    split; [by destruct desc_list|]. split; [apply programs_from_nil|cbn; lia].
  - cbn [program_transfers].
    destruct (program_last_descriptor desc_list _) as [count|status] eqn:Hcall; [|done].
    intros Hrest. apply IH in Hrest as (calls & counts & -> & Hfrom & ->).
    cbn [desc_count desc_page_size programmed] in *.
    eexists (_ :: calls), (count :: counts). rewrite <- app_assoc.
    split; [done|]. split; [|unfold total_descs; cbn [foldr]; lia].
    apply (programs_from_app _ _ [_] _ [count]).
    + split; [done|]. intros [|k] call n; [|by intros ?].
      intros [= <-] [= <-]. cbn [take]. rewrite app_nil_r.
      split; [unfold total_descs; cbn; lia|]. by destruct desc_list.
    + unfold total_descs at 1. cbn [foldr]. by rewrite Z.add_0_r.
Qed.

Lemma program_batches_layout (remaining : nat) (desc_list desc_list' : DescriptorList)
    (single_transfer_size dynamic_batch_size : Z) (acc acc' : Z) :
  program_batches remaining desc_list single_transfer_size dynamic_batch_size acc
  = (Value acc', desc_list') ->
  exists calls counts,
    desc_list' = mkDescriptorList (desc_count desc_list) (desc_page_size desc_list)
                   (programmed desc_list ++ calls)
    /\ programs_from desc_list acc calls counts
    /\ acc' = acc + total_descs counts.
Proof.
  revert desc_list acc.
  induction remaining as [|remaining IH]; intros desc_list acc.
  - intros [= <- <-]. exists [], []. rewrite app_nil_r.
    split; [by destruct desc_list|]. split; [apply programs_from_nil|cbn; lia].
  - cbn [program_batches].
    destruct (program_transfers _ _ _ _ _ _) as [[acc1|status] desc_list1] eqn:Hbatch;
      [|done].
    apply program_transfers_layout in Hbatch as (calls1 & counts1 & -> & Hfrom1 & ->).
    intros Hrest. apply IH in Hrest as (calls & counts & -> & Hfrom & ->).
    cbn [desc_count desc_page_size programmed] in *.
    exists (calls1 ++ calls), (counts1 ++ counts). rewrite app_assoc.
    split; [done|]. split; [by apply programs_from_app|].
    rewrite total_descs_app. lia.
Qed.

(** X14: when [program_desc_for_hw_only_flow] returns a descriptor count,
    the descriptors were programmed back to back: the first call starts at
    offset 0, every call starts where the descriptors of the calls before it
    end, the count returned is the total of the descriptors that the calls
    used and fits a [uint16_t], and the descriptor list keeps its geometry
    and the programming it had. *)
Theorem program_desc_for_hw_only_flow_layout (desc_list desc_list' : DescriptorList)
    (single_transfer_size dynamic_batch_size batch_count descs : Z) :
  program_desc_for_hw_only_flow desc_list single_transfer_size dynamic_batch_size
    batch_count = (Value descs, desc_list') ->
  exists calls counts,
    desc_list' = mkDescriptorList (desc_count desc_list) (desc_page_size desc_list)
                   (programmed desc_list ++ calls)
    /\ programs_from desc_list 0 calls counts
    /\ descs = total_descs counts
    /\ 0 <= descs <= UINT16_MAX.
Proof.
  unfold program_desc_for_hw_only_flow.
  destruct (program_batches _ _ _ _ _) as [[acc|status] desc_list1] eqn:Hrun; [|done].
  destruct (IS_FIT_IN_UINT16 acc) eqn:Hfit; cbn [negb]; [|done]. intros [= <- <-].
  apply program_batches_layout in Hrun as (calls & counts & -> & Hfrom & ->).
  exists calls, counts. split; [done|]. split; [done|]. split; [lia|].
  unfold IS_FIT_IN_UINT16 in Hfit. apply andb_true_iff in Hfit as [Hlow Hhigh].
  apply Z.leb_le in Hlow, Hhigh. lia.
Qed.


Lemma program_transfers_prefix (remaining : nat) (transfer_index : Z)
    (desc_list desc_list' : DescriptorList) (single_transfer_size dynamic_batch_size : Z)
    (acc : Z) (result : Expected Z) :
  program_transfers remaining transfer_index desc_list single_transfer_size
    dynamic_batch_size acc = (result, desc_list') ->
  exists calls,
    desc_list' = mkDescriptorList (desc_count desc_list) (desc_page_size desc_list)
                   (programmed desc_list ++ calls)
    /\ interrupt_domains calls
       `prefix_of` (interrupts_domain_of dynamic_batch_size
                    <$> seqZ transfer_index (Z.of_nat remaining))
    /\ (forall acc', result = Value acc' ->
          interrupt_domains calls
          = interrupts_domain_of dynamic_batch_size
            <$> seqZ transfer_index (Z.of_nat remaining)).
Proof.
  revert transfer_index desc_list acc.
  induction remaining as [|remaining IH]; intros transfer_index desc_list acc.
  - intros [= <- <-]. exists []. rewrite app_nil_r.
    split; [by destruct desc_list|]. split; [apply prefix_nil|done].
  - cbn [program_transfers]. rewrite seqZ_cons by lia.
    replace (Z.pred (Z.of_nat (S remaining))) with (Z.of_nat remaining) by lia.
    replace (Z.succ transfer_index) with (transfer_index + 1) by lia.
    destruct (program_last_descriptor desc_list _) as [count|status].
    + intros Hrest. apply IH in Hrest as (calls & -> & Hprefix & Hfull).
      cbn [desc_count desc_page_size programmed]. eexists (_ :: calls).
      rewrite <- app_assoc. split; [done|].
      unfold interrupt_domains in *. rewrite !fmap_cons.
      cbn [last_desc_interrupts_domain]. split; [by apply prefix_cons|].
      intros acc' Hvalue. by rewrite (Hfull _ Hvalue).
    + intros [= <- <-]. exists []. rewrite app_nil_r.
      split; [by destruct desc_list|]. split; [apply prefix_nil|done].
Qed.

Lemma program_batches_prefix (remaining : nat) (desc_list desc_list' : DescriptorList)
    (single_transfer_size dynamic_batch_size : Z) (acc : Z) (result : Expected Z) :
  program_batches remaining desc_list single_transfer_size dynamic_batch_size acc
  = (result, desc_list') ->
  exists calls,
    desc_list' = mkDescriptorList (desc_count desc_list) (desc_page_size desc_list)
                   (programmed desc_list ++ calls)
    /\ interrupt_domains calls
       `prefix_of` mjoin (replicate remaining
                            (interrupts_domain_of dynamic_batch_size
                             <$> seqZ 0 dynamic_batch_size)).
Proof.
  revert desc_list acc.
  induction remaining as [|remaining IH]; intros desc_list acc.
  - intros [= <- <-]. exists []. rewrite app_nil_r.
    split; [by destruct desc_list|]. apply prefix_nil.
  - cbn [program_batches]. rewrite join_replicate_S.
    destruct (program_transfers _ _ _ _ _ _) as [[acc1|status] desc_list1] eqn:Hbatch;
      apply program_transfers_prefix in Hbatch as (calls1 & -> & Hprefix1 & Hfull1).
    + intros Hrest. apply IH in Hrest as (calls & -> & Hprefix).
      cbn [desc_count desc_page_size programmed]. exists (calls1 ++ calls).
      rewrite app_assoc. split; [done|].
      unfold interrupt_domains in *. rewrite fmap_app, (Hfull1 _ eq_refl).
      unfold seqZ at 1. rewrite Nat2Z.id. by apply prefix_app.
    + intros [= <- <-]. exists calls1. split; [done|].
      apply prefix_app_r. revert Hprefix1. unfold seqZ. by rewrite Nat2Z.id.
Qed.

(** X15: whatever [program_desc_for_hw_only_flow] returns, also when a
    programming call fails on the way or the total does not fit a
    [uint16_t], what it has added to the programming of the descriptor list
    is a beginning of the pattern of a whole run (no interrupt, ..., no
    interrupt, device interrupt, once per batch); the earlier programming
    and the geometry of the list are untouched. *)
Theorem program_desc_for_hw_only_flow_prefix (desc_list desc_list' : DescriptorList)
    (single_transfer_size dynamic_batch_size batch_count : Z) (result : Expected Z) :
  program_desc_for_hw_only_flow desc_list single_transfer_size dynamic_batch_size
    batch_count = (result, desc_list') ->
  exists calls,
    desc_list' = mkDescriptorList (desc_count desc_list) (desc_page_size desc_list)
                   (programmed desc_list ++ calls)
    /\ interrupt_domains calls
       `prefix_of` mjoin (replicate (Z.to_nat batch_count)
                            (interrupts_domain_of dynamic_batch_size
                             <$> seqZ 0 dynamic_batch_size))
    /\ (device_interrupts calls <= Z.to_nat batch_count)%nat.
Proof.
  unfold program_desc_for_hw_only_flow.
  destruct (program_batches _ _ _ _ _) as [result1 desc_list1] eqn:Hrun.
  apply program_batches_prefix in Hrun as (calls & -> & Hprefix).
  intros Hresult.
  assert (desc_list' = mkDescriptorList (desc_count desc_list) (desc_page_size desc_list)
                         (programmed desc_list ++ calls)) as ->.
  { destruct result1; [destruct (negb _)|]; by injection Hresult as _ <-. }
  exists calls. split; [done|]. split; [done|].
  unfold device_interrupts. destruct Hprefix as [rest Hrest].
  pose proof (join_replicate_device_interrupts (Z.to_nat batch_count)
                (interrupts_domain_of dynamic_batch_size <$> seqZ 0 dynamic_batch_size))
    as Hcount.
  rewrite Hrest, filter_app, length_app in Hcount.
  destruct (decide (0 < dynamic_batch_size)) as [Hpos|Hzero].
  - rewrite group_device_interrupts in Hcount by done. lia.
  - rewrite seqZ_nil in Hcount by lia. cbn in Hcount. lia.
Qed.


(** ** Hardware-only inference: the batch count in every case *)

(** Either every layer has a capacity, or one of them has no boundary
    channel. *)
Lemma layer_capacities_or_missing (rm : ResourcesManager) (dynamic_batch_size : Z)
    (layers : list LayerInfo) :
  (exists capacities,
     Forall2 (fun layer c => layer_capacity rm dynamic_batch_size layer = Some c)
       layers capacities)
  \/ Exists (fun layer => layer_capacity rm dynamic_batch_size layer = None) layers.
Proof.
  induction layers as [|layer layers [[capacities IH]|IH]].
  - left. exists []. constructor.
  - destruct (layer_capacity rm dynamic_batch_size layer) as [c|] eqn:Hc.
    + left. exists (c :: capacities). by constructor.
    + right. by apply Exists_cons_hd.
  - right. by apply Exists_cons_tl.
Qed.

Lemma foldl_min_le_start (capacities : list Z) (start : Z) :
  foldl Z.min start capacities <= start.
Proof.
  revert start. induction capacities as [|c capacities IH]; intros start; cbn [foldl]; [lia|].
  specialize (IH (Z.min start c)). lia.
Qed.

(** X16: [calc_hw_infer_batch_count] in every case. It fails exactly when a
    layer of the core-op has no boundary channel, and then with
    [HAILO_NOT_FOUND]; otherwise it returns the minimum of [UINT16_MAX] and
    the capacities of the layers, so its result never exceeds [UINT16_MAX]
    and is [UINT16_MAX] for a core-op without layers. *)
Theorem calc_hw_infer_batch_count_outcome (rm : ResourcesManager) (dynamic_batch_size : Z) :
  match calc_hw_infer_batch_count rm dynamic_batch_size with
  | Value batch_count =>
    batch_count <= UINT16_MAX
    /\ exists capacities,
         Forall2 (fun layer c => layer_capacity rm dynamic_batch_size layer = Some c)
           (get_all_layer_infos (m_core_op_metadata rm)) capacities
         /\ batch_count = foldl Z.min UINT16_MAX capacities
  | Unexpected status =>
    status = HAILO_NOT_FOUND
    /\ Exists (fun layer => layer_capacity rm dynamic_batch_size layer = None)
         (get_all_layer_infos (m_core_op_metadata rm))
  end.
Proof.
  destruct (layer_capacities_or_missing rm dynamic_batch_size
              (get_all_layer_infos (m_core_op_metadata rm))) as [[capacities Hcaps]|Hmiss].
  - rewrite (calc_hw_infer_batch_count_capped _ _ _ Hcaps).
    split; [apply foldl_min_le_start|]. by exists capacities.
  - unfold calc_hw_infer_batch_count.
    by rewrite (calc_hw_infer_batch_count_for_missing _ _ _ _ Hmiss).
Qed.


(** ** Configuration handshake: failures *)

Lemma set_contexts_info_rejected (contexts : list ContextResources)
    (device : list control_message) (k : nat) (context : ContextResources)
    (error : hailo_error) :
  all_accepted device (context_info_message <$> take k contexts) ->
  contexts !! k = Some context ->
  Control_status (device ++ (context_info_message <$> take k contexts))
    (context_info_message context) = HAILO_ERROR error ->
  set_contexts_info contexts device
  = (HAILO_ERROR error, device ++ (context_info_message <$> take (S k) contexts)).
Proof.
  revert device k.
  induction contexts as [|first contexts IH]; intros device k; [done|].
  destruct k as [|k].
  - intros _ [= ->]. rewrite take_0, fmap_nil, app_nil_r. intros Hrejected.
    cbn [set_contexts_info]. unfold Control_send.
    fold (context_info_message context). rewrite Hrejected.
    rewrite bool_decide_eq_false_2 by done. cbn [negb].
    by rewrite firstn_cons, take_0.
  - rewrite !firstn_cons, !fmap_cons. intros [Hfirst Hrest] Hk Hrejected.
    change (contexts !! k = Some context) in Hk.
    cbn [set_contexts_info]. unfold Control_send.
    fold (context_info_message first). rewrite Hfirst.
    rewrite bool_decide_eq_true_2 by done. cbn [negb].
    rewrite (IH _ k) by (done || by rewrite <- app_assoc).
    by rewrite <- app_assoc.
Qed.

(** X17: a first [configure] stops at the first failure. When the header
    cannot be assembled, it returns the error of the assembly and sends
    nothing. When the firmware rejects one of the messages of the
    configuration (the header, then the controls of the contexts in order),
    those before it being accepted, [configure] returns the status of the
    rejection, and the device has received the messages up to the rejected
    one and none of those after it. *)
Theorem configure_stops_at_first_failure (fuel : nat) (rm : ResourcesManager)
    (device : list control_message) :
  m_is_configured rm = false ->
  (forall error,
     get_control_core_op_header fuel (with_is_configured true rm) = Done (Unexpected error) ->
     configure fuel rm device
     = Done (HAILO_ERROR error, with_is_configured true rm, device))
  /\ (forall header k message error,
        get_control_core_op_header fuel (with_is_configured true rm)
        = Done (Value header) ->
        all_accepted device (take k (configuration_messages rm header)) ->
        configuration_messages rm header !! k = Some message ->
        Control_status (device ++ take k (configuration_messages rm header)) message
        = HAILO_ERROR error ->
        configure fuel rm device
        = Done (HAILO_ERROR error, with_is_configured true rm,
                device ++ take (S k) (configuration_messages rm header))).
Proof.
  intros Hfresh. split.
  - intros error Hheader. unfold configure. by rewrite Hfresh, Hheader.
  - intros header k message error Hheader Haccepted Hk Hrejected.
    unfold configure. rewrite Hfresh, Hheader. unfold Control_send.
    change (m_contexts_resources (with_is_configured true rm))
      with (m_contexts_resources rm).
    unfold configuration_messages in *. destruct k as [|k].
    + injection Hk as <-. rewrite take_0, app_nil_r in Hrejected.
      rewrite Hrejected. rewrite bool_decide_eq_false_2 by done. cbn [negb].
      by rewrite firstn_cons, take_0.
    + rewrite firstn_cons in Haccepted, Hrejected. destruct Haccepted as [Hfirst Hrest].
      change ((context_info_message <$> m_contexts_resources rm) !! k = Some message) in Hk.
      rewrite list_lookup_fmap in Hk.
      destruct (m_contexts_resources rm !! k) as [context|] eqn:Hcontext; [|done].
      injection Hk as <-.
      rewrite Hfirst. rewrite bool_decide_eq_true_2 by done. cbn [negb].
      rewrite <- fmap_take in Hrest, Hrejected.
      rewrite (set_contexts_info_rejected _ _ k context error);
        [|done|done|by rewrite <- app_assoc].
      rewrite firstn_cons, fmap_take. cbn [app]. by rewrite <- app_assoc.
Qed.


(** ** The assembled control header *)

(** X18: the header that [get_control_core_op_header] assembles, the
    network-name table fitting the header. When every configured network is
    in the table, the header carries the number of dynamic contexts of the
    manager, the preliminary-run-asap capability of the metadata, no ABBALE
    support, the number of configured networks (as a [uint8_t]), the smaller
    of the driver's maximal descriptor page size and the default one, and an
    array of [CONTROL_PROTOCOL__MAX_NETWORKS_PER_NETWORK_GROUP] batch
    sizes that holds, at the table index of each configured network, the
    batch size of that network and 0 everywhere else. When a configured
    network is missing from the table, the assembly fails with
    [HAILO_NOT_FOUND]. *)
Theorem get_control_core_op_header_assembled (fuel : nat) (rm : ResourcesManager) :
  (length (m_network_index_map rm) <= 255)%nat ->
  Z.of_nat (length (m_network_index_map rm))
  <= CONTROL_PROTOCOL__MAX_NETWORKS_PER_NETWORK_GROUP ->
  (length (m_network_index_map rm) < fuel)%nat ->
  (Forall (fun network => network ∈ m_network_index_map rm)
     (network_params_by_name (m_config_params rm)).*1 ->
   exists header,
     get_control_core_op_header fuel rm = Done (Value header)
     /\ dynamic_contexts_count header = m_dynamic_context_count rm
     /\ preliminary_run_asap header
        = supported_preliminary_run_asap (m_core_op_metadata rm)
     /\ is_abbale_supported header = false
     /\ networks_count header
        = wrap8 (Z.of_nat (length (network_params_by_name (m_config_params rm))))
     /\ csm_buffer_size header
        = Z.min (desc_max_page_size (m_driver rm)) DEFAULT_DESC_PAGE_SIZE
     /\ length (batch_size header)
        = Z.to_nat CONTROL_PROTOCOL__MAX_NETWORKS_PER_NETWORK_GROUP
     /\ (forall network i,
           network ∈ (network_params_by_name (m_config_params rm)).*1 ->
           index_of network (m_network_index_map rm) = Some i ->
           exists size, get_network_batch_size rm network = Value size
                        /\ batch_size header !! i = Some size)
     /\ (forall i,
           (i < length (batch_size header))%nat ->
           (forall network,
              network ∈ (network_params_by_name (m_config_params rm)).*1 ->
              index_of network (m_network_index_map rm) <> Some i) ->
           batch_size header !! i = Some 0))
  /\ (Exists (fun network => network ∉ m_network_index_map rm)
        (network_params_by_name (m_config_params rm)).*1 ->
      get_control_core_op_header fuel rm = Done (Unexpected HAILO_NOT_FOUND)).
Proof.
  intros Hsmall Hfit Hfuel.
  unfold get_control_core_op_header, fill_network_batch_size.
  cbn [fill_infer_features fill_validation_features].
  set (params := network_params_by_name (m_config_params rm)).
  assert (Hconf : Forall (fun n => n ∈ params.*1) params.*1) by by apply Forall_forall.
  match goal with |- context [fill_network_batch_size_for fuel rm params ?h] =>
    set (start := h) end.
  assert (Hfields :
            dynamic_contexts_count start = m_dynamic_context_count rm
            /\ preliminary_run_asap start
               = supported_preliminary_run_asap (m_core_op_metadata rm)
            /\ is_abbale_supported start = false
            /\ networks_count start = wrap8 (Z.of_nat (length params))
            /\ batch_size start
               = replicate (Z.to_nat CONTROL_PROTOCOL__MAX_NETWORKS_PER_NETWORK_GROUP) 0)
    by done.
  clearbody start. destruct Hfields as (Hdynamic & Hasap & Habbale & Hcount & Hstart).
  assert (Hroom : (length (m_network_index_map rm) <= length (batch_size start))%nat)
    by (rewrite Hstart, length_replicate; lia).
  split.
  - intros Htable.
    rewrite (fill_network_batch_size_for_success fuel rm params start) by done.
    cbn [fill_csm_buffer_size]. eexists. split; [done|].
    cbn [dynamic_contexts_count preliminary_run_asap is_abbale_supported networks_count
         csm_buffer_size batch_size with_batch_size].
    do 5 (split; [done|]).
    rewrite write_batch_sizes_length, Hstart, length_replicate.
    split; [done|]. split.
    + intros network i Hin Hi.
      destruct (get_network_batch_size_in_found _ _ Hin) as (p & _ & Hget).
      exists (actual_batch_size p). split; [done|].
      apply (write_batch_sizes_written rm _ _ network); [done|done|done|].
      rewrite length_replicate. lia.
    + intros i Hi Hother. rewrite write_batch_sizes_unwritten by done.
      by apply lookup_replicate_2.
  - intros Hmiss.
    by destruct (fill_network_batch_size_for_not_found fuel rm params start)
      as [app_header' ->].
Qed.


(** ** Interrupt completion routing: what is reported *)

Lemma process_interrupt_added (rm : ResourcesManager) (events : list irq_event)
    (r : ChannelIrqData) :
  exists added,
    process_interrupt rm events r = events ++ added
    /\ Forall reported_trigger_status added
    /\ (1 <= length added <= 2)%nat.
Proof.
  unfold process_interrupt.
  destruct (find_boundary_channel _ _) as [channel|];
    [|eexists; split; [done|]; split; [by repeat constructor|simpl; lia]].
  destruct (bool_decide (_ \/ _));
    [eexists; split; [done|]; split; [by repeat constructor|simpl; lia]|].
  destruct (negb _);
    [eexists; split; [done|]; split; [by repeat constructor|simpl; lia]|].
  destruct (bool_decide (_ <> HAILO_SUCCESS)) eqn:Hsuccess; cbn [andb];
    [|eexists; split; [done|]; split; [by repeat constructor|simpl; lia]].
  destruct (bool_decide (_ <> HAILO_ERROR HAILO_STREAM_ABORTED_BY_USER)) eqn:Haborted;
    cbn [andb];
    [|eexists; split; [done|]; split; [by repeat constructor|simpl; lia]].
  destruct (bool_decide (_ <> HAILO_ERROR HAILO_STREAM_NOT_ACTIVATED)) eqn:Hactivated;
    [|eexists; split; [done|]; split; [by repeat constructor|simpl; lia]].
  apply bool_decide_eq_true in Hsuccess, Haborted, Hactivated.
  rewrite <- app_assoc. eexists. split; [done|]. split; [|simpl; lia].
  repeat constructor; done.
Qed.

Lemma process_interrupts_added (rm : ResourcesManager) (records : list ChannelIrqData)
    (events : list irq_event) :
  exists added,
    foldl (process_interrupt rm) events records = events ++ added
    /\ Forall reported_trigger_status added
    /\ (length records <= length added <= 2 * length records)%nat.
Proof.
  revert events. induction records as [|r records IH]; intros events.
  - exists []. rewrite app_nil_r. split; [done|]. split; [constructor|simpl; lia].
  - cbn [foldl].
    destruct (process_interrupt_added rm events r) as (first & -> & Hfirst & Hone).
    destruct (IH (events ++ first)) as (rest & -> & Hrest & Hmany).
    exists (first ++ rest). rewrite app_assoc. split; [done|].
    split; [by apply Forall_app|]. rewrite length_app. cbn [length]. lia.
Qed.

(** X19: [process_interrupts] only adds to what has happened so far: for
    every record of the batch at least one event and at most two (a record
    is never dropped silently), and among the events it adds, a completion
    trigger is reported as failed only with a status other than success,
    [HAILO_STREAM_ABORTED_BY_USER] and [HAILO_STREAM_NOT_ACTIVATED]. *)
Theorem process_interrupts_reports (rm : ResourcesManager) (irq_data : IrqData)
    (events : list irq_event) :
  channels_count irq_data <= Z.of_nat (length (channels_irq_data irq_data)) ->
  exists added,
    process_interrupts rm irq_data events = Done (events ++ added)
    /\ Forall reported_trigger_status added
    /\ (Z.to_nat (channels_count irq_data) <= length added
        <= 2 * Z.to_nat (channels_count irq_data))%nat.
Proof.
  intros Hbound. unfold process_interrupts. rewrite bool_decide_eq_true_2 by lia.
  destruct (process_interrupts_added rm
              (take (Z.to_nat (channels_count irq_data)) (channels_irq_data irq_data))
              events) as (added & -> & Hreported & Hlength).
  exists added. split; [done|]. split; [done|].
  rewrite length_take in Hlength. lia.
Qed.


(** ** Latency meters *)

Lemma String_ltb_trans (a b c : string) :
  String.ltb a b = true -> String.ltb b c = true -> String.ltb a c = true.
Proof.
  unfold String.ltb. revert b c.
  induction a as [|x a IH]; intros [|y b] [|z c]; cbn [String.compare]; try done.
  destruct (Ascii.compare x y) eqn:Hxy; [| |done].
  - apply Ascii.compare_eq_iff in Hxy as ->.
    destruct (Ascii.compare y z); [apply IH|done|done].
  - intros _. destruct (Ascii.compare y z) eqn:Hyz; [| |done].
    + apply Ascii.compare_eq_iff in Hyz as <-. by rewrite Hxy.
    + intros _. assert (Ascii.compare x z = Lt) as ->; [|done].
      unfold Ascii.compare in *. rewrite N.compare_lt_iff in *. lia.
Qed.

Lemma String_ltb_irrefl (a : string) : String.ltb a a = false.
Proof.
  unfold String.ltb. pose proof (String.compare_antisym a a) as Hanti.
  by destruct (String.compare a a).
Qed.

Lemma String_ltb_total (a b : string) :
  String.ltb a b = false -> a <> b -> String.ltb b a = true.
Proof.
  unfold String.ltb. rewrite (String.compare_antisym b a).
  destruct (String.compare a b) eqn:Hcompare; [|done|done].
  intros _ Hne. by apply String.compare_eq_iff in Hcompare.
Qed.

Lemma elem_of_string_set_insert (s x : string) (set : list string) :
  x ∈ string_set_insert s set <-> x = s \/ x ∈ set.
Proof.
  induction set as [|y set IH]; cbn [string_set_insert].
  - rewrite list_elem_of_singleton, elem_of_nil. tauto.
  - destruct (decide (y = s)) as [->|Hne].
    + rewrite elem_of_cons. tauto.
    + destruct (String.ltb s y).
      * by rewrite elem_of_cons.
      * rewrite !elem_of_cons, IH. tauto.
Qed.

Lemma string_set_insert_sorted (s : string) (set : list string) :
  StronglySorted (fun a b => String.ltb a b = true) set ->
  StronglySorted (fun a b => String.ltb a b = true) (string_set_insert s set).
Proof.
  induction 1 as [|y set Hsorted IH Hy]; cbn [string_set_insert].
  - by repeat constructor.
  - destruct (decide (y = s)) as [->|Hne]; [by constructor|].
    destruct (String.ltb s y) eqn:Hlt.
    + constructor; [by constructor|]. constructor; [done|].
      eapply Forall_impl; [exact Hy|]. intros z Hz. by eapply String_ltb_trans.
    + constructor; [done|]. apply Forall_forall. intros z Hz.
      apply elem_of_string_set_insert in Hz as [->|Hz].
      * by apply String_ltb_total.
      * rewrite Forall_forall in Hy. by apply Hy.
Qed.

Lemma string_set_sorted_NoDup (set : list string) :
  StronglySorted (fun a b => String.ltb a b = true) set -> NoDup set.
Proof.
  induction 1 as [|y set Hsorted IH Hy]; constructor; [|done].
  intros Hin. rewrite Forall_forall in Hy. specialize (Hy y Hin).
  by rewrite String_ltb_irrefl in Hy.
Qed.

Lemma create_hw_latency_meter_from_outcome (layers : list LayerInfo)
    (d2h_names : list string) (h2d_streams_count : Z) :
  match create_hw_latency_meter_from layers d2h_names h2d_streams_count with
  | Value meter =>
    (forall s, s ∈ d2h_channel_names meter
               <-> s ∈ d2h_names
                   \/ exists layer, layer ∈ layers /\ direction layer = HAILO_D2H_STREAM
                                    /\ name layer = s)
    /\ (StronglySorted (fun a b => String.ltb a b = true) d2h_names ->
        StronglySorted (fun a b => String.ltb a b = true) (d2h_channel_names meter))
    /\ timestamps_list_length meter = MAX_IRQ_TIMESTAMPS_SIZE
    /\ Forall (fun layer => direction layer = HAILO_D2H_STREAM ->
                            format_order layer <> HAILO_FORMAT_ORDER_HAILO_NMS) layers
    /\ h2d_streams_count
       + Z.of_nat (length (filter (fun layer => direction layer <> HAILO_D2H_STREAM) layers))
       <= 1
  | Unexpected status =>
    status = HAILO_INVALID_OPERATION
    /\ (Exists (fun layer => direction layer = HAILO_D2H_STREAM
                             /\ format_order layer = HAILO_FORMAT_ORDER_HAILO_NMS) layers
        \/ 1 < h2d_streams_count
               + Z.of_nat (length (filter (fun layer => direction layer <> HAILO_D2H_STREAM)
                                     layers)))
  end.
Proof.
  revert d2h_names h2d_streams_count.
  induction layers as [|layer layers IH]; intros d2h_names h2d_streams_count;
    cbn [create_hw_latency_meter_from].
  - rewrite filter_nil. cbn [length]. case_bool_decide.
    + split; [done|]. right. lia.
    + cbn [d2h_channel_names timestamps_list_length].
      split; [|split; [done|split; [done|split; [constructor|lia]]]].
      intros s. split; [by left|]. intros [?|(layer & Hin & _)]; [done|].
      by apply elem_of_nil in Hin.
  - destruct (decide (direction layer = HAILO_D2H_STREAM)) as [Hd2h|Hh2d].
    + rewrite filter_cons_False by (by intros ?).
      destruct (decide (HAILO_FORMAT_ORDER_HAILO_NMS = format_order layer)) as [Hnms|Hnms].
      { split; [done|]. left. by apply Exists_cons_hd. }
      specialize (IH (string_set_insert (name layer) d2h_names) h2d_streams_count).
      destruct (create_hw_latency_meter_from layers _ _) as [meter|status].
      * destruct IH as (Hnames & Hsorted & Hlength & Hformats & Hcount).
        split; [|split; [|split; [done|split; [|done]]]].
        -- intros s. rewrite Hnames, elem_of_string_set_insert. split.
           ++ intros [[->|Hs]|(l & Hl & Hdir & Hname)]; [right|by left|right].
              ** exists layer. split; [left|done].
              ** exists l. split; [by right|done].
           ++ intros [Hs|(l & Hl & Hdir & Hname)]; [left; by right|].
              apply elem_of_cons in Hl as [->|Hl]; [left; by left|].
              right. by exists l.
        -- intros Hstart. by apply Hsorted, string_set_insert_sorted.
        -- constructor; [|done]. intros _ Heq. by rewrite Heq in Hnms.
      * destruct IH as (Hstatus & [Hexists|Hcount]); (split; [done|]).
        -- left. by apply Exists_cons_tl.
        -- by right.
    + rewrite filter_cons_True by done. cbn [length].
      specialize (IH d2h_names (h2d_streams_count + 1)).
      destruct (create_hw_latency_meter_from layers _ _) as [meter|status].
      * destruct IH as (Hnames & Hsorted & Hlength & Hformats & Hcount).
        split; [|split; [done|split; [done|split; [|lia]]]].
        -- intros s. rewrite Hnames. split.
           ++ intros [Hs|(l & Hl & Hdir & Hname)]; [by left|right].
              exists l. split; [by right|done].
           ++ intros [Hs|(l & Hl & Hdir & Hname)]; [by left|].
              apply elem_of_cons in Hl as [->|Hl]; [done|].
              right. by exists l.
        -- by constructor.
      * destruct IH as (Hstatus & [Hexists|Hcount]); (split; [done|]).
        -- left. by apply Exists_cons_tl.
        -- right. lia.
Qed.

(** X20: [create_hw_latency_meter] in every case. It gives a meter exactly
    when no device-to-host layer has the NMS format order and at most one
    layer is not device-to-host; the meter then watches the names of the
    device-to-host layers, each once, and keeps [MAX_IRQ_TIMESTAMPS_SIZE]
    timestamps. Otherwise it answers [HAILO_INVALID_OPERATION]. *)
Theorem create_hw_latency_meter_outcome (layers : list LayerInfo) :
  match create_hw_latency_meter layers with
  | Value meter =>
    (forall s, s ∈ d2h_channel_names meter
               <-> exists layer, layer ∈ layers /\ direction layer = HAILO_D2H_STREAM
                                 /\ name layer = s)
    /\ NoDup (d2h_channel_names meter)
    /\ timestamps_list_length meter = MAX_IRQ_TIMESTAMPS_SIZE
    /\ Forall (fun layer => direction layer = HAILO_D2H_STREAM ->
                            format_order layer <> HAILO_FORMAT_ORDER_HAILO_NMS) layers
    /\ (length (filter (fun layer => direction layer <> HAILO_D2H_STREAM) layers) <= 1)%nat
  | Unexpected status =>
    status = HAILO_INVALID_OPERATION
    /\ (Exists (fun layer => direction layer = HAILO_D2H_STREAM
                             /\ format_order layer = HAILO_FORMAT_ORDER_HAILO_NMS) layers
        \/ (1 < length (filter (fun layer => direction layer <> HAILO_D2H_STREAM) layers))%nat)
  end.
Proof.
  unfold create_hw_latency_meter.
  pose proof (create_hw_latency_meter_from_outcome layers [] 0) as Houtcome.
  destruct (create_hw_latency_meter_from layers [] 0) as [meter|status].
  - destruct Houtcome as (Hnames & Hsorted & Hlength & Hformats & Hcount).
    split; [|split; [|split; [done|split; [done|lia]]]].
    + intros s. rewrite Hnames, elem_of_nil. tauto.
    + apply string_set_sorted_NoDup, Hsorted. constructor.
  - destruct Houtcome as (Hstatus & [Hexists|Hcount]); (split; [done|]);
      [by left|right; lia].
Qed.


Lemma create_latency_meters_for_outcome (metadata : CoreOpMetadata)
    (networks_names : list string) (latency_meters_map : gmap string LatencyMeter) :
  match create_latency_meters_for metadata networks_names latency_meters_map with
  | Value meters =>
    Forall (fun network =>
              exists layers, get_all_layer_infos_of metadata network = Value layers)
      networks_names
    /\ forall network meter,
         meters !! network = Some meter
         <-> latency_meters_map !! network = Some meter
             \/ (latency_meters_map !! network = None
                 /\ network ∈ networks_names
                 /\ exists layers,
                      get_all_layer_infos_of metadata network = Value layers
                      /\ create_hw_latency_meter layers = Value meter)
  | Unexpected status =>
    exists network,
      network ∈ networks_names
      /\ get_all_layer_infos_of metadata network = Unexpected status
  end.
Proof.
  revert latency_meters_map.
  induction networks_names as [|first rest IH]; intros latency_meters_map;
    cbn [create_latency_meters_for].
  - split; [constructor|]. intros network meter. split; [by left|].
    intros [?|(_ & Hin & _)]; [done|]. by apply elem_of_nil in Hin.
  - destruct (get_all_layer_infos_of metadata first) as [layers|status] eqn:Hlayers;
      [|exists first; split; [left|done]].
    assert (Hlater : forall network,
              (exists network', network' ∈ rest
                 /\ get_all_layer_infos_of metadata network' = Unexpected network) ->
              exists network', network' ∈ first :: rest
                 /\ get_all_layer_infos_of metadata network' = Unexpected network).
    { intros status (network & Hin & Hfail). exists network. split; [by right|done]. }
    destruct (create_hw_latency_meter layers) as [built|failure] eqn:Hbuilt.
    + match goal with |- context [create_latency_meters_for metadata rest ?m] =>
        specialize (IH m) end.
      destruct (create_latency_meters_for metadata rest _) as [meters|status];
        [|by apply Hlater].
      destruct IH as [Hall Hmeters]. split; [constructor; [by exists layers|done]|].
      intros network meter. rewrite Hmeters. clear Hmeters.
      destruct (decide (network = first)) as [->|Hne].
      * destruct (latency_meters_map !! first) as [old|] eqn:Hold.
        -- rewrite Hold. split; [intros [?|(? & _)]; [by left|done]|].
           intros [?|(? & _)]; [by left|done].
        -- rewrite lookup_insert_eq. split.
           ++ intros [[= <-]|(? & _)]; [|done]. right. split; [done|].
              split; [left|]. by exists layers.
           ++ intros [?|(_ & _ & layers' & Hlayers' & Hbuilt')]; [done|].
              left. congruence.
      * assert (Hsame : (match latency_meters_map !! first with
                         | Some _ => latency_meters_map
                         | None => <[first := built]> latency_meters_map
                         end) !! network = latency_meters_map !! network).
        { destruct (latency_meters_map !! first); [done|]. by apply lookup_insert_ne. }
        rewrite Hsame. split.
        -- intros [?|(? & Hin & ?)]; [by left|]. right. split; [done|].
           split; [by right|done].
        -- intros [?|(? & Hin & ?)]; [by left|]. right. split; [done|].
           apply elem_of_cons in Hin as [?|Hin]; [done|]. by split.
    + specialize (IH latency_meters_map).
      destruct (create_latency_meters_for metadata rest _) as [meters|status];
        [|by apply Hlater].
      destruct IH as [Hall Hmeters]. split; [constructor; [by exists layers|done]|].
      intros network meter. rewrite Hmeters. clear Hmeters. split.
      * intros [?|(? & Hin & ?)]; [by left|]. right. split; [done|].
        split; [by right|done].
      * intros [?|(? & Hin & layers' & Hlayers' & Hbuilt')]; [by left|]. right.
        split; [done|].
        apply elem_of_cons in Hin as [->|Hin]; [congruence|].
        split; [done|]. by exists layers'.
Qed.

(** X21: [create_latency_meters_from_config_params] in every case. The map
    it gives holds a meter for a network exactly when latency measurement is
    asked for in the configuration, the network is one of the networks of
    the core-op, and a meter can be built from the layers of the network: a
    network that admits no meter is left out without failing the creation.
    The creation fails only when measurement is asked for and the layers of
    one of the networks cannot be read, and then with the status of that
    reading. *)
Theorem create_latency_meters_from_config_params_outcome
    (config_params : ConfigureNetworkParams) (metadata : CoreOpMetadata) :
  match create_latency_meters_from_config_params config_params metadata with
  | Value meters =>
    (Z.land (latency config_params) HAILO_LATENCY_MEASURE <> HAILO_LATENCY_MEASURE
     \/ Forall (fun network =>
                  exists layers, get_all_layer_infos_of metadata network = Value layers)
          (get_network_names metadata))
    /\ forall network meter,
         meters !! network = Some meter
         <-> Z.land (latency config_params) HAILO_LATENCY_MEASURE = HAILO_LATENCY_MEASURE
             /\ network ∈ get_network_names metadata
             /\ exists layers,
                  get_all_layer_infos_of metadata network = Value layers
                  /\ create_hw_latency_meter layers = Value meter
  | Unexpected status =>
    Z.land (latency config_params) HAILO_LATENCY_MEASURE = HAILO_LATENCY_MEASURE
    /\ exists network,
         network ∈ get_network_names metadata
         /\ get_all_layer_infos_of metadata network = Unexpected status
  end.
Proof.
  unfold create_latency_meters_from_config_params.
  destruct (decide (_ = _)) as [Hasked|Hasked].
  - pose proof (create_latency_meters_for_outcome metadata (get_network_names metadata) ∅)
      as Houtcome.
    destruct (create_latency_meters_for metadata _ ∅) as [meters|status]; [|done].
    destruct Houtcome as [Hall Hmeters]. split; [by right|].
    intros network meter. rewrite Hmeters, lookup_empty. split.
    + intros [?|(_ & ? & ?)]; done.
    + intros (_ & ? & ?). by right.
  - split; [by left|]. intros network meter. rewrite lookup_empty.
    split; [done|]. by intros [? _].
Qed.


(** ** Creation of the manager *)

Lemma allocate_in_order_length (allocator allocator' : ChannelAllocator)
    (requests : list (LayerIdentifier * DmaDirection * Z)) (ids : list ChannelId) :
  allocate_in_order allocator requests = (Value ids, allocator') ->
  length ids = length requests.
Proof.
  revert allocator ids. induction requests as [|[[identifier dir] engine] rest IH];
    intros allocator ids; cbn [allocate_in_order].
  - by intros [= <- _].
  - destruct (allocate_channel_id allocator identifier dir engine) as [[id|status] a];
      [|done].
    destruct (allocate_in_order a rest) as [[rest_ids|status] a'] eqn:Hrest; [|done].
    intros [= <- <-]. cbn [length]. f_equal. by eapply IH.
Qed.

(** With at most 255 config channels the [uint8_t] index does not wrap
    around, and the loop asks for one channel per config channel. *)
Lemma allocate_config_channels_in_order (fuel : nat)
    (config_channels_info : list ConfigChannelInfo) (allocator : ChannelAllocator)
    (k : nat) (ids : list ChannelId) :
  (length config_channels_info <= 255)%nat ->
  (k <= length config_channels_info)%nat ->
  (length config_channels_info - k < fuel)%nat ->
  allocate_config_channels fuel config_channels_info allocator (Z.of_nat k) ids
  = Done (match allocate_in_order allocator
                  (imap (fun j info =>
                           ((CFG, "", Z.of_nat (k + j)), H2D, config_engine_index info))
                     (drop k config_channels_info)) with
          | (Value new, allocator') => (Value (ids ++ new), allocator')
          | (Unexpected status, allocator') => (Unexpected status, allocator')
          end).
Proof.
  intros Hsmall. revert allocator k ids.
  induction fuel as [|fuel IH]; intros allocator k ids Hk Hfuel; [lia|].
  cbn [allocate_config_channels]. case_bool_decide as Hin.
  - destruct (lookup_lt_is_Some_2 config_channels_info k) as [info Hinfo]; [lia|].
    rewrite Nat2Z.id, Hinfo, (drop_S _ _ _ Hinfo), imap_cons.
    cbn [allocate_in_order]. rewrite Nat.add_0_r.
    destruct (allocate_channel_id allocator _ H2D _) as [[id|status] a]; [|done].
    replace (wrap8 (Z.of_nat k + 1)) with (Z.of_nat (S k))
      by (unfold wrap8; rewrite Z.mod_small; lia).
    rewrite IH by lia.
    rewrite (imap_ext
               ((fun j info => ((CFG, "", Z.of_nat (k + j)), H2D, config_engine_index info))
                ∘ S)
               (fun j info => ((CFG, "", Z.of_nat (S k + j)), H2D, config_engine_index info)))
      by (intros j entry _; cbn; do 3 f_equal; lia).
    destruct (allocate_in_order a _) as [[new|status] a']; [|done].
    by rewrite <- app_assoc.
  - rewrite drop_ge by lia. cbn [imap allocate_in_order]. by rewrite app_nil_r.
Qed.

(** X22: with at most 255 config channels, [ResourcesManager::create]
    returns. The manager it gives holds one channel id for each config
    channel of the metadata, allocated in order from a new allocator for the
    [k]-th config channel as layer [(CFG, "", k)], host to device, on the
    engine that the metadata names; it holds the network names and the
    latency meters of the metadata, no context, no boundary channel and no
    inter-context buffer, its counters are consistent and it is not
    configured. It fails only with the status of a refused allocation or of
    the creation of the latency meters. *)
Theorem ResourcesManager_create_fresh (fuel : nat) (driver : Driver)
    (config_params : ConfigureNetworkParams) (metadata : CoreOpMetadata)
    (config_channels_info : list ConfigChannelInfo) (core_op_index : Z) :
  (length config_channels_info <= 255)%nat ->
  (length config_channels_info < fuel)%nat ->
  exists result,
    ResourcesManager_create fuel driver config_params metadata config_channels_info
      core_op_index = Done result
    /\ match result with
       | Value rm =>
         allocate_in_order (ChannelAllocator_new (dma_engines_count driver))
           (config_channel_requests config_channels_info)
         = (Value (m_config_channels_ids rm), m_channel_allocator rm)
         /\ length (m_config_channels_ids rm) = length config_channels_info
         /\ create_latency_meters_from_config_params config_params metadata
            = Value (m_latency_meters rm)
         /\ m_network_index_map rm = get_network_names metadata
         /\ m_driver rm = driver
         /\ m_config_params rm = config_params
         /\ m_core_op_metadata rm = metadata
         /\ m_core_op_index rm = core_op_index
         /\ m_contexts_resources rm = []
         /\ m_boundary_channels rm = []
         /\ m_inter_context_buffers rm = ∅
         /\ m_is_configured rm = false
         /\ counters_consistent rm
       | Unexpected status =>
         (exists allocator,
            allocate_in_order (ChannelAllocator_new (dma_engines_count driver))
              (config_channel_requests config_channels_info)
            = (Unexpected status, allocator))
         \/ create_latency_meters_from_config_params config_params metadata
            = Unexpected status
       end.
Proof.
  intros Hsmall Hfuel. unfold ResourcesManager_create.
  rewrite (allocate_config_channels_in_order fuel config_channels_info _ 0 []) by lia.
  rewrite drop_0. cbn [app]. fold (config_channel_requests config_channels_info).
  destruct (allocate_in_order _ _) as [[ids|status] allocator] eqn:Hids;
    [|eexists; split; [done|]; left; by eexists].
  destruct (create_latency_meters_from_config_params config_params metadata)
    as [meters|status] eqn:Hmeters; [|eexists; split; [done|]; by right].
  eexists. split; [done|]. unfold ResourcesManager_new.
  cbn [m_config_channels_ids m_channel_allocator m_latency_meters m_network_index_map
       m_driver m_config_params m_core_op_metadata m_core_op_index m_contexts_resources
       m_boundary_channels m_inter_context_buffers m_is_configured].
  split; [done|]. split.
  { rewrite (allocate_in_order_length _ _ _ _ Hids).
    unfold config_channel_requests. by rewrite length_imap. }
  do 10 (split; [done|]).
  unfold counters_consistent.
  cbn [m_total_context_count m_dynamic_context_count m_contexts_resources].
  rewrite filter_nil. cbn [length]. unfold UINT8_MAX. lia.
Qed.

(** ** Cancellation of pending transfers *)

Lemma cancel_pending_async_transfer_cancelled (events : list cancel_event)
    (boundary_channel : ChannelId * BoundaryChannel) :
  cancelled (cancel_pending_async_transfer events boundary_channel)
  = cancelled events
    ++ (if decide (channel_type boundary_channel.2 = ASYNC) then [boundary_channel.1]
        else []).
Proof.
  unfold cancel_pending_async_transfer, cancelled.
  destruct (channel_type boundary_channel.2).
  - rewrite decide_False by done. by rewrite app_nil_r.
  - rewrite decide_True by done.
    destruct (bool_decide _); by rewrite !omap_app; cbn; rewrite ?app_nil_r.
Qed.

(** X23: [cancel_pending_async_transfers] always succeeds, and whatever the
    cancellations answer, it asks every asynchronous boundary channel, once
    and in the order of the channel ids, to cancel its pending transfers,
    and asks no other channel. *)
Theorem cancel_pending_async_transfers_best_effort (rm : ResourcesManager)
    (events : list cancel_event) :
  (cancel_pending_async_transfers rm events).1 = HAILO_SUCCESS
  /\ cancelled (cancel_pending_async_transfers rm events).2
     = cancelled events
       ++ (filter (fun boundary_channel => channel_type boundary_channel.2 = ASYNC)
             (m_boundary_channels rm)).*1.
Proof.
  unfold cancel_pending_async_transfers. cbn [fst snd]. split; [done|].
  generalize (m_boundary_channels rm). intros channels. revert events.
  induction channels as [|channel channels IH]; intros events.
  - cbn [foldl]. by rewrite filter_nil, fmap_nil, app_nil_r.
  - cbn [foldl]. rewrite IH, cancel_pending_async_transfer_cancelled, filter_cons.
    destruct (decide (channel_type channel.2 = ASYNC)).
    + by rewrite fmap_cons, <- app_assoc.
    + by rewrite app_nil_r.
Qed.


(** ** The interrupts dispatcher *)

Lemma set_channel_bit_bits (bitmap : list Z) (id : ChannelId) :
  in_channels_bitmap id ->
  length bitmap = Z.to_nat MAX_VDMA_ENGINES_COUNT ->
  exists bitmap',
    set_channel_bit bitmap id = Done bitmap'
    /\ length bitmap' = length bitmap
    /\ forall e word',
         bitmap' !! e = Some word' ->
         exists word,
           bitmap !! e = Some word
           /\ forall c, 0 <= c ->
                Z.testbit word' c = true
                <-> Z.testbit word c = true \/ mkChannelId (Z.of_nat e) c = id.
Proof.
  intros [Hengine Hchannel] Hlength. unfold set_channel_bit.
  rewrite andb_true_intro by (split; apply bool_decide_eq_true_2; lia).
  destruct (lookup_lt_is_Some_2 bitmap (Z.to_nat (engine_index id))) as [old Hold]; [lia|].
  rewrite Hold. eexists. split; [done|]. split; [by rewrite length_insert|].
  intros e word' Hword'.
  destruct (decide (e = Z.to_nat (engine_index id))) as [->|Hother].
  - rewrite list_lookup_insert_eq in Hword' by (by eapply lookup_lt_Some).
    injection Hword' as <-. exists old. split; [done|]. intros c Hc.
    rewrite Z.lor_spec, Z.shiftl_1_l, Z.pow2_bits_eqb, orb_true_iff, Z.eqb_eq by lia.
    rewrite Z2Nat.id by lia. destruct id as [engine channel]. cbn [channel_index engine_index].
    split; (intros [?|?]; [by left|right; congruence]).
  - rewrite list_lookup_insert_ne in Hword' by done.
    exists word'. split; [done|]. intros c Hc. split; [by left|].
    intros [?|<-]; [done|]. cbn [engine_index] in Hother. lia.
Qed.

Lemma channels_bitmap_of_bits (channels : list (ChannelId * BoundaryChannel))
    (bitmap : list Z) :
  Forall (fun boundary_channel => in_channels_bitmap boundary_channel.1) channels ->
  length bitmap = Z.to_nat MAX_VDMA_ENGINES_COUNT ->
  exists bitmap',
    channels_bitmap_of channels bitmap = Done bitmap'
    /\ length bitmap' = length bitmap
    /\ forall e word',
         bitmap' !! e = Some word' ->
         exists word,
           bitmap !! e = Some word
           /\ forall c, 0 <= c ->
                Z.testbit word' c = true
                <-> Z.testbit word c = true \/ mkChannelId (Z.of_nat e) c ∈ channels.*1.
Proof.
  intros Hchannels. revert bitmap.
  induction Hchannels as [|channel channels Hchannel _ IH]; intros bitmap Hlength.
  - exists bitmap. split; [done|]. split; [done|]. intros e word' Hword'.
    exists word'. split; [done|]. intros c _. rewrite fmap_nil, elem_of_nil. tauto.
  - cbn [channels_bitmap_of].
    destruct (set_channel_bit_bits bitmap channel.1 Hchannel Hlength)
      as (bitmap1 & -> & Hlength1 & Hbits1).
    destruct (IH bitmap1) as (bitmap' & -> & Hlength' & Hbits'); [congruence|].
    exists bitmap'. split; [done|]. split; [congruence|].
    intros e word' Hword'.
    destruct (Hbits' e word' Hword') as (word1 & Hword1 & Hrest).
    destruct (Hbits1 e word1 Hword1) as (word & Hword & Hfirst).
    exists word. split; [done|]. intros c Hc.
    rewrite (Hrest c Hc), (Hfirst c Hc), fmap_cons, elem_of_cons. tauto.
Qed.

(** X24: what [start_vdma_interrupts_dispatcher] asks of the dispatcher, the
    ids of the boundary channels having a bit in the bitmap. Without a
    dispatcher it returns the status of the lookup and starts nothing. With
    one, it starts the dispatcher once and returns the status of the start;
    the bitmap has one word per engine, in which bit [c] of the word of
    engine [e] is set exactly when channel [c] of engine [e] is a boundary
    channel of the manager, and timestamps are measured exactly when the
    manager has a latency meter. *)
Theorem start_vdma_interrupts_dispatcher_bitmap (rm : ResourcesManager)
    (started : list dispatcher_start) :
  Forall (fun boundary_channel => in_channels_bitmap boundary_channel.1)
    (m_boundary_channels rm) ->
  (forall error,
     get_vdma_interrupts_dispatcher = HAILO_ERROR error ->
     start_vdma_interrupts_dispatcher rm started = Done (HAILO_ERROR error, started))
  /\ (get_vdma_interrupts_dispatcher = HAILO_SUCCESS ->
      exists call,
        start_vdma_interrupts_dispatcher rm started
        = Done (dispatcher_start_status call, started ++ [call])
        /\ length (channels_bitmap call) = Z.to_nat MAX_VDMA_ENGINES_COUNT
        /\ (forall e c word,
              channels_bitmap call !! e = Some word -> 0 <= c ->
              Z.testbit word c = true
              <-> mkChannelId (Z.of_nat e) c ∈ (m_boundary_channels rm).*1)
        /\ (enable_timestamp_measure call = true <-> m_latency_meters rm <> ∅)).
Proof.
  intros Hchannels. unfold start_vdma_interrupts_dispatcher. split.
  - by intros error ->.
  - intros ->.
    destruct (channels_bitmap_of_bits (m_boundary_channels rm)
                (replicate (Z.to_nat MAX_VDMA_ENGINES_COUNT) 0) Hchannels)
      as (bitmap & -> & Hlength & Hbits); [by rewrite length_replicate|].
    eexists. split; [done|]. cbn [channels_bitmap enable_timestamp_measure].
    split; [by rewrite Hlength, length_replicate|]. split.
    + intros e c word Hword Hc.
      destruct (Hbits e word Hword) as (zero & Hzero & ->); [|done].
      apply lookup_replicate in Hzero as [-> _]. rewrite Z.bits_0.
      split; [by intros [?|?]|by right].
    + rewrite negb_true_iff, bool_decide_eq_false. done.
Qed.


(** ** DDR channel pairs *)

Lemma get_ddr_channels_pair_app (pairs later : list DdrChannelsPair) (index : Z) :
  get_ddr_channels_pair (pairs ++ later) index
  = match get_ddr_channels_pair pairs index with
    | Value found => Value found
    | Unexpected _ => get_ddr_channels_pair later index
    end.
Proof.
  induction pairs as [|first pairs IH]; [done|].
  cbn [app get_ddr_channels_pair]. by destruct (decide _).
Qed.

(** X25: the DDR channel pairs of a context. [get_ddr_channels_pair] returns
    a pair of the context whose description has the given device-to-host
    stream index, and fails, with [HAILO_INTERNAL_FAILURE], exactly when the
    context has none. A successful [create_ddr_channels_pair] adds the pair
    made from the description after the existing ones, and the pair is
    afterwards the one found under its stream index unless an earlier pair
    has the same index, which is then still the one found; a failed creation
    changes nothing. *)
Theorem create_ddr_channels_pair_then_get (driver : Driver)
    (pairs pairs' : list DdrChannelsPair) (ddr_info : DdrChannelsInfo)
    (result : Expected DdrChannelsPair) :
  create_ddr_channels_pair driver pairs ddr_info = (result, pairs') ->
  match result with
  | Value created =>
    pairs' = pairs ++ [created]
    /\ info created = ddr_info
    /\ forall index,
         get_ddr_channels_pair pairs' index
         = match get_ddr_channels_pair pairs index with
           | Value found => Value found
           | Unexpected _ =>
             if decide (d2h_stream_index ddr_info = index) then Value created
             else Unexpected HAILO_INTERNAL_FAILURE
           end
  | Unexpected status =>
    pairs' = pairs /\ DdrChannelsPair_create_status driver ddr_info = HAILO_ERROR status
  end
  /\ (forall index found,
        get_ddr_channels_pair pairs index = Value found ->
        found ∈ pairs /\ d2h_stream_index (info found) = index)
  /\ (forall index status,
        get_ddr_channels_pair pairs index = Unexpected status <->
        status = HAILO_INTERNAL_FAILURE
        /\ Forall (fun other => d2h_stream_index (info other) <> index) pairs).
Proof.
  intros Hcreate. split; [|split].
  - unfold create_ddr_channels_pair, DdrChannelsPair_create in Hcreate.
    destruct (DdrChannelsPair_create_status driver ddr_info) as [|status];
      injection Hcreate as <- <-; [|done].
    split; [done|]. split; [done|]. intros index.
    rewrite get_ddr_channels_pair_app. cbn [get_ddr_channels_pair info].
    destruct (get_ddr_channels_pair pairs index); [done|].
    by destruct (decide _).
  - intros index found. clear Hcreate.
    induction pairs as [|first pairs IH]; cbn [get_ddr_channels_pair]; [done|].
    destruct (decide _) as [Hindex|_].
    + intros [= <-]. split; [left|done].
    + intros Hfound. destruct (IH Hfound). split; [by right|done].
  - intros index status. clear Hcreate.
    induction pairs as [|first pairs IH]; cbn [get_ddr_channels_pair].
    + split; [by intros [= <-]|by intros [-> _]].
    + destruct (decide _) as [Hindex|Hindex].
      * split; [done|]. intros [_ Hnone]. by apply Forall_cons in Hnone as [? _].
      * rewrite IH. split.
        -- intros [-> Hnone]. split; [done|]. by constructor.
        -- intros [-> Hnone]. split; [done|]. by apply Forall_cons in Hnone as [_ ?].
Qed.

End FurtherProperties.

(** * Worked examples *)

(** Unless said otherwise, the examples run on [pcie_platform]. *)
#[local] Existing Instance pcie_platform.

(** Edge-layer validation on two layers with the same channel id, and on
    layers with distinct ones. *)
Example validate_edge_layers_example :
  validate_edge_layers
    (mkContextResources 3 [] []
       [mkEdgeLayer (example_layer "in0" HAILO_H2D_STREAM 0) (mkChannelId 0 1) 0;
        mkEdgeLayer (example_layer "out0" HAILO_D2H_STREAM 1) (mkChannelId 0 2) 0;
        mkEdgeLayer (example_layer "out1" HAILO_D2H_STREAM 2) (mkChannelId 0 1) 0])
  = HAILO_INTERNAL_FAILURE
  /\ validate_edge_layers
       (mkContextResources 3 [] []
          [mkEdgeLayer (example_layer "in0" HAILO_H2D_STREAM 0) (mkChannelId 0 1) 0;
           mkEdgeLayer (example_layer "out0" HAILO_D2H_STREAM 1) (mkChannelId 1 1) 0])
     = HAILO_SUCCESS.
Proof. split; vm_compute; reflexivity. Qed.

(** C1, on [example_manager]: the header, then the two contexts in order;
    the second call fails and changes nothing. *)
Lemma configure_once_example :
  let rm' := with_is_configured true example_manager in
  let device' :=
    [context_switch_set_network_group_header example_header;
     context_switch_set_context_info [[1; 2]; [3]];
     context_switch_set_context_info [[4]]] in
  configure 4 example_manager [] = Done (HAILO_SUCCESS, rm', device')
  /\ forall fuel', configure fuel' rm' device'
                   = Done (HAILO_ERROR HAILO_INTERNAL_FAILURE, rm', device').
Proof.
  apply (configure_once 4 example_manager [] example_header).
  - reflexivity.
  - vm_compute. reflexivity.
  - simpl. repeat split.
Defined.

(** C2, the example of the specification: the table [a; b; c] and the batch
    sizes [{a: 4; c: 2}] give the array [4; 0; 2; 0; ...]; a configured name
    missing from the table gives [HAILO_NOT_FOUND]. *)
Lemma fill_network_batch_size_example :
  (exists app_header',
     fill_network_batch_size 4 example_manager zero_application_header
     = Done (HAILO_SUCCESS, app_header')
     /\ batch_size app_header' = [4; 0; 2; 0; 0; 0; 0; 0]
     /\ networks_count app_header' = 2)
  /\ (exists app_header',
        fill_network_batch_size 4
          (example_manager_with pcie_platform 4%nat
             [("a", mkNetworkParameters 4); ("d", mkNetworkParameters 2)] ["a"; "b"; "c"])
          zero_application_header
        = Done (HAILO_ERROR HAILO_NOT_FOUND, app_header')).
Proof.
  split.
  - destruct (fill_network_batch_size_by_table_index 4 example_manager
                zero_application_header) as [Hfound _]; [vm_compute; lia..|].
    destruct Hfound as (app_header' & Hrun & _).
    { repeat constructor. }
    exists app_header'. split; [exact Hrun|].
    vm_compute in Hrun. injection Hrun as <-. split; reflexivity.
  - apply (fill_network_batch_size_by_table_index 4); [vm_compute; lia..|].
    apply Exists_cons_tl, Exists_cons_hd. vm_compute.
    intros Hin. repeat (apply elem_of_cons in Hin as [Hin|Hin]; [discriminate Hin|]).
    by apply elem_of_nil in Hin.
Defined.

(** C4, the example of the specification: capacities 10, 7 and 12 give the
    batch count 7. *)
Lemma calc_hw_infer_batch_count_example :
  calc_hw_infer_batch_count example_manager 1 = Value 7
  /\ exists batch_count,
       calc_hw_infer_batch_count example_manager 1 = Value batch_count
       /\ batch_count ∈ [10; 7; 12]
       /\ Forall (fun c => batch_count <= c) [10; 7; 12].
Proof.
  split; [vm_compute; reflexivity|].
  apply (calc_hw_infer_batch_count_minimum example_manager 1 [10; 7; 12]).
  - repeat constructor.
  - apply Exists_cons_hd. vm_compute. discriminate.
Defined.

(** C5, on a batch with faulty records and failing triggers: the two valid
    records are completed, once each and in order. *)
Lemma process_interrupts_example :
  process_interrupts example_irq_manager example_irq_data []
  = Done [log_no_such_boundary_channel (mkChannelId 0 9);
          trigger_channel_completion (mkChannelId 0 2) 5;
          log_trigger_failed (mkChannelId 0 2) HAILO_INTERNAL_FAILURE;
          log_channel_error (mkChannelId 0 1) 1 0;
          log_aborted_by_external_source (mkChannelId 0 1);
          trigger_channel_completion (mkChannelId 0 3) 6;
          log_trigger_failed (mkChannelId 0 3) HAILO_INTERNAL_FAILURE]
  /\ exists events',
       process_interrupts example_irq_manager example_irq_data [] = Done events'
       /\ completions events' = [(mkChannelId 0 2, 5); (mkChannelId 0 3, 6)]
       /\ skips events' = [mkChannelId 0 9; mkChannelId 0 1; mkChannelId 0 1].
Proof.
  split; [vm_compute; reflexivity|].
  apply (process_interrupts_routes_each_record example_irq_manager example_irq_data []).
  vm_compute. discriminate.
Defined.

(** C6, as the specification states it, fails: the status is
    [HAILO_INTERNAL_FAILURE], not [HAILO_INVALID_ARGUMENT]. *)
Lemma add_new_context_excess_is_not_invalid_argument :
  (length (m_config_channels_ids example_manager) < size example_config_info)%nat
  /\ add_new_context 1 example_manager 2 example_config_info
     = Done (Unexpected HAILO_INTERNAL_FAILURE, example_manager)
  /\ add_new_context 1 example_manager 2 example_config_info
     <> Done (Unexpected HAILO_INVALID_ARGUMENT, example_manager).
Proof.
  split; [vm_compute; lia|].
  assert (Hrun : add_new_context 1 example_manager 2 example_config_info
                 = Done (Unexpected HAILO_INTERNAL_FAILURE, example_manager))
    by (vm_compute; reflexivity).
  split; [exact Hrun|]. rewrite Hrun. discriminate.
Qed.

(** C6, on the same request. *)
Lemma add_new_context_excess_example :
  (length (m_config_channels_ids example_manager) < size example_config_info)%nat
  /\ add_new_context 1 example_manager 2 example_config_info
     = Done (Unexpected HAILO_INTERNAL_FAILURE, example_manager).
Proof.
  assert (Hexcess : (length (m_config_channels_ids example_manager)
                     < size example_config_info)%nat) by (vm_compute; lia).
  split; [exact Hexcess|].
  exact (add_new_context_excess_config_buffers 1 example_manager 2 example_config_info
           Hexcess).
Defined.

(** C7, for three batches of two one-descriptor transfers: six descriptors,
    every second one raising a device interrupt, three interrupts in all. *)
Lemma program_desc_for_hw_only_flow_example :
  program_desc_for_hw_only_flow (mkDescriptorList 11 512 []) 512 2 3
  = (Value 6,
     mkDescriptorList 11 512
       [example_call NONE 0; example_call DEVICE 1; example_call NONE 2;
        example_call DEVICE 3; example_call NONE 4; example_call DEVICE 5])
  /\ exists calls,
       calls = [example_call NONE 0; example_call DEVICE 1; example_call NONE 2;
                example_call DEVICE 3; example_call NONE 4; example_call DEVICE 5]
       /\ length calls = 6%nat
       /\ device_interrupts calls = 3%nat.
Proof.
  assert (Hrun : program_desc_for_hw_only_flow (mkDescriptorList 11 512 []) 512 2 3
                 = (Value 6,
                    mkDescriptorList 11 512
                      [example_call NONE 0; example_call DEVICE 1; example_call NONE 2;
                       example_call DEVICE 3; example_call NONE 4; example_call DEVICE 5]))
    by (vm_compute; reflexivity).
  split; [exact Hrun|].
  destruct (program_desc_for_hw_only_flow_interrupts _ _ _ _ _ _ Hrun)
    as (calls & Hprog & Hlen & _ & Hcount).
  exists calls. split; [symmetry; exact Hprog|].
  split; [exact Hlen|]. apply Hcount. reflexivity.
Defined.

(** With batches of no transfer nothing is programmed. *)
Example program_desc_for_hw_only_flow_empty_batches :
  program_desc_for_hw_only_flow (mkDescriptorList 11 512 []) 512 0 3
  = (Value 0, mkDescriptorList 11 512 []).
Proof. vm_compute. reflexivity. Qed.

(** C8, on the PCIe driver of the examples: engine 3 or engine 1 requested,
    the channel is allocated on engine 0. *)
Lemma get_available_channel_id_example :
  get_available_channel_id example_manager (BOUNDARY, "in0", 0) H2D 3
  = (Value (mkChannelId 0 4), with_channel_allocator 5%nat example_manager)
  /\ get_available_channel_id example_manager (BOUNDARY, "in0", 0) H2D 3
     = get_available_channel_id example_manager (BOUNDARY, "in0", 0) H2D 1.
Proof.
  exact (get_available_channel_id_single_engine example_manager (BOUNDARY, "in0", 0)
           H2D 3 1 eq_refl).
Defined.

(** C9, after a header assembly that fails with [HAILO_NOT_FOUND]: nothing
    was sent, the latch is set, and the manager cannot be configured. *)
Lemma configure_after_failed_header_example :
  let rm' := with_is_configured true example_unknown_network_manager in
  configure 4 example_unknown_network_manager []
  = Done (HAILO_ERROR HAILO_NOT_FOUND, rm', [])
  /\ m_is_configured rm' = true
  /\ forall fuel'' device'',
       configure fuel'' rm' device''
       = Done (HAILO_ERROR HAILO_INTERNAL_FAILURE, rm', device'').
Proof.
  assert (Hrun : configure 4 example_unknown_network_manager []
                 = Done (HAILO_ERROR HAILO_NOT_FOUND,
                         with_is_configured true example_unknown_network_manager, []))
    by (vm_compute; reflexivity).
  split; [exact Hrun|].
  destruct (configure_latches_before_anything_else 4 example_unknown_network_manager []
              eq_refl) as [Hlatch _].
  exact (proj2 (Hlatch _ _ _ Hrun)).
Defined.

(** The same after a transmission that the firmware rejects. *)
Example configure_after_rejected_context :
  configure 4 example_rejected_manager []
  = Done (HAILO_ERROR HAILO_INTERNAL_FAILURE,
          with_is_configured true example_rejected_manager,
          [context_switch_set_network_group_header example_header;
           context_switch_set_context_info [[1; 2]; [3]]])
  /\ m_is_configured (with_is_configured true example_rejected_manager) = true.
Proof. split; vm_compute; reflexivity. Qed.

(** C10, for a network configured with the sentinel 0, a network configured
    with 2 and an unknown network. *)
Lemma get_network_batch_size_example :
  DEFAULT_ACTUAL_BATCH_SIZE <> HAILO_DEFAULT_BATCH_SIZE
  /\ get_network_batch_size example_default_batch_manager "a" = Value 1
  /\ get_network_batch_size example_default_batch_manager "c" = Value 2
  /\ get_network_batch_size example_default_batch_manager "b" = Unexpected HAILO_NOT_FOUND
  /\ exists p size,
       ("a", p) ∈ network_params_by_name (m_config_params example_default_batch_manager)
       /\ get_network_batch_size example_default_batch_manager "a" = Value size
       /\ size = (if decide (network_batch_size p = HAILO_DEFAULT_BATCH_SIZE)
                  then DEFAULT_ACTUAL_BATCH_SIZE else network_batch_size p)
       /\ size <> HAILO_DEFAULT_BATCH_SIZE.
Proof.
  assert (Hne : DEFAULT_ACTUAL_BATCH_SIZE <> HAILO_DEFAULT_BATCH_SIZE) by discriminate.
  split; [exact Hne|].
  do 3 (split; [vm_compute; reflexivity|]).
  destruct (get_network_batch_size_substitutes_default example_default_batch_manager Hne)
    as (Hconfigured & _).
  apply Hconfigured. left.
Defined.

(** Beyond 255 names the [uint8_t] index wraps around: on a table of 256
    names without the configured one, the search is still running after any
    number of steps tried here. *)
Example fill_network_batch_size_long_table :
  fill_network_batch_size 1000
    (example_manager_with pcie_platform 4%nat [("a", mkNetworkParameters 4)]
       (replicate 256 "b"))
    zero_application_header
  = Timeout.
Proof. vm_compute. reflexivity. Qed.

(** ** The further properties on the inputs of the examples *)

#[local] Existing Instance pcie_environment.

(** X5, on a context with two edge layers on distinct channels. *)
Lemma validated_edge_layers_example :
  validate_edge_layers example_edge_context = HAILO_SUCCESS
  /\ NoDup (channel_id <$> get_edge_layers_of example_edge_context NOT_SET None).
Proof.
  assert (Hvalid : validate_edge_layers example_edge_context = HAILO_SUCCESS)
    by (vm_compute; reflexivity).
  split; [exact Hvalid|].
  exact (validated_edge_layers_have_distinct_channels example_edge_context NOT_SET None
           Hvalid).
Defined.


(** X7, on the same call: one config buffer, on the config channel of the
    manager. *)
Lemma add_new_context_config_buffers_example :
  let rm' := with_new_context example_new_context 3 2 example_manager in
  add_new_context 2 example_manager 3 {[0 := [1]]}
  = Done (Value example_new_context, rm')
  /\ length (get_config_buffers example_new_context) = 1%nat
  /\ m_config_channels_ids rm' = [mkChannelId 0 0].
Proof.
  intros rm'.
  assert (Hrun : add_new_context 2 example_manager 3 {[0 := [1]]}
                 = Done (Value example_new_context, rm'))
    by (vm_compute; reflexivity).
  split; [exact Hrun|].
  destruct (add_new_context_config_buffers 2 example_manager rm' 3 {[0 := [1]]}
              example_new_context Hrun) as (Hlength & _ & Hids & _).
  split; [exact Hlength|exact Hids].
Defined.

(** X8, on [example_manager]: a buffer for stream 1 of context 0. *)
Lemma create_inter_context_buffer_then_get_example :
  create_inter_context_buffer example_manager 1024 1 0 "a" (mkChannelId 0 5)
  = (Value example_buffer, example_buffer_manager)
  /\ get_inter_context_buffer example_buffer_manager (0, 1) = Value example_buffer.
Proof.
  assert (Hrun : create_inter_context_buffer example_manager 1024 1 0 "a" (mkChannelId 0 5)
                 = (Value example_buffer, example_buffer_manager))
    by (vm_compute; reflexivity).
  split; [exact Hrun|].
  exact (proj1 (create_inter_context_buffer_then_get example_manager example_buffer_manager
                  1024 1 0 "a" (mkChannelId 0 5) example_buffer Hrun)).
Defined.

(** X9, on the manager that holds that buffer: a second creation under the
    same key, with another size, network and channel, changes nothing. *)
Lemma create_inter_context_buffer_keeps_existing_example :
  create_inter_context_buffer example_buffer_manager 2048 1 0 "c" (mkChannelId 0 6)
  = (Value example_buffer, example_buffer_manager)
  /\ m_inter_context_buffers example_buffer_manager !! (0, 1) = Some example_buffer
  /\ forall buffer, Value example_buffer = Value buffer -> buffer = example_buffer.
Proof.
  assert (Hrun : create_inter_context_buffer example_buffer_manager 2048 1 0 "c"
                   (mkChannelId 0 6)
                 = (Value example_buffer, example_buffer_manager))
    by (vm_compute; reflexivity).
  split; [exact Hrun|].
  destruct (create_inter_context_buffer_keeps_existing example_buffer_manager
              example_buffer_manager 2048 1 0 "c" (mkChannelId 0 6) (Value example_buffer)
              Hrun) as (Hexisting & _).
  split; [reflexivity|].
  exact (proj2 (Hexisting example_buffer eq_refl)).
Defined.

(** X10, on [example_stream_manager]: the channel of the new stream [in1]
    gets the id 4 of engine 0 and is found under that id and under the name
    of the stream. *)
Lemma create_boundary_vdma_channel_then_find_example :
  create_boundary_vdma_channel example_stream_manager example_new_layer
  = Done (HAILO_SUCCESS, example_stream_manager')
  /\ find_boundary_channel (m_boundary_channels example_stream_manager) (mkChannelId 0 4)
     = None
  /\ exists found,
       get_boundary_vdma_channel_by_stream_name example_stream_manager' "in1" = Value found
       /\ stream_name found = "in1".
Proof.
  assert (Hrun : create_boundary_vdma_channel example_stream_manager example_new_layer
                 = Done (HAILO_SUCCESS, example_stream_manager'))
    by (vm_compute; reflexivity).
  assert (Hfresh : find_boundary_channel (m_boundary_channels example_stream_manager)
                     (mkChannelId 0 4) = None)
    by (vm_compute; reflexivity).
  split; [exact Hrun|]. split; [exact Hfresh|].
  destruct (create_boundary_vdma_channel_then_find example_stream_manager
              example_stream_manager' example_new_layer (mkChannelId 0 4) Hrun eq_refl
              Hfresh) as (_ & Hfound & _).
  exact Hfound.
Defined.

(** X11, on the same call: undoing the allocation and the registration
    gives the manager back. *)
Lemma create_boundary_vdma_channel_changes_example :
  create_boundary_vdma_channel example_stream_manager example_new_layer
  = Done (HAILO_SUCCESS, example_stream_manager')
  /\ with_boundary_channels (m_boundary_channels example_stream_manager)
       (with_channel_allocator (m_channel_allocator example_stream_manager)
          example_stream_manager')
     = example_stream_manager.
Proof.
  assert (Hrun : create_boundary_vdma_channel example_stream_manager example_new_layer
                 = Done (HAILO_SUCCESS, example_stream_manager'))
    by (vm_compute; reflexivity).
  split; [exact Hrun|].
  destruct (create_boundary_vdma_channel_changes example_stream_manager
              example_stream_manager' example_new_layer HAILO_SUCCESS Hrun)
    as (_ & _ & Hundo).
  exact Hundo.
Defined.

(** X12, on the same call: the channels 1, 2 and 3 of engine 0 are in
    order, and so are the channels 1, 2, 3 and 4 afterwards. *)
Lemma create_boundary_vdma_channel_keeps_order_example :
  boundary_channels_sorted (m_boundary_channels example_stream_manager)
  /\ create_boundary_vdma_channel example_stream_manager example_new_layer
     = Done (HAILO_SUCCESS, example_stream_manager')
  /\ boundary_channels_sorted (m_boundary_channels example_stream_manager').
Proof.
  assert (Hsorted : boundary_channels_sorted (m_boundary_channels example_stream_manager))
    by (unfold boundary_channels_sorted; repeat constructor).
  assert (Hrun : create_boundary_vdma_channel example_stream_manager example_new_layer
                 = Done (HAILO_SUCCESS, example_stream_manager'))
    by (vm_compute; reflexivity).
  split; [exact Hsorted|]. split; [exact Hrun|].
  exact (proj1 (create_boundary_vdma_channel_keeps_order example_stream_manager
                  example_stream_manager' example_new_layer HAILO_SUCCESS Hsorted Hrun)).
Defined.

(** X13, on the same call: an interrupt of the new channel, seven
    descriptors processed, reaches its completion trigger. *)
Lemma created_boundary_channel_is_routed_example :
  create_boundary_vdma_channel example_stream_manager example_new_layer
  = Done (HAILO_SUCCESS, example_stream_manager')
  /\ exists events',
       process_interrupts example_stream_manager'
         (mkIrqData 1 [mkChannelIrqData (mkChannelId 0 4) true 7 0 0]) []
       = Done events'
       /\ completions events' = completions [] ++ [(mkChannelId 0 4, 7)].
Proof.
  assert (Hrun : create_boundary_vdma_channel example_stream_manager example_new_layer
                 = Done (HAILO_SUCCESS, example_stream_manager'))
    by (vm_compute; reflexivity).
  split; [exact Hrun|].
  exact (created_boundary_channel_is_routed example_stream_manager example_stream_manager'
           example_new_layer (mkChannelIrqData (mkChannelId 0 4) true 7 0 0) []
           Hrun eq_refl eq_refl eq_refl eq_refl).
Defined.

(** X14, for three batches of two one-descriptor transfers on an empty
    list of 11 descriptors: six descriptors, programmed back to back. *)
Lemma program_desc_for_hw_only_flow_layout_example :
  program_desc_for_hw_only_flow (mkDescriptorList 11 512 []) 512 2 3
  = (Value 6,
     mkDescriptorList 11 512
       [example_call NONE 0; example_call DEVICE 1; example_call NONE 2;
        example_call DEVICE 3; example_call NONE 4; example_call DEVICE 5])
  /\ exists calls counts,
       programs_from (mkDescriptorList 11 512 []) 0 calls counts
       /\ 6 = total_descs counts.
Proof.
  assert (Hrun : program_desc_for_hw_only_flow (mkDescriptorList 11 512 []) 512 2 3
                 = (Value 6,
                    mkDescriptorList 11 512
                      [example_call NONE 0; example_call DEVICE 1; example_call NONE 2;
                       example_call DEVICE 3; example_call NONE 4; example_call DEVICE 5]))
    by (vm_compute; reflexivity).
  split; [exact Hrun|].
  destruct (program_desc_for_hw_only_flow_layout _ _ _ _ _ _ Hrun)
    as (calls & counts & _ & Hprograms & Htotal & _).
  exists calls, counts. split; [exact Hprograms|exact Htotal].
Defined.

(** X15, for the same request on a list of 4 descriptors: the fifth call
    is refused, and the four calls made are the beginning of the pattern. *)
Lemma program_desc_for_hw_only_flow_prefix_example :
  program_desc_for_hw_only_flow (mkDescriptorList 4 512 []) 512 2 3
  = (Unexpected HAILO_INVALID_ARGUMENT,
     mkDescriptorList 4 512
       [example_call NONE 0; example_call DEVICE 1; example_call NONE 2;
        example_call DEVICE 3])
  /\ exists calls,
       mkDescriptorList 4 512
         [example_call NONE 0; example_call DEVICE 1; example_call NONE 2;
          example_call DEVICE 3]
       = mkDescriptorList 4 512 ([] ++ calls)
       /\ interrupt_domains calls `prefix_of` [NONE; DEVICE; NONE; DEVICE; NONE; DEVICE].
Proof.
  assert (Hrun : program_desc_for_hw_only_flow (mkDescriptorList 4 512 []) 512 2 3
                 = (Unexpected HAILO_INVALID_ARGUMENT,
                    mkDescriptorList 4 512
                      [example_call NONE 0; example_call DEVICE 1; example_call NONE 2;
                       example_call DEVICE 3]))
    by (vm_compute; reflexivity).
  split; [exact Hrun|].
  destruct (program_desc_for_hw_only_flow_prefix _ _ _ _ _ _ Hrun)
    as (calls & Hcalls & Hprefix & _).
  exists calls. split; [exact Hcalls|exact Hprefix].
Defined.

(** X17, on a firmware that rejects the contexts: the header is accepted,
    the first context is rejected and the second one is never sent. *)
Lemma configure_stops_at_first_failure_example :
  configure 4 example_rejected_manager []
  = Done (HAILO_ERROR HAILO_INTERNAL_FAILURE,
          with_is_configured true example_rejected_manager,
          [] ++ take 2 (configuration_messages example_rejected_manager example_header)).
Proof.
  destruct (@configure_stops_at_first_failure rejecting_platform 4 example_rejected_manager
              [] eq_refl) as [_ Hrejected].
  apply (Hrejected example_header 1%nat (context_switch_set_context_info [[1; 2]; [3]])
           HAILO_INTERNAL_FAILURE).
  - vm_compute. reflexivity.
  - simpl. split; [reflexivity|exact I].
  - reflexivity.
  - reflexivity.
Defined.

(** X18, on [example_manager]: one dynamic context, two configured
    networks, eight batch sizes and 512-byte descriptor pages. *)
Lemma get_control_core_op_header_assembled_example :
  exists header,
    get_control_core_op_header 4 example_manager = Done (Value header)
    /\ dynamic_contexts_count header = 1
    /\ networks_count header = 2
    /\ csm_buffer_size header = 512
    /\ length (batch_size header) = 8%nat.
Proof.
  destruct (get_control_core_op_header_assembled 4 example_manager) as [Hfound _];
    [vm_compute; lia|vm_compute; discriminate|vm_compute; lia|].
  destruct Hfound as (header & Hrun & Hdynamic & _ & _ & Hcount & Hcsm & Hlength & _).
  { repeat constructor. }
  exists header. split; [exact Hrun|]. split; [exact Hdynamic|].
  split; [exact Hcount|]. split; [exact Hcsm|exact Hlength].
Defined.

(** X19, on the batch of the examples with failing triggers: seven events
    for five records, the two failures reported with
    [HAILO_INTERNAL_FAILURE]. *)
Lemma process_interrupts_reports_example :
  exists added,
    process_interrupts example_irq_manager example_irq_data [] = Done ([] ++ added)
    /\ Forall reported_trigger_status added
    /\ (5 <= length added <= 10)%nat.
Proof.
  apply (@process_interrupts_reports failing_trigger_platform example_irq_manager
           example_irq_data []).
  vm_compute. discriminate.
Defined.

(** X22, for two config channels: the ids are channel 0 of engine 0 and
    channel 1 of engine 1, and the manager has no context yet. *)
Lemma ResourcesManager_create_fresh_example :
  exists rm,
    ResourcesManager_create 3 example_driver example_create_params example_metadata
      example_config_channels 7 = Done (Value rm)
    /\ m_config_channels_ids rm = [mkChannelId 0 0; mkChannelId 1 1]
    /\ length (m_config_channels_ids rm) = 2%nat
    /\ m_contexts_resources rm = []
    /\ counters_consistent rm.
Proof.
  destruct (ResourcesManager_create_fresh 3 example_driver example_create_params
              example_metadata example_config_channels 7) as (result & Hrun & Hresult);
    [vm_compute; lia|vm_compute; lia|].
  destruct result as [rm|status].
  - destruct Hresult as (Hids & Hlength & _ & _ & _ & _ & _ & _ & Hcontexts & _ & _ & _
                         & Hcounters).
    exists rm. split; [exact Hrun|].
    split; [|split; [exact Hlength|split; [exact Hcontexts|exact Hcounters]]].
    vm_compute in Hids. injection Hids as Hids _. symmetry. exact Hids.
  - vm_compute in Hrun. discriminate Hrun.
Defined.

(** X24, on [example_manager]: the channels 1, 2 and 3 of engine 0 give the
    word 14 for engine 0, and no timestamps are measured. *)
Lemma start_vdma_interrupts_dispatcher_bitmap_example :
  Forall (fun boundary_channel => in_channels_bitmap boundary_channel.1)
    (m_boundary_channels example_manager)
  /\ start_vdma_interrupts_dispatcher example_manager []
     = Done (HAILO_SUCCESS, [mkDispatcherStart [14; 0; 0] false])
  /\ exists call,
       start_vdma_interrupts_dispatcher example_manager []
       = Done (dispatcher_start_status call, [] ++ [call])
       /\ length (channels_bitmap call) = 3%nat.
Proof.
  assert (Hchannels : Forall (fun boundary_channel => in_channels_bitmap boundary_channel.1)
                        (m_boundary_channels example_manager)).
  { repeat constructor; vm_compute; discriminate. }
  split; [exact Hchannels|]. split; [vm_compute; reflexivity|].
  destruct (start_vdma_interrupts_dispatcher_bitmap example_manager [] Hchannels)
    as [_ Hstarted].
  destruct (Hstarted eq_refl) as (call & Hrun & Hlength & _).
  exists call. split; [exact Hrun|exact Hlength].
Defined.

(** A second host-to-device layer rules the latency meter out; the meter of
    the three layers of the examples watches the two output streams. *)
Example create_hw_latency_meter_example :
  create_hw_latency_meter example_layers = Value (mkLatencyMeter ["out0"; "out1"] 128)
  /\ create_hw_latency_meter (example_new_layer :: example_layers)
     = Unexpected HAILO_INVALID_OPERATION.
Proof. split; vm_compute; reflexivity. Qed.

(** Of the four channels of [example_stream_manager'] only the channel of
    [in1] is asynchronous. *)
Example cancel_pending_async_transfers_example :
  cancel_pending_async_transfers example_stream_manager' []
  = (HAILO_SUCCESS, [cancel_pending_transfers (mkChannelId 0 4)]).
Proof. vm_compute. reflexivity. Qed.

(** X25, for a second DDR pair with the stream index of the first: the pair
    is added, and the first one is still the one found. *)
Lemma create_ddr_channels_pair_then_get_example :
  let first := mkDdrChannelsPair (mkDdrChannelsInfo 2 10) in
  let second := mkDdrChannelsPair (mkDdrChannelsInfo 2 20) in
  create_ddr_channels_pair example_driver [first] (mkDdrChannelsInfo 2 20)
  = (Value second, [first; second])
  /\ get_ddr_channels_pair [first; second] 2 = Value first.
Proof.
  intros first second.
  assert (Hrun : create_ddr_channels_pair example_driver [first] (mkDdrChannelsInfo 2 20)
                 = (Value second, [first; second]))
    by (vm_compute; reflexivity).
  split; [exact Hrun|].
  destruct (create_ddr_channels_pair_then_get example_driver [first] [first; second]
              (mkDdrChannelsInfo 2 20) (Value second) Hrun) as ((_ & _ & Hget) & _).
  exact (Hget 2).
Defined.
